(** * report-news: collection, summarisation and rendering of tool news

    A shallow embedding of the Python pipeline:
    - [src/models/news_item.py]     the item model and its dictionary form,
    - [src/collector/gemini_search.py]   per-tool collection and URL dedup,
    - [src/summarizer/claude_summarizer.py]   batched merge-by-id,
    - [src/publisher/html_generator.py]  grouping and the rolling index.

    Python objects that are mutated in place live in a store addressed by
    references; external services (the two text generators, the clock, the
    [json], [re] and [datetime] libraries) are parameters of the sections
    that use them. *)

From Stdlib Require Import ZArith String Ascii List Floats.SpecFloat.
From stdpp Require Import base decidable option list functions gmap strings sorting.

Set Warnings "-register-all,-clear-no-such-hyp".
Open Scope string_scope.
Open Scope list_scope.
Open Scope nat_scope.

(** ** Python values and exceptions *)

(** The values [json.loads] can produce. A [PDict] keeps its bindings in
    insertion order, one binding per key. *)
Inductive pyval :=
| PNone
| PBool (b : bool)
| PInt (z : Z)
| PFloat (f : spec_float)
| PStr (s : string)
| PList (l : list pyval)
| PDict (kvs : list (string * pyval)).

Inductive exn :=
| KeyError
| TypeError
| ValueError
| AttributeError
| JSONDecodeError
| OverflowError
| APIError.

(** [d.get(k)] and [d.get(k, default)] on the bindings of a dict. *)
Fixpoint dict_lookup (kvs : list (string * pyval)) (k : string) : option pyval :=
  match kvs with
  | [] => None
  | (k', v) :: rest => if String.eqb k' k then Some v else dict_lookup rest k
  end.

Definition dict_get (kvs : list (string * pyval)) (k : string) (dflt : pyval) : pyval :=
  match dict_lookup kvs k with
  | Some v => v
  | None => dflt
  end.

(** Truthiness of a value, as [if v:] tests it. *)
Definition truthy (v : pyval) : bool :=
  match v with
  | PNone => false
  | PBool b => b
  | PInt z => negb (z =? 0)%Z
  | PFloat (S754_zero _) => false
  | PFloat _ => true
  | PStr s => negb (String.eqb s EmptyString)
  | PList l => match l with [] => false | _ => true end
  | PDict kvs => match kvs with [] => false | _ => true end
  end.

(** ** Python strings *)

(** A [str] is held in UTF-8: a character is a byte that is no
    continuation byte, followed by its continuation bytes. *)
Definition is_continuation (c : ascii) : bool :=
  let n := nat_of_ascii c in (128 <=? n) && (n <? 192).

(** [len(s)] *)
Fixpoint py_len (s : string) : nat :=
  match s with
  | EmptyString => 0
  | String c rest => if is_continuation c then py_len rest else S (py_len rest)
  end.

(** [s[:n]] for a non-negative [n]: the first [n] characters. *)
Fixpoint str_slice_to (s : string) (n : nat) : string :=
  match s with
  | EmptyString => EmptyString
  | String c rest =>
      if is_continuation c then String c (str_slice_to rest n)
      else
        match n with
        | 0 => EmptyString
        | S k => String c (str_slice_to rest k)
        end
  end.

(** ** The item model ([src/models/news_item.py]) *)

Inductive Importance := CRITICAL | HIGH | MEDIUM | LOW.

Inductive Category :=
| RELEASE | FEATURE | UPDATE | BUGFIX | SECURITY | DOCUMENTATION | ANNOUNCEMENT | OTHER.

(** The [.value] of an enum member. *)
Definition Importance_value (i : Importance) : string :=
  match i with
  | CRITICAL => "critical"
  | HIGH => "high"
  | MEDIUM => "medium"
  | LOW => "low"
  end.

Definition Category_value (c : Category) : string :=
  match c with
  | RELEASE => "release"
  | FEATURE => "feature"
  | UPDATE => "update"
  | BUGFIX => "bugfix"
  | SECURITY => "security"
  | DOCUMENTATION => "documentation"
  | ANNOUNCEMENT => "announcement"
  | OTHER => "other"
  end.

Definition Importance_members : list Importance := [CRITICAL; HIGH; MEDIUM; LOW].

Definition Category_members : list Category :=
  [RELEASE; FEATURE; UPDATE; BUGFIX; SECURITY; DOCUMENTATION; ANNOUNCEMENT; OTHER].

(** [Importance(v)] and [Category(v)]: the member whose value equals [v];
    any other Python value raises [ValueError]. Only a [str] can equal a
    member's value. *)
Definition enum_of_value {E} (members : list E) (value : E → string) (v : pyval) : exn + E :=
  match v with
  | PStr s =>
      match List.find (λ m, String.eqb (value m) s) members with
      | Some m => inr m
      | None => inl ValueError
      end
  | _ => inl ValueError
  end.

Definition Importance_of (v : pyval) : exn + Importance :=
  enum_of_value Importance_members Importance_value v.

Definition Category_of (v : pyval) : exn + Category :=
  enum_of_value Category_members Category_value v.

(** A naive [datetime] (what [strptime] and [datetime.now] produce). *)
Record datetime := {
  dt_year : Z; dt_month : Z; dt_day : Z;
  dt_hour : Z; dt_minute : Z; dt_second : Z; dt_microsecond : Z
}.

(** [title], [url] and [content] are annotated [str], but the collector
    stores the JSON values of a search result in them as they are, and
    likewise the summariser in [summary_ja], [summary_en] and [tags]
    (annotated [str], [str] and [list[str]]): these fields hold a [pyval].
    [tool_name] and [source] come from the configuration and from the
    code. *)
Record NewsItem := {
  title : pyval;
  url : pyval;
  tool_name : string;
  source : string;
  published_at : option datetime;
  content : pyval;
  summary_ja : pyval;
  summary_en : pyval;
  importance : Importance;
  category : Category;
  tags : pyval;
  raw_data : list (string * pyval)
}.

Record ToolConfig := {
  name : string;
  vendor : string;
  keywords : list string;
  search_queries : list string;
  official_links : list string
}.

Record DailyReport := {
  date : datetime;
  news_items : list NewsItem;
  generated_at : datetime
}.

(** ** Python list slicing [l[:n]] *)

(** A negative stop counts from the end of the list. *)
Definition py_slice_to {A} (l : list A) (n : Z) : list A :=
  if decide (0 ≤ n)%Z then take (Z.to_nat n) l
  else take (Z.to_nat (Z.of_nat (length l) + n)) l.

(** ** Hashing: dictionary keys and set elements *)

(** The integer a float is numerically equal to, if there is one. *)
Definition float_int_value (f : spec_float) : option Z :=
  match f with
  | S754_zero _ => Some 0%Z
  | S754_finite s m e =>
      let sign := if s then Z.opp else (λ z, z) in
      if (0 <=? e)%Z then Some (sign (Z.pos m * 2 ^ e)%Z)
      else if (Z.pos m mod 2 ^ (- e) =? 0)%Z then Some (sign (Z.pos m / 2 ^ (- e))%Z)
      else None
  | _ => None
  end.

(** Keys of a Python [dict] and elements of a [set], up to Python
    equality: [True == 1 == 1.0] are one key. *)
Inductive pykey :=
| KNone
| KInt (z : Z)
| KFloat (f : spec_float)
| KStr (s : string).

(** Hashing a value to use it as a key or to look it up in a set; lists
    and dicts are unhashable. *)
Definition hash_key (v : pyval) : exn + pykey :=
  match v with
  | PNone => inr KNone
  | PBool b => inr (KInt (if b then 1 else 0))
  | PInt z => inr (KInt z)
  | PFloat f =>
      inr (match float_int_value f with
           | Some z => KInt z
           | None => KFloat f
           end)
  | PStr s => inr (KStr s)
  | PList _ | PDict _ => inl TypeError
  end.

#[global] Instance spec_float_eq_dec : EqDecision spec_float.
Proof. solve_decision. Defined.

#[global] Instance spec_float_countable : Countable spec_float.
Proof.
  refine (inj_countable'
    (λ f, match f with
          | S754_zero s => inl (inl s)
          | S754_infinity s => inl (inr s)
          | S754_nan => inr (inl ())
          | S754_finite s m e => inr (inr (s, m, e))
          end)
    (λ x, match x with
          | inl (inl s) => S754_zero s
          | inl (inr s) => S754_infinity s
          | inr (inl _) => S754_nan
          | inr (inr (s, m, e)) => S754_finite s m e
          end) _).
  by intros [].
Defined.

#[global] Instance pykey_eq_dec : EqDecision pykey.
Proof. solve_decision. Defined.

#[global] Instance pykey_countable : Countable pykey.
Proof.
  refine (inj_countable'
    (λ k, match k with
          | KNone => inl (inl ())
          | KInt z => inl (inr z)
          | KFloat f => inr (inl f)
          | KStr s => inr (inr s)
          end)
    (λ x, match x with
          | inl (inl _) => KNone
          | inl (inr z) => KInt z
          | inr (inl f) => KFloat f
          | inr (inr s) => KStr s
          end) _).
  by intros [].
Defined.

(** [r[k]] for a string [k]: only a dict can be indexed by a string. *)
Definition getitem_str (r : pyval) (k : string) : exn + pyval :=
  match r with
  | PDict kvs =>
      match dict_lookup kvs k with
      | Some v => inr v
      | None => inl KeyError
      end
  | _ => inl TypeError
  end.

(** [r.get(k, default)]: only a dict has [get]. *)
Definition pyval_get (r : pyval) (k : string) (dflt : pyval) : exn + pyval :=
  match r with
  | PDict kvs => inr (dict_get kvs k dflt)
  | _ => inl AttributeError
  end.

(** ** The collector ([src/collector/gemini_search.py]) *)

Section Collector.
(** The state of the outside world: the search-grounded generator and the
    clock. *)
Context {World : Type}.

(** [_search_and_parse(query, tool_name, date_filter, max_results)]: one
    request to the generator and the parse of its answer into items. *)
Variable _search_and_parse :
  World → string → string → string → Z → World * (exn + list NewsItem).

(** [(datetime.now() - timedelta(days=days_back)).strftime("%Y-%m-%d")]:
    [timedelta] and the subtraction raise [OverflowError] when the days or
    the resulting date are out of range. *)
Variable date_filter_of : World → Z → exn + string.

(** The first loop of [search_tool_news]: one search per query; a query
    that raises contributes nothing. *)
Fixpoint gather_queries (w : World) (queries : list string) (tool : string)
    (date_filter : string) (max_results : Z) (news_items : list NewsItem)
    : World * list NewsItem :=
  match queries with
  | [] => (w, news_items)
  | query :: rest =>
      match _search_and_parse w query tool date_filter max_results with
      | (w', inr items) =>
          gather_queries w' rest tool date_filter max_results (news_items ++ items)
      | (w', inl _) =>
          gather_queries w' rest tool date_filter max_results news_items
      end
  end.

(** The second loop: [seen_urls] is a set, [unique_items] a list. The test
    [item.url not in seen_urls] hashes the url, which raises [TypeError] on
    a list or a dict; the loop is not inside a [try]. *)
Fixpoint dedup_loop (news_items : list NewsItem) (seen_urls : gset pykey)
    (unique_items : list NewsItem) : exn + list NewsItem :=
  match news_items with
  | [] => inr unique_items
  | item :: rest =>
      match hash_key (url item) with
      | inl e => inl e
      | inr k =>
          if decide (k ∉ seen_urls)
          then dedup_loop rest ({[k]} ∪ seen_urls) (unique_items ++ [item])
          else dedup_loop rest seen_urls unique_items
      end
  end.

Definition search_tool_news (w : World) (tool_config : ToolConfig)
    (days_back : Z) (max_results : Z) : World * (exn + list NewsItem) :=
  match date_filter_of w days_back with
  | inl e => (w, inl e)
  | inr date_filter =>
      let '(w', news_items) :=
        gather_queries w (search_queries tool_config) (name tool_config)
          date_filter max_results [] in
      match dedup_loop news_items ∅ [] with
      | inl e => (w', inl e)
      | inr unique_items => (w', inr (py_slice_to unique_items max_results))
      end
  end.

(** The loop of [collect_all_news]: an exception of [search_tool_news] is
    not caught. *)
Fixpoint collect_loop (w : World) (tool_configs : list ToolConfig)
    (days_back max_results_per_tool : Z) (all_news : list NewsItem)
    : World * (exn + list NewsItem) :=
  match tool_configs with
  | [] => (w, inr all_news)
  | config :: rest =>
      match search_tool_news w config days_back max_results_per_tool with
      | (w', inl e) => (w', inl e)
      | (w', inr news) =>
          collect_loop w' rest days_back max_results_per_tool (all_news ++ news)
      end
  end.

Definition collect_all_news (w : World) (tool_configs : list ToolConfig)
    (days_back max_results_per_tool : Z) : World * (exn + list NewsItem) :=
  collect_loop w tool_configs days_back max_results_per_tool [].

End Collector.

(** ** The object store *)

(** A [NewsItem] object is a reference into the store; two list positions
    holding the same reference are the same object. *)
Definition ref := nat.
Definition heap := ref → NewsItem.

(** A computation that reads and writes the store and may raise. What it
    wrote before raising stays written. *)
Definition M (A : Type) : Type := heap → heap * (exn + A).

Definition ret {A} (a : A) : M A := λ h, (h, inr a).
Definition raise {A} (e : exn) : M A := λ h, (h, inl e).
Definition bind {A B} (c : M A) (k : A → M B) : M B :=
  λ h, match c h with
       | (h', inr a) => k a h'
       | (h', inl e) => (h', inl e)
       end.
Definition lift {A} (r : exn + A) : M A :=
  match r with
  | inr a => ret a
  | inl e => raise e
  end.

#[global] Instance M_ret : MRet M := @ret.
#[global] Instance M_bind : MBind M := λ A B k c, bind c k.

(** Attribute assignment [item.f = v]. *)
Definition with_summary_ja (x : NewsItem) (v : pyval) : NewsItem :=
  {| title := title x; url := url x; tool_name := tool_name x; source := source x;
     published_at := published_at x; content := content x;
     summary_ja := v; summary_en := summary_en x;
     importance := importance x; category := category x;
     tags := tags x; raw_data := raw_data x |}.

Definition with_summary_en (x : NewsItem) (v : pyval) : NewsItem :=
  {| title := title x; url := url x; tool_name := tool_name x; source := source x;
     published_at := published_at x; content := content x;
     summary_ja := summary_ja x; summary_en := v;
     importance := importance x; category := category x;
     tags := tags x; raw_data := raw_data x |}.

Definition with_importance (x : NewsItem) (v : Importance) : NewsItem :=
  {| title := title x; url := url x; tool_name := tool_name x; source := source x;
     published_at := published_at x; content := content x;
     summary_ja := summary_ja x; summary_en := summary_en x;
     importance := v; category := category x;
     tags := tags x; raw_data := raw_data x |}.

Definition with_category (x : NewsItem) (v : Category) : NewsItem :=
  {| title := title x; url := url x; tool_name := tool_name x; source := source x;
     published_at := published_at x; content := content x;
     summary_ja := summary_ja x; summary_en := summary_en x;
     importance := importance x; category := v;
     tags := tags x; raw_data := raw_data x |}.

Definition with_tags (x : NewsItem) (v : pyval) : NewsItem :=
  {| title := title x; url := url x; tool_name := tool_name x; source := source x;
     published_at := published_at x; content := content x;
     summary_ja := summary_ja x; summary_en := summary_en x;
     importance := importance x; category := category x;
     tags := v; raw_data := raw_data x |}.

Definition setattr {V} (upd : NewsItem → V → NewsItem) (item : ref) (v : V) : M () :=
  λ h, (<[item := upd (h item) v]> h, inr ()).

(** ** The summariser ([src/summarizer/claude_summarizer.py]) *)

(** One entry of [items_data], the payload of the prompt. *)
Record ItemData := {
  id_idx : nat;
  id_title : pyval;
  id_url : pyval;
  id_tool_name : string;
  id_content : pyval
}.

Definition batch_size : nat := 10.

(** [range(0, stop, step)] *)
Definition py_range0 (stop step : nat) : list nat :=
  (λ k, k * step) <$> seq 0 ((stop + step - 1) / step).

(** [{r["id"]: r for r in results}]: a later result replaces an earlier
    one with an equal id. *)
Fixpoint build_result_map (results : list pyval) (m : gmap pykey pyval)
    : exn + gmap pykey pyval :=
  match results with
  | [] => inr m
  | r :: rest =>
      match getitem_str r "id" with
      | inl e => inl e
      | inr k =>
          match hash_key k with
          | inl e => inl e
          | inr key => build_result_map rest (<[key := r]> m)
          end
      end
  end.

(** The body of the merge loop for one item with a matching result. *)
Definition merge_item (item : ref) (r : pyval) : M () :=
  v ← lift (pyval_get r "summary_ja" (PStr EmptyString));
  setattr with_summary_ja item v;;
  v ← lift (pyval_get r "summary_en" (PStr EmptyString));
  setattr with_summary_en item v;;
  v ← lift (pyval_get r "importance" (PStr "medium"));
  i ← lift (Importance_of v);
  setattr with_importance item i;;
  v ← lift (pyval_get r "category" (PStr "other"));
  c ← lift (Category_of v);
  setattr with_category item c;;
  v ← lift (pyval_get r "tags" (PList []));
  setattr with_tags item v.

(** [for idx, item in enumerate(original_items)] *)
Fixpoint merge_loop (result_map : gmap pykey pyval) (idx : nat)
    (original_items : list ref) : M () :=
  match original_items with
  | [] => mret ()
  | item :: rest =>
      match result_map !! KInt (Z.of_nat idx) with
      | Some r => merge_item item r
      | None => mret ()
      end;;
      merge_loop result_map (S idx) rest
  end.

(** The merge block of [_parse_response], from the parsed [results] on. *)
Definition merge_results (results : list pyval) (original_items : list ref) : M () :=
  result_map ← lift (build_result_map results ∅);
  merge_loop result_map 0 original_items.

(** [if not isinstance(results, list): results = [results]] *)
Definition as_list (results : pyval) : list pyval :=
  match results with
  | PList l => l
  | other => [other]
  end.

Section Summarizer.
(** The state of the text-generation service. *)
Context {World : Type}.

(** [client.messages.create(...)] followed by [response.content[0].text],
    for the prompt built from [items_data]. *)
Variable messages_create : World → list ItemData → World * (exn + string).

(** [re.search] for a fenced json block, giving its group 1. *)
Variable re_search_json_block : string → option string.

(** [json.loads]; [None] is [json.JSONDecodeError]. *)
Variable json_loads : string → option pyval.

Definition json_str_of (response_text : string) : string :=
  match re_search_json_block response_text with
  | Some group1 => group1
  | None => response_text
  end.

Definition _parse_response (response_text : string) (original_items : list ref)
    : M (list ref) :=
  let json_str := json_str_of response_text in
  match json_loads json_str with
  | None => mret original_items
  | Some results =>
      merge_results (as_list results) original_items;;
      mret original_items
  end.

(** The exception that [d[:500]] raises on a dict [d]: [TypeError] (a
    slice is unhashable) before Python 3.12, [KeyError] since. *)
Variable dict_slice_error : exn.

(** [item.content[:500] if item.content else ""]: a string is cut after
    500 characters, a list after 500 elements; a true value of another type
    cannot be sliced. *)
Definition content_slice (content : pyval) : exn + pyval :=
  if truthy content then
    match content with
    | PStr s => inr (PStr (str_slice_to s 500))
    | PList l => inr (PList (take 500 l))
    | PDict _ => inl dict_slice_error
    | _ => inl TypeError
    end
  else inr (PStr EmptyString).

(** [for idx, item in enumerate(news_items): items_data.append({...})] *)
Fixpoint items_data_loop (h : heap) (idx : nat) (news_items : list ref)
    (items_data : list ItemData) : exn + list ItemData :=
  match news_items with
  | [] => inr items_data
  | item :: rest =>
      match content_slice (content (h item)) with
      | inl e => inl e
      | inr c =>
          items_data_loop h (S idx) rest
            (items_data ++
               [{| id_idx := idx;
                   id_title := title (h item);
                   id_url := url (h item);
                   id_tool_name := tool_name (h item);
                   id_content := c |}])
      end
  end.

Definition items_data_of (h : heap) (news_items : list ref) : exn + list ItemData :=
  items_data_loop h 0 news_items [].

(** The payload is built before the [try]: an exception of the slicing
    leaves [_process_batch]; one of the request or of the parse is caught. *)
Definition _process_batch (w : World) (news_items : list ref) (h : heap)
    : World * heap * (exn + list ref) :=
  match items_data_of h news_items with
  | inl e => (w, h, inl e)
  | inr items_data =>
      match messages_create w items_data with
      | (w', inr text) =>
          match _parse_response text news_items h with
          | (h', inr processed) => (w', h', inr processed)
          | (h', inl _) => (w', h', inr news_items)
          end
      | (w', inl _) => (w', h, inr news_items)
      end
  end.

(** [for i in range(0, len(news_items), batch_size)] *)
Fixpoint batches_loop (w : World) (h : heap) (news_items : list ref)
    (starts : list nat) (processed_items : list ref)
    : World * heap * (exn + list ref) :=
  match starts with
  | [] => (w, h, inr processed_items)
  | i :: rest =>
      let batch := take batch_size (drop i news_items) in
      match _process_batch w batch h with
      | (w', h', inl e) => (w', h', inl e)
      | (w', h', inr processed) =>
          batches_loop w' h' news_items rest (processed_items ++ processed)
      end
  end.

Definition summarize_and_categorize (w : World) (news_items : list ref) (h : heap)
    : World * heap * (exn + list ref) :=
  match news_items with
  | [] => (w, h, inr [])
  | _ =>
      batches_loop w h news_items (py_range0 (length news_items) batch_size) []
  end.

End Summarizer.

(** ** The dictionary form of an item ([NewsItem.to_dict], [from_dict]) *)

(** Reading the fields of [data]. For [tool_name] and [source] (and for
    the fields of a tool configuration) the model keeps the annotated
    types: on a dictionary holding a value of another type where the
    annotation says [str], the outcome is [None] (not modelled). Otherwise
    it is [Some] of what Python does: a result or the exception raised. *)
Definition field_value (data : list (string * pyval)) (k : string)
    : option (exn + pyval) :=
  match dict_lookup data k with
  | None => Some (inl KeyError)
  | Some v => Some (inr v)
  end.

Definition field_required (data : list (string * pyval)) (k : string)
    : option (exn + string) :=
  match dict_lookup data k with
  | None => Some (inl KeyError)
  | Some (PStr s) => Some (inr s)
  | Some _ => None
  end.

Definition field_default (data : list (string * pyval)) (k : string) (dflt : string)
    : option (exn + string) :=
  match dict_lookup data k with
  | None => Some (inr dflt)
  | Some (PStr s) => Some (inr s)
  | Some _ => None
  end.

Definition and_then {A B} (c : option (exn + A)) (k : A → option (exn + B))
    : option (exn + B) :=
  match c with
  | Some (inr a) => k a
  | Some (inl e) => Some (inl e)
  | None => None
  end.

Section DictForm.
(** [datetime.isoformat] and [datetime.fromisoformat]. *)
Variable isoformat : datetime → string.
Variable fromisoformat : string → exn + datetime.

Definition to_dict (self : NewsItem) : list (string * pyval) :=
  [ ("title", title self);
    ("url", url self);
    ("tool_name", PStr (tool_name self));
    ("source", PStr (source self));
    ("published_at",
       match published_at self with
       | Some d => PStr (isoformat d)
       | None => PNone
       end);
    ("content", content self);
    ("summary_ja", summary_ja self);
    ("summary_en", summary_en self);
    ("importance", PStr (Importance_value (importance self)));
    ("category", PStr (Category_value (category self)));
    ("tags", tags self) ].

Definition parse_published_at (data : list (string * pyval))
    : exn + option datetime :=
  let v := dict_get data "published_at" PNone in
  if truthy v then
    match v with
    | PStr s =>
        match fromisoformat s with
        | inr d => inr (Some d)
        | inl e => inl e
        end
    | _ => inl TypeError
    end
  else inr None.

Definition from_dict (data : list (string * pyval)) : option (exn + NewsItem) :=
  and_then (Some (parse_published_at data)) (λ published_at,
  and_then (field_value data "title") (λ title,
  and_then (field_value data "url") (λ url,
  and_then (field_required data "tool_name") (λ tool_name,
  and_then (field_required data "source") (λ source,
  let content := dict_get data "content" (PStr EmptyString) in
  let summary_ja := dict_get data "summary_ja" (PStr EmptyString) in
  let summary_en := dict_get data "summary_en" (PStr EmptyString) in
  and_then (Some (Importance_of (dict_get data "importance" (PStr "medium")))) (λ importance,
  and_then (Some (Category_of (dict_get data "category" (PStr "other")))) (λ category,
  let tags := dict_get data "tags" (PList []) in
  Some (inr
    {| title := title; url := url; tool_name := tool_name; source := source;
       published_at := published_at; content := content;
       summary_ja := summary_ja; summary_en := summary_en;
       importance := importance; category := category;
       tags := tags; raw_data := [] |})))))))).

End DictForm.

(** ** The report renderer ([src/publisher/html_generator.py]) *)

(** [news_by_tool[k].append(item)] on a [defaultdict(list)]: a dict keeps
    its keys in insertion order. *)
Fixpoint defaultdict_append (d : list (string * list NewsItem)) (k : string)
    (item : NewsItem) : list (string * list NewsItem) :=
  match d with
  | [] => [(k, [item])]
  | (k', l) :: rest =>
      if String.eqb k' k then (k', l ++ [item]) :: rest
      else (k', l) :: defaultdict_append rest k item
  end.

Fixpoint group_by_tool (items : list NewsItem) (news_by_tool : list (string * list NewsItem))
    : list (string * list NewsItem) :=
  match items with
  | [] => news_by_tool
  | item :: rest =>
      group_by_tool rest (defaultdict_append news_by_tool (tool_name item) item)
  end.

Definition is_critical_or_high (item : NewsItem) : bool :=
  match importance item with
  | CRITICAL | HIGH => true
  | _ => false
  end.

(** What [generate_report] hands to the template for every language. *)
Record RenderInput := {
  ri_news_by_tool : list (string * list NewsItem);
  ri_total_count : nat;
  ri_critical_count : nat;
  ri_tools_count : nat
}.

Definition render_input (report : DailyReport) : RenderInput :=
  let news_by_tool := group_by_tool (news_items report) [] in
  {| ri_news_by_tool := news_by_tool;
     ri_total_count := length (news_items report);
     ri_critical_count := length (List.filter is_critical_or_high (news_items report));
     ri_tools_count := length news_by_tool |}.

(** *** Dates and file names *)

Definition digit (n : Z) : ascii := ascii_of_nat (Z.to_nat (48 + n mod 10)).

Definition pad2 (n : Z) : string :=
  String (digit (n / 10)) (String (digit n) EmptyString).

Definition pad4 (n : Z) : string := pad2 (n / 100) +:+ pad2 (n mod 100).

(** [d.strftime("%Y-%m-%d")], for a four-digit year. *)
Definition strftime_Ymd (d : datetime) : string :=
  pad4 (dt_year d) +:+ "-" +:+ pad2 (dt_month d) +:+ "-" +:+ pad2 (dt_day d).

(** [name.endswith(suffix)] *)
Definition endswith (name suffix : string) : bool :=
  let n := String.length name in
  let k := String.length suffix in
  (k <=? n)%nat && String.eqb (String.substring (n - k) k name) suffix.

(** [output_dir.glob("*_ja.html")] on the names of the directory. *)
Definition glob_ja_html (names : list string) : list string :=
  List.filter (λ n, endswith n "_ja.html") names.

(** [name.rfind(".")] *)
Fixpoint rfind_dot (name : string) : option nat :=
  match name with
  | EmptyString => None
  | String c rest =>
      match rfind_dot rest with
      | Some i => Some (S i)
      | None => if Ascii.eqb c "."%char then Some 0 else None
      end
  end.

(** [Path.stem]: the name without its last suffix. *)
Definition stem (name : string) : string :=
  match rfind_dot name with
  | Some i =>
      if (0 <? i)%nat && (i <? String.length name - 1)%nat
      then String.substring 0 i name
      else name
  | None => name
  end.

(** [s.replace(old, empty)] for a non-empty [old]: every occurrence, left to
    right; [skip] counts the characters of a match still to drop. *)
Fixpoint remove_all (old : string) (s : string) (skip : nat) : string :=
  match s with
  | EmptyString => EmptyString
  | String c rest =>
      match skip with
      | S k => remove_all old rest k
      | 0 =>
          if String.prefix old s then remove_all old rest (String.length old - 1)
          else String c (remove_all old rest 0)
      end
  end.

(** [sorted(paths, reverse=True)]: paths of one directory are ordered as
    their names; the sort is stable. *)
Fixpoint insert_desc (x : string) (l : list string) : list string :=
  match l with
  | [] => [x]
  | y :: rest =>
      if String.ltb y x then x :: l else y :: insert_desc x rest
  end.

Definition sorted_reverse (l : list string) : list string :=
  foldr insert_desc [] l.

Record IndexEntry := {
  ie_date : string;
  ie_ja_url : string;
  ie_en_url : string
}.

Definition index_entry (file : string) : IndexEntry :=
  let date_str := remove_all "_ja" (stem file) 0 in
  {| ie_date := date_str;
     ie_ja_url := "reports/" +:+ date_str +:+ "_ja.html";
     ie_en_url := "reports/" +:+ date_str +:+ "_en.html" |}.

(** The list [reports[:30]] that [_update_index] renders. *)
Definition index_reports (names : list string) : list IndexEntry :=
  py_slice_to (index_entry <$> sorted_reverse (glob_ja_html names)) 30.

(** *** The index page *)

Definition dq : string := String (ascii_of_nat 34) EmptyString.

Section IndexPage.
(** The static markup of the page before and after the list of reports
    (document head, style sheet, header; footer). *)
Variables index_head index_tail : string.

(** One [<li>] of the list comprehension in [_generate_index_html]. *)
Definition render_index_item (r : IndexEntry) : string :=
  "
            <li class=" +:+ dq +:+ "report-item" +:+ dq +:+ ">
                <span class=" +:+ dq +:+ "report-date" +:+ dq +:+ ">" +:+ ie_date r +:+ "</span>
                <span class=" +:+ dq +:+ "report-links" +:+ dq +:+ ">
                    <a href=" +:+ dq +:+ ie_ja_url r +:+ dq +:+ ">日本語</a>
                    <a href=" +:+ dq +:+ ie_en_url r +:+ dq +:+ ">English</a>
                </span>
            </li>".

Definition _generate_index_html (reports : list IndexEntry) : string :=
  index_head +:+ String.concat EmptyString (render_index_item <$> reports) +:+ index_tail.

(** [_update_index]: the text written to [index.html], from the names in
    the output directory. *)
Definition _update_index (names : list string) : string :=
  _generate_index_html (index_reports names).

(** [write_text] creates the file or overwrites it. *)
Definition write_text (names : list string) (name : string) : list string :=
  if decide (name ∈ names) then names else names ++ [name].

(** [datetime.strptime(date_str, "%Y-%m-%d")] in [_generate_single_report],
    on the text that [strftime] wrote for the date of the report: [%Y]
    reads four digits, and [strftime] writes a year below 1000 without
    leading zeros, so the call raises [ValueError] for such a year. *)
Definition strptime_date_str (d : datetime) : exn + () :=
  if decide (1000 ≤ dt_year d)%Z then inr () else inl ValueError.

(** [_generate_single_report]: the names in the output directory
    afterwards; the date is parsed before the file is written. The
    template is taken to be found and to render. *)
Definition _generate_single_report (names : list string) (d : datetime)
    (lang : string) : exn + list string :=
  match strptime_date_str d with
  | inl e => inl e
  | inr _ => inr (write_text names (strftime_Ymd d +:+ "_" +:+ lang +:+ ".html"))
  end.

(** [for lang in languages]: the names in the directory when the loop
    ends or raises. *)
Fixpoint generate_loop (names : list string) (d : datetime) (languages : list string)
    : list string * (exn + ()) :=
  match languages with
  | [] => (names, inr ())
  | lang :: rest =>
      match _generate_single_report names d lang with
      | inl e => (names, inl e)
      | inr names' => generate_loop names' d rest
      end
  end.

(** [generate_report]: the names in the output directory afterwards and,
    unless a report raised, the template input and the index page. *)
Definition generate_report (names : list string) (report : DailyReport)
    (languages : list string) : list string * (exn + RenderInput * string) :=
  let input := render_input report in
  match generate_loop names (date report) languages with
  | (names', inl e) => (names', inl e)
  | (names', inr _) => (names', inr (input, _update_index names'))
  end.

End IndexPage.

(** ** Words of the specification used in the statements *)

Section CollectorSpec.
Context {World : Type}.
Variable _search_and_parse :
  World → string → string → string → Z → World * (exn + list NewsItem).
Variable date_filter_of : World → Z → exn + string.

(** The parsed items of each query of a tool, query by query, as the
    successive requests return them (nothing for a query that raises). *)
Fixpoint parsed_per_query (w : World) (queries : list string) (tool : string)
    (date_filter : string) (max_results : Z) : list (list NewsItem) :=
  match queries with
  | [] => []
  | query :: rest =>
      match _search_and_parse w query tool date_filter max_results with
      | (w', inr items) =>
          items :: parsed_per_query w' rest tool date_filter max_results
      | (w', inl _) =>
          [] :: parsed_per_query w' rest tool date_filter max_results
      end
  end.

(** The world after the requests for the queries of a tool. *)
Fixpoint world_after_queries (w : World) (queries : list string) (tool : string)
    (date_filter : string) (max_results : Z) : World :=
  match queries with
  | [] => w
  | query :: rest =>
      world_after_queries (_search_and_parse w query tool date_filter max_results).1
        rest tool date_filter max_results
  end.

(** The list each tool contributes, tool by tool, up to the first tool
    whose search raises. *)
Fixpoint news_per_tool (w : World) (tool_configs : list ToolConfig)
    (days_back max_results_per_tool : Z) : exn + list (list NewsItem) :=
  match tool_configs with
  | [] => inr []
  | config :: rest =>
      match search_tool_news _search_and_parse date_filter_of w config
              days_back max_results_per_tool with
      | (w', inl e) => inl e
      | (w', inr news) =>
          match news_per_tool w' rest days_back max_results_per_tool with
          | inl e => inl e
          | inr per_tool => inr (news :: per_tool)
          end
      end
  end.
End CollectorSpec.

(** A value that can be hashed: anything but a list or a dict. *)
Definition hashable (v : pyval) : bool :=
  match v with
  | PList _ | PDict _ => false
  | _ => true
  end.

(** The url of an item as an element of [seen_urls]: two urls are one
    element when they are equal in Python. *)
Definition url_element (x : NewsItem) : exn + pykey := hash_key (url x).

(** [x] is the first item of [l] with its url. *)
Definition first_with_url (l : list NewsItem) (x : NewsItem) : Prop :=
  ∃ i, l !! i = Some x ∧
       ∀ j y, j < i → l !! j = Some y → url_element y ≠ url_element x.

(** The key of a hashable url, and the items kept by the dedup loop when
    every url is hashable. *)
Definition url_key (x : NewsItem) : pykey :=
  match hash_key (url x) with
  | inr k => k
  | inl _ => KNone
  end.

Fixpoint first_by_key (news_items : list NewsItem) (seen_urls : gset pykey)
    (unique_items : list NewsItem) : list NewsItem :=
  match news_items with
  | [] => unique_items
  | item :: rest =>
      if decide (url_key item ∉ seen_urls)
      then first_by_key rest ({[url_key item]} ∪ seen_urls) (unique_items ++ [item])
      else first_by_key rest seen_urls unique_items
  end.

(** The fields the summariser never writes agree on [x] and [y]. *)
Definition same_identity (x y : NewsItem) : Prop :=
  title x = title y ∧ url x = url y ∧ tool_name x = tool_name y ∧
  source x = source y ∧ content x = content y ∧
  published_at x = published_at y ∧ raw_data x = raw_data y.

(** The result has an id equal to the batch index [i]. *)
Definition has_id (i : nat) (r : pyval) : bool :=
  match getitem_str r "id" with
  | inr k =>
      match hash_key k with
      | inr key => bool_decide (key = KInt (Z.of_nat i))
      | inl _ => false
      end
  | inl _ => false
  end.

(** The result the mapping holds for index [i]: the last one with that id. *)
Definition result_for (results : list pyval) (i : nat) : option pyval :=
  last (List.filter (has_id i) results).

(** An item with its five enrichment fields overwritten. *)
Definition enriched (x : NewsItem) (ja en : pyval) (i : Importance) (c : Category)
    (t : pyval) : NewsItem :=
  {| title := title x; url := url x; tool_name := tool_name x; source := source x;
     published_at := published_at x; content := content x;
     summary_ja := ja; summary_en := en; importance := i; category := c;
     tags := t; raw_data := raw_data x |}.

(** The result carries, under key [k], a string outside the values of the
    enum. *)
Definition unrecognized (r : pyval) (k : string) (values : list string) : Prop :=
  ∃ kvs s, r = PDict kvs ∧ dict_lookup kvs k = Some (PStr s) ∧ s ∉ values.

(** A computation that writes to [item] only, and only to its enrichment
    fields. *)
Definition writes_only {A} (item : ref) (c : M A) : Prop :=
  ∀ h, (∀ r, r ≠ item → (c h).1 r = h r) ∧ same_identity (h item) ((c h).1 item).

(** [new] is [old] with its five enrichment fields overwritten from the
    result [r], a missing key giving the default of the merge. *)
Definition merged_from (r : pyval) (old new : NewsItem) : Prop :=
  ∃ kvs i c,
    r = PDict kvs ∧
    Importance_of (dict_get kvs "importance" (PStr "medium")) = inr i ∧
    Category_of (dict_get kvs "category" (PStr "other")) = inr c ∧
    new =
      enriched old (dict_get kvs "summary_ja" (PStr EmptyString))
        (dict_get kvs "summary_en" (PStr EmptyString)) i c (dict_get kvs "tags" (PList [])).

(** A content that [item.content[:500] if item.content else ""] accepts: a
    false value, a string or a list. *)
Definition sliceable (content : pyval) : bool :=
  negb (truthy content) ||
  match content with
  | PStr _ | PList _ => true
  | _ => false
  end.

(** [s] begins at a character: it is empty or its first byte is no
    continuation byte. *)
Definition at_character (s : string) : Prop :=
  match s with
  | EmptyString => True
  | String c _ => is_continuation c = false
  end.

(** [c'] is the content of the payload entry for an item of content [c]:
    the empty string for a false value, the first 500 characters of a
    string, the first 500 elements of a list. *)
Definition payload_content (c c' : pyval) : Prop :=
  if truthy c then
    match c with
    | PStr s =>
        ∃ s' rest, c' = PStr s' ∧ s = s' +:+ rest ∧
                   py_len s' = min 500 (py_len s) ∧ at_character rest
    | PList l =>
        ∃ l' rest, c' = PList l' ∧ l = l' ++ rest ∧ length l' = min 500 (length l)
    | _ => False
    end
  else c' = PStr EmptyString.

Section SummarizerSpec.
Context {World : Type}.
Variable messages_create : World → list ItemData → World * (exn + string).
Variable re_search_json_block : string → option string.
Variable json_loads : string → option pyval.
Variable dict_slice_error : exn.

(** The payload of the batch is built and the summarisation request for it
    fails. *)
Definition request_fails (w : World) (h : heap) (batch : list ref) : Prop :=
  ∃ items_data w' e,
    items_data_of dict_slice_error h batch = inr items_data ∧
    messages_create w items_data = (w', inl e).

(** The request succeeds and its text cannot be parsed as JSON. *)
Definition reply_unparseable (w : World) (h : heap) (batch : list ref) : Prop :=
  ∃ items_data w' text,
    items_data_of dict_slice_error h batch = inr items_data ∧
    messages_create w items_data = (w', inr text) ∧
    json_loads (json_str_of re_search_json_block text) = None.

(** The world after the request for the batch. *)
Definition world_after (w : World) (h : heap) (batch : list ref) : World :=
  match items_data_of dict_slice_error h batch with
  | inr items_data => (messages_create w items_data).1
  | inl _ => w
  end.

(** The payloads of the batches, in order, up to the first batch whose
    payload cannot be built, with the exception of that batch. *)
Fixpoint payloads_of (h : heap) (batches : list (list ref))
    : list (list ItemData) * option exn :=
  match batches with
  | [] => ([], None)
  | batch :: rest =>
      match items_data_of dict_slice_error h batch with
      | inl e => ([], Some e)
      | inr items_data =>
          let '(payloads, e) := payloads_of h rest in
          (items_data :: payloads, e)
      end
  end.

(** The world after one request per payload. *)
Definition world_after_requests (w : World) (payloads : list (list ItemData)) : World :=
  foldl (λ w items_data, (messages_create w items_data).1) w payloads.
End SummarizerSpec.

(** The batches of [summarize_and_categorize]. *)
Definition batches_of (news_items : list ref) : list (list ref) :=
  (λ i, take batch_size (drop i news_items)) <$> py_range0 (length news_items) batch_size.

(** The distinct elements of a list, in the order of their first
    occurrence. *)
Fixpoint first_occurrences (l : list string) : list string :=
  match l with
  | [] => []
  | x :: rest => x :: filter (λ y, y ≠ x) (first_occurrences rest)
  end.

(** The items of one tool, in their original relative order. *)
Definition items_of_tool (items : list NewsItem) (k : string) : list NewsItem :=
  filter (λ x, tool_name x = k) items.

(** One group per tool, the tools in the order of their first occurrence. *)
Definition stable_groups (items : list NewsItem) : list (string * list NewsItem) :=
  (λ k, (k, items_of_tool items k)) <$> first_occurrences (tool_name <$> items).

(** A date whose year has four digits. *)
Definition four_digit_date (d : datetime) : Prop :=
  (1000 ≤ dt_year d ≤ 9999 ∧ 1 ≤ dt_month d ≤ 12 ∧ 1 ≤ dt_day d ≤ 31)%Z.

(** The day of [a] is earlier than the day of [b]. *)
Definition date_before (a b : datetime) : Prop :=
  (dt_year a < dt_year b ∨
   (dt_year a = dt_year b ∧
    (dt_month a < dt_month b ∨ (dt_month a = dt_month b ∧ dt_day a < dt_day b))))%Z.

Definition date_key (d : datetime) : Z * Z * Z :=
  (dt_year d, dt_month d, dt_day d).

(** Days in calendar order as numbers, [YYYYMMDD]. *)
Definition date_ordinal (d : datetime) : Z :=
  (dt_year d * 10000 + dt_month d * 100 + dt_day d)%Z.

(** The Japanese-language report file written for a date, and the index
    entry that belongs to the date. *)
Definition report_file (d : datetime) : string := strftime_Ymd d +:+ "_ja.html".

Definition entry_of_date (d : datetime) : IndexEntry :=
  {| ie_date := strftime_Ymd d;
     ie_ja_url := "reports/" +:+ strftime_Ymd d +:+ "_ja.html";
     ie_en_url := "reports/" +:+ strftime_Ymd d +:+ "_en.html" |}.

(** ** Scenarios *)

(** [NewsItem(title=..., url=..., tool_name=..., source=...)] with the
    defaults of the dataclass. *)
Definition new_NewsItem (title url : pyval) (tool_name source : string) : NewsItem :=
  {| title := title; url := url; tool_name := tool_name; source := source;
     published_at := None; content := PStr EmptyString;
     summary_ja := PStr EmptyString; summary_en := PStr EmptyString;
     importance := MEDIUM; category := OTHER;
     tags := PList []; raw_data := [] |}.

(** A generator that answers the successive requests from a script. *)
Definition scripted_search (w : list (exn + list NewsItem))
    (query tool_name date_filter : string) (max_results : Z)
    : list (exn + list NewsItem) * (exn + list NewsItem) :=
  match w with
  | [] => ([], inr [])
  | answer :: w' => (w', answer)
  end.

(** The date filter of the scenarios, which ask for one day back on
    2 May 2024; a number of days that takes the date out of the years 1 to
    9999 overflows. *)
Definition fixed_date_filter {World : Type} (w : World) (days_back : Z)
    : exn + string :=
  if decide (-2900000 ≤ days_back ≤ 730000)%Z then inr "2024-05-01"
  else inl OverflowError.

Definition tool_a : ToolConfig :=
  {| name := "tool-a"; vendor := "A"; keywords := [];
     search_queries := ["tool-a news"; "tool-a release"]; official_links := [] |}.

Definition tool_b : ToolConfig :=
  {| name := "tool-b"; vendor := "B"; keywords := [];
     search_queries := ["tool-b news"]; official_links := [] |}.

Definition item_a1 :=
  new_NewsItem (PStr "A ships 2.0") (PStr "https://example.com/a2") "tool-a" "gemini_search".
Definition item_a1' :=
  new_NewsItem (PStr "Version 2.0 of A") (PStr "https://example.com/a2") "tool-a" "gemini_search".
Definition item_a2 :=
  new_NewsItem (PStr "A fixes a bug") (PStr "https://example.com/fix") "tool-a" "gemini_search".
Definition item_a3 :=
  new_NewsItem (PStr "A docs") (PStr "https://example.com/docs") "tool-a" "gemini_search".
Definition item_b1 :=
  new_NewsItem (PStr "A and B compared") (PStr "https://example.com/a2") "tool-b" "gemini_search".

(** Items as the parser keeps them when the generator answers with a url
    that is no string: a list, and the numbers 1 and 1.0. *)
Definition item_list_url :=
  new_NewsItem (PStr "A mirrors") (PList [PStr "https://example.com/m1"]) "tool-a" "gemini_search".
Definition item_url_1 :=
  new_NewsItem (PStr "Issue one") (PInt 1) "tool-a" "gemini_search".
Definition item_url_1_0 :=
  new_NewsItem (PStr "Issue 1.0") (PFloat (S754_finite false 1 0)) "tool-a" "gemini_search".

(** An item whose snippet was a number in the reply of the generator. *)
Definition item_numeric_snippet : NewsItem :=
  {| title := PStr "A benchmarks"; url := PStr "https://example.com/bench";
     tool_name := "tool-a"; source := "gemini_search";
     published_at := None; content := PInt 5;
     summary_ja := PStr EmptyString; summary_en := PStr EmptyString;
     importance := MEDIUM; category := OTHER;
     tags := PList []; raw_data := [] |}.

(** A text generator that answers the successive requests from a script. *)
Definition scripted_messages_create (w : list (exn + string)) (items_data : list ItemData)
    : list (exn + string) * (exn + string) :=
  match w with
  | [] => ([], inl APIError)
  | answer :: w' => (w', answer)
  end.

(** No fenced block in the replies of the scenarios. *)
Definition no_json_block (text : string) : option string := None.

Definition result_ok_0 : pyval :=
  PDict [("id", PInt 0); ("summary_ja", PStr "A 2.0 ga deta");
         ("summary_en", PStr "A 2.0 is out"); ("importance", PStr "critical");
         ("category", PStr "release"); ("tags", PList [PStr "release"])].

Definition result_urgent_1 : pyval :=
  PDict [("id", PInt 1); ("summary_ja", PStr "A no bagu shuusei");
         ("summary_en", PStr "A fixes a bug"); ("importance", PStr "urgent");
         ("category", PStr "bugfix"); ("tags", PList [PStr "fix"])].

Definition result_urgent_7 : pyval :=
  PDict [("id", PInt 7); ("summary_ja", PStr "?");
         ("summary_en", PStr "?"); ("importance", PStr "urgent")].

Definition result_without_id : pyval :=
  PDict [("summary_ja", PStr "?"); ("summary_en", PStr "?")].

Definition result_ok_2 : pyval :=
  PDict [("id", PFloat (S754_finite false 1 1)); ("summary_en", PStr "Docs updated");
         ("importance", PStr "low"); ("category", PStr "documentation")].

(** [json.loads] on the replies of the scenarios. *)
Definition scenario_json_loads (json_str : string) : option pyval :=
  if String.eqb json_str "reply: results 0 and 2" then Some (PList [result_ok_0; result_ok_2])
  else if String.eqb json_str "reply: result 0, then importance urgent for 1"
       then Some (PList [result_ok_0; result_urgent_1])
  else if String.eqb json_str "reply: importance urgent for id 7"
       then Some (PList [result_urgent_7])
  else None.

Definition store0 : heap :=
  λ r, match r with
       | 0 => item_a1
       | 1 => item_a2
       | _ => item_a3
       end.

(** Twelve objects, the last of which has a number for content. *)
Definition store_numeric_snippet : heap :=
  λ r, if r <? 11 then item_a1 else item_numeric_snippet.

(** A [datetime] library for whole seconds: [isoformat] writes
    [YYYY-MM-DDTHH:MM:SS] and [fromisoformat] reads that format back. *)
Definition scenario_isoformat (d : datetime) : string :=
  strftime_Ymd d +:+ "T" +:+ pad2 (dt_hour d) +:+ ":" +:+ pad2 (dt_minute d)
    +:+ ":" +:+ pad2 (dt_second d).

Definition digit_value (c : ascii) : option nat :=
  let n := nat_of_ascii c in
  if (48 <=? n) && (n <=? 57) then Some (n - 48) else None.

Fixpoint parse_digits (s : string) (acc : nat) : option nat :=
  match s with
  | EmptyString => Some acc
  | String c rest =>
      match digit_value c with
      | Some v => parse_digits rest (10 * acc + v)
      | None => None
      end
  end.

Definition scenario_fromisoformat (s : string) : exn + datetime :=
  let field := λ pos len, parse_digits (String.substring pos len s) 0 in
  let sep := λ pos c, String.eqb (String.substring pos 1 s) c in
  if (String.length s =? 19) && sep 4 "-" && sep 7 "-" && sep 10 "T"
     && sep 13 ":" && sep 16 ":"
  then
    match field 0 4, field 5 2, field 8 2, field 11 2, field 14 2, field 17 2 with
    | Some y, Some mo, Some d, Some h, Some mi, Some sec =>
        inr {| dt_year := Z.of_nat y; dt_month := Z.of_nat mo; dt_day := Z.of_nat d;
               dt_hour := Z.of_nat h; dt_minute := Z.of_nat mi;
               dt_second := Z.of_nat sec; dt_microsecond := 0 |}
    | _, _, _, _, _, _ => inl ValueError
    end
  else inl ValueError.

Definition published_item : NewsItem :=
  {| title := PStr "A ships 2.0"; url := PStr "https://example.com/a2";
     tool_name := "tool-a"; source := "gemini_search";
     published_at :=
       Some {| dt_year := 2024; dt_month := 5; dt_day := 1;
               dt_hour := 0; dt_minute := 0; dt_second := 0; dt_microsecond := 0 |}%Z;
     content := PStr "Version 2.0 is out.";
     summary_ja := PStr "A 2.0 ga deta"; summary_en := PStr "A 2.0 is out";
     importance := CRITICAL; category := RELEASE;
     tags := PList [PStr "release"];
     raw_data := [("title", PStr "A ships 2.0")] |}.

Definition midnight (y m d : Z) : datetime :=
  {| dt_year := y; dt_month := m; dt_day := d;
     dt_hour := 0; dt_minute := 0; dt_second := 0; dt_microsecond := 0 |}.

(** A report over three items of two tools. *)
Definition scenario_report : DailyReport :=
  {| date := midnight 2024 5 2;
     news_items := [item_a1; item_b1; item_a2];
     generated_at := midnight 2024 5 2 |}.

(** The [n]-th of 45 consecutive days from 2024-01-01 on. *)
Definition scenario_day (n : nat) : datetime :=
  if n <? 31 then midnight 2024 1 (Z.of_nat n + 1)
  else midnight 2024 2 (Z.of_nat n - 30).

(** The 45 days, in the order in which the directory lists their files. *)
Definition scenario_dates : list datetime :=
  (λ k, scenario_day (k * 7 mod 45)) <$> seq 0 45.

(** An output directory with the English and the Japanese report of each
    of the 45 days. *)
Definition scenario_names : list string :=
  scenario_dates ≫= λ d, [strftime_Ymd d +:+ "_en.html"; report_file d].

#[global] Instance four_digit_date_dec (d : datetime) : Decision (four_digit_date d).
Proof. unfold four_digit_date. apply _. Defined.

(** A generator whose parser stamps every item with the tool name it was
    asked for, as [_parse_response] does. *)
Definition with_tool_name (tool : string) (x : NewsItem) : NewsItem :=
  {| title := title x; url := url x; tool_name := tool; source := source x;
     published_at := published_at x; content := content x;
     summary_ja := summary_ja x; summary_en := summary_en x;
     importance := importance x; category := category x;
     tags := tags x; raw_data := raw_data x |}.

Definition stamping_search (w : list (exn + list NewsItem))
    (query tool_name date_filter : string) (max_results : Z)
    : list (exn + list NewsItem) * (exn + list NewsItem) :=
  match w with
  | [] => ([], inr [])
  | inr items :: w' => (w', inr (with_tool_name tool_name <$> items))
  | inl e :: w' => (w', inl e)
  end.

(** ** The collector's parser ([_search_and_parse], [_parse_response]) *)

Module GeminiSearchCollector.

(** The [NewsItem] object as the parser builds it: [title], [url] and
    [content] hold the JSON values of the entry as they are, whatever their
    type; the other fields have the defaults of the dataclass. *)
Record ParsedItem := {
  p_title : pyval;
  p_url : pyval;
  p_tool_name : string;
  p_source : string;
  p_published_at : option datetime;
  p_content : pyval;
  p_raw_data : list (string * pyval)
}.

(** The item with the fields that the parser leaves at their defaults. *)
Definition as_NewsItem (p : ParsedItem) : NewsItem :=
  {| title := p_title p; url := p_url p; tool_name := p_tool_name p;
     source := p_source p; published_at := p_published_at p;
     content := p_content p;
     summary_ja := PStr EmptyString; summary_en := PStr EmptyString;
     importance := MEDIUM; category := OTHER;
     tags := PList []; raw_data := p_raw_data p |}.

Section Parser.
Context {World : Type}.

(** [model.generate_content(prompt, tools=...)] for the prompt built from
    the query, the date filter and [max_results], followed by
    [response.text]. *)
Variable generate_content : World → string → string → Z → World * (exn + string).

Variable re_search_json_block : string → option string.
Variable json_loads : string → option pyval.

(** [datetime.strptime(s, "%Y-%m-%d")]; [None] is [ValueError]. *)
Variable strptime_Ymd : string → option datetime.

(** The [published_at] of an entry: [strptime] raises [TypeError] on a value
    that is not a string; its [ValueError] is caught and leaves [None]. *)
Definition parse_published_date (kvs : list (string * pyval)) : exn + option datetime :=
  let v := dict_get kvs "published_date" PNone in
  if truthy v then
    match v with
    | PStr s => inr (strptime_Ymd s)
    | _ => inl TypeError
    end
  else inr None.

(** The body of the loop over the entries: [None] is [continue]. *)
Definition parse_item (item : pyval) (tool_name : string) : exn + option ParsedItem :=
  match item with
  | PDict kvs =>
      if negb (truthy (dict_get kvs "title" PNone)) then inr None
      else if negb (truthy (dict_get kvs "url" PNone)) then inr None
      else
        match parse_published_date kvs with
        | inl e => inl e
        | inr published_at =>
            inr (Some {| p_title := dict_get kvs "title" PNone;
                         p_url := dict_get kvs "url" PNone;
                         p_tool_name := tool_name;
                         p_source := "gemini_search";
                         p_published_at := published_at;
                         p_content := dict_get kvs "snippet" (PStr EmptyString);
                         p_raw_data := kvs |})
        end
  | _ => inl AttributeError
  end.

Fixpoint parse_items (items : list pyval) (tool_name : string)
    (news_items : list ParsedItem) : exn + list ParsedItem :=
  match items with
  | [] => inr news_items
  | item :: rest =>
      match parse_item item tool_name with
      | inl e => inl e
      | inr None => parse_items rest tool_name news_items
      | inr (Some news_item) => parse_items rest tool_name (news_items ++ [news_item])
      end
  end.

Definition _parse_response (response_text : string) (tool_name : string)
    : exn + list ParsedItem :=
  if String.eqb response_text EmptyString then inr []
  else
    let json_str :=
      match re_search_json_block response_text with
      | Some group1 => group1
      | None => response_text
      end in
    match json_loads json_str with
    | None => inr []
    | Some items => parse_items (as_list items) tool_name []
    end.

(** Every exception of the request or of the parse is caught and gives
    the empty list. *)
Definition _search_and_parse (w : World) (query tool_name date_filter : string)
    (max_results : Z) : World * list ParsedItem :=
  match generate_content w query date_filter max_results with
  | (w', inr response_text) =>
      match _parse_response response_text tool_name with
      | inr news_items => (w', news_items)
      | inl _ => (w', [])
      end
  | (w', inl _) => (w', [])
  end.

End Parser.

(** An entry that passes the check of title and url. *)
Definition valid_entry (item : pyval) : bool :=
  match item with
  | PDict kvs =>
      truthy (dict_get kvs "title" PNone) && truthy (dict_get kvs "url" PNone)
  | _ => false
  end.

(** An entry on which the parse raises: it is not an object, or it passes
    the check and its [published_date] is a true value that is no string. *)
Definition fatal_entry (item : pyval) : bool :=
  match item with
  | PDict kvs =>
      valid_entry item &&
      truthy (dict_get kvs "published_date" PNone) &&
      match dict_get kvs "published_date" PNone with
      | PStr _ => false
      | _ => true
      end
  | _ => true
  end.

(** The bindings of the entries that pass the check, in order. *)
Definition valid_entries (items : list pyval) : list (list (string * pyval)) :=
  omap (λ item,
    match item with
    | PDict kvs => if valid_entry item then Some kvs else None
    | _ => None
    end) items.

(** What the parser guarantees of an item it returns. *)
Definition parsed_ok (tool : string) (p : ParsedItem) : Prop :=
  truthy (p_title p) = true ∧ truthy (p_url p) = true ∧
  p_tool_name p = tool ∧ p_source p = "gemini_search" ∧
  p_title p = dict_get (p_raw_data p) "title" PNone ∧
  p_url p = dict_get (p_raw_data p) "url" PNone ∧
  p_content p = dict_get (p_raw_data p) "snippet" (PStr EmptyString).

End GeminiSearchCollector.

(** The search that [search_tool_news] calls, with the parser above: the
    items of [_search_and_parse] as the [NewsItem]s they are. It raises
    nothing. *)
Section ParsedSearch.
Context {World : Type}.
Variable generate_content : World → string → string → Z → World * (exn + string).
Variable re_search_json_block : string → option string.
Variable json_loads : string → option pyval.
Variable strptime_Ymd : string → option datetime.

Definition parsed_search (w : World) (query tool_name date_filter : string)
    (max_results : Z) : World * (exn + list NewsItem) :=
  let '(w', items) :=
    GeminiSearchCollector._search_and_parse generate_content re_search_json_block
      json_loads strptime_Ymd w query tool_name date_filter max_results in
  (w', inr (GeminiSearchCollector.as_NewsItem <$> items)).
End ParsedSearch.

(** Replies of the search generator in the scenarios. *)
Definition entry_full : pyval :=
  PDict [("title", PStr "A ships 2.0"); ("url", PStr "https://example.com/a2");
         ("published_date", PStr "2024-05-01"); ("snippet", PStr "Version 2.0 is out.")].

Definition entry_bad_date : pyval :=
  PDict [("title", PStr "A fixes a bug"); ("url", PStr "https://example.com/fix");
         ("published_date", PStr "yesterday")].

Definition entry_no_url : pyval :=
  PDict [("title", PStr "Rumours"); ("url", PStr EmptyString)].

Definition entry_numeric_date : pyval :=
  PDict [("title", PStr "A docs"); ("url", PStr "https://example.com/docs");
         ("published_date", PInt 20240501)].

Definition entry_list_url : pyval :=
  PDict [("title", PStr "A mirrors");
         ("url", PList [PStr "https://example.com/m1"; PStr "https://example.com/m2"])].

Definition search_json_loads (json_str : string) : option pyval :=
  if String.eqb json_str "reply: three entries"
  then Some (PList [entry_full; entry_no_url; entry_bad_date])
  else if String.eqb json_str "reply: an entry and a bare string"
  then Some (PList [entry_full; PStr "https://example.com/other"])
  else if String.eqb json_str "reply: an entry with a numeric date"
  then Some (PList [entry_full; entry_numeric_date])
  else if String.eqb json_str "reply: an entry with two urls"
  then Some (PList [entry_full; entry_list_url])
  else None.

Definition scripted_generate_content (w : list (exn + string))
    (query date_filter : string) (max_results : Z)
    : list (exn + string) * (exn + string) :=
  match w with
  | [] => ([], inl APIError)
  | answer :: w' => (w', answer)
  end.

(** [strptime] for [YYYY-MM-DD] texts. *)
Definition scenario_strptime (s : string) : option datetime :=
  let field := λ pos len, parse_digits (String.substring pos len s) 0 in
  let sep := λ pos c, String.eqb (String.substring pos 1 s) c in
  if (String.length s =? 10) && sep 4 "-" && sep 7 "-" then
    match field 0 4, field 5 2, field 8 2 with
    | Some y, Some mo, Some d => Some (midnight (Z.of_nat y) (Z.of_nat mo) (Z.of_nat d))
    | _, _, _ => None
    end
  else None.

(** ** The views of a report ([DailyReport]) *)

#[global] Instance Importance_eq_dec : EqDecision Importance.
Proof. solve_decision. Defined.

Definition get_by_tool (self : DailyReport) (k : string) : list NewsItem :=
  filter (λ item, tool_name item = k) (news_items self).

Definition get_by_importance (self : DailyReport) (i : Importance) : list NewsItem :=
  filter (λ item, importance item = i) (news_items self).

Definition get_critical_and_high (self : DailyReport) : list NewsItem :=
  filter (λ item, importance item ∈ [CRITICAL; HIGH]) (news_items self).

(** An item as [from_dict] rebuilds it: [raw_data] is not part of the
    dictionary form. *)
Definition without_raw_data (x : NewsItem) : NewsItem :=
  {| title := title x; url := url x; tool_name := tool_name x; source := source x;
     published_at := published_at x; content := content x;
     summary_ja := summary_ja x; summary_en := summary_en x;
     importance := importance x; category := category x;
     tags := tags x; raw_data := [] |}.

Definition required_keys : list string := ["title"; "url"; "tool_name"; "source"].

Definition optional_keys : list string :=
  ["published_at"; "content"; "summary_ja"; "summary_en"; "importance"; "category"; "tags"].

(** ** Report files *)

(** The file name of a report, [f"{date_str}_{lang}.html"]. *)
Definition report_name (d : datetime) (lang : string) : string :=
  strftime_Ymd d +:+ "_" +:+ lang +:+ ".html".

(** [languages] defaults to Japanese and English. *)
Definition languages_or_default (languages : option (list string)) : list string :=
  match languages with
  | Some l => l
  | None => ["ja"; "en"]
  end.

(** [json.loads] on a reply whose ids are strings. *)
Definition result_string_id : pyval :=
  PDict [("id", PStr "0"); ("summary_ja", PStr "A 2.0 ga deta");
         ("summary_en", PStr "A 2.0 is out"); ("importance", PStr "critical")].

Definition string_ids_json_loads (json_str : string) : option pyval :=
  if String.eqb json_str "reply: ids as strings" then Some (PList [result_string_id])
  else None.

(** ** The pipeline *)

#[global] Instance date_before_dec (a b : datetime) : Decision (date_before a b).
Proof. unfold date_before. apply _. Defined.

(** [api_key or os.environ.get(NAME)] and the check in the constructors of
    the collector and of the summariser; an empty string is falsy. *)
Definition api_key_or_env (api_key env : option string) : option string :=
  match api_key with
  | Some (String _ _) => api_key
  | _ => env
  end.

Definition init_api_key (api_key env : option string) : exn + string :=
  match api_key_or_env api_key env with
  | Some (String c k) => inr (String c k)
  | _ => inl ValueError
  end.

(** The objects that the collector created for its items, at the
    references [0 .. len - 1], among the other objects [h] of the program. *)
Definition objects_of (items : list NewsItem) (h : heap) : heap :=
  λ r : nat, default (h r) (items !! r).

Section Pipeline.
Context {World : Type}.
Variable _search_and_parse :
  World → string → string → string → Z → World * (exn + list NewsItem).
Variable date_filter_of : World → Z → exn + string.
Variable messages_create : World → list ItemData → World * (exn + string).
Variable re_search_json_block : string → option string.
Variable json_loads : string → option pyval.
Variable dict_slice_error : exn.

(** [datetime.now()] *)
Variable now : World → World * datetime.

Variables index_head index_tail : string.

(** The helper [collect_all_news] of the collector module: the
    constructor, then the loop over the tools. *)
Definition collect_all_news_helper (w : World) (tool_configs : list ToolConfig)
    (days_back max_results_per_tool : Z) (api_key env : option string)
    : World * (exn + list NewsItem) :=
  match init_api_key api_key env with
  | inl e => (w, inl e)
  | inr _ =>
      collect_all_news _search_and_parse date_filter_of w tool_configs
        days_back max_results_per_tool
  end.

Definition summarize_news (w : World) (news_items : list ref)
    (api_key env : option string) (h : heap) : World * heap * (exn + list ref) :=
  match init_api_key api_key env with
  | inl e => (w, h, inl e)
  | inr _ =>
      summarize_and_categorize messages_create re_search_json_block json_loads
        dict_slice_error w news_items h
  end.

(** The helper [generate_report] of the publisher module: a [datetime] is
    always truthy, so [date or datetime.now()] is the date given. *)
Definition generate_report_helper (w : World) (names : list string)
    (news_items : list NewsItem) (date : option datetime)
    : World * DailyReport * (list string * (exn + RenderInput * string)) :=
  let '(w1, d) :=
    match date with
    | Some d => (w, d)
    | None => now w
    end in
  let '(w2, g) := now w1 in
  let report := {| date := d; news_items := news_items; generated_at := g |} in
  (w2, report,
   generate_report index_head index_tail names report (languages_or_default None)).

(** Steps 1 to 3 of [main], once the configuration is loaded: the keys
    come from the environment; no exception of the three helpers is
    caught. The outcome is the world, the names in the output directory
    and, unless a step raised, the report with its template input and the
    index page. *)
Definition main_steps (w : World) (h : heap) (names : list string)
    (tool_configs : list ToolConfig) (days_back max_results_per_tool : Z)
    (gemini_env anthropic_env : option string)
    : World * list string * (exn + DailyReport * (RenderInput * string)) :=
  match collect_all_news_helper w tool_configs days_back max_results_per_tool
          None gemini_env with
  | (w1, inl e) => (w1, names, inl e)
  | (w1, inr collected) =>
      let h1 := objects_of collected h in
      let objects := seq 0 (length collected) in
      let summarized :=
        match collected with
        | [] => (w1, h1, inr objects)
        | _ => summarize_news w1 objects None anthropic_env h1
        end in
      match summarized with
      | (w2, _, inl e) => (w2, names, inl e)
      | (w2, h2, inr news_items) =>
          let '(w3, d) := now w2 in
          match generate_report_helper w3 names (h2 <$> news_items) (Some d) with
          | (w4, report, (names', inl e)) => (w4, names', inl e)
          | (w4, report, (names', inr files)) => (w4, names', inr (report, files))
          end
      end
  end.

End Pipeline.

(** A world for the whole pipeline: the script of the searches, the script
    of the summariser and the seconds on the clock. *)
Definition PipelineWorld : Type :=
  list (exn + list NewsItem) * list (exn + string) * Z.

Definition pipeline_search (w : PipelineWorld) (query tool_name date_filter : string)
    (max_results : Z) : PipelineWorld * (exn + list NewsItem) :=
  let '(s, m, t) := w in
  let '(s', answer) := scripted_search s query tool_name date_filter max_results in
  ((s', m, t), answer).

Definition pipeline_date_filter (w : PipelineWorld) (days_back : Z) : exn + string :=
  fixed_date_filter w.1.1 days_back.

Definition pipeline_messages_create (w : PipelineWorld) (items_data : list ItemData)
    : PipelineWorld * (exn + string) :=
  let '(s, m, t) := w in
  let '(m', answer) := scripted_messages_create m items_data in
  ((s, m', t), answer).

(** A clock on 2 May 2024 that advances by one second at every reading. *)
Definition pipeline_now (w : PipelineWorld) : PipelineWorld * datetime :=
  let '(s, m, t) := w in
  ((s, m, (t + 1)%Z),
   {| dt_year := 2024; dt_month := 5; dt_day := 2;
      dt_hour := (t / 3600) mod 24; dt_minute := (t / 60) mod 60;
      dt_second := t mod 60; dt_microsecond := 0 |}%Z).

Definition pipeline_world : PipelineWorld :=
  ([inr [item_a1; item_a2]; inr [item_a1'; item_a3]; inr [item_b1]],
   [inr "reply: results 0 and 2"], 0%Z).

(** ** Tool configurations *)

(** A list of strings, as the annotation of the field has it. *)
Fixpoint str_list_of (l : list pyval) : option (list string) :=
  match l with
  | [] => Some []
  | PStr s :: rest => cons s <$> str_list_of rest
  | _ :: _ => None
  end.

(** [data.get(k, [])] for a field annotated [list[str]]; as for the fields
    of an item, a value of another type is outside the model. *)
Definition field_list_default (data : list (string * pyval)) (k : string)
    : option (exn + list string) :=
  match dict_lookup data k with
  | None => Some (inr [])
  | Some (PList l) => inr <$> str_list_of l
  | Some _ => None
  end.

(** [ToolConfig.from_dict] *)
Definition ToolConfig_from_dict (data : list (string * pyval))
    : option (exn + ToolConfig) :=
  and_then (field_required data "name") (λ name,
  and_then (field_default data "vendor" EmptyString) (λ vendor,
  and_then (field_list_default data "keywords") (λ keywords,
  and_then (field_list_default data "search_queries") (λ search_queries,
  and_then (field_list_default data "official_links") (λ official_links,
  Some (inr {| name := name; vendor := vendor; keywords := keywords;
               search_queries := search_queries;
               official_links := official_links |})))))).

Definition tool_config_keys : list string :=
  ["name"; "vendor"; "keywords"; "search_queries"; "official_links"].

(** An entry of the configuration file that names the tool only. *)
Definition tool_entry_name_only : list (string * pyval) :=
  [("name", PStr "tool-c"); ("homepage", PStr "https://example.com/c")].

(** * Properties *)

(** ** Collector *)

Lemma py_slice_to_sublist {A} (l : list A) (n : Z) : sublist (py_slice_to l n) l.
Proof.
  unfold py_slice_to. case_decide; apply sublist_take.
Qed.

Lemma py_slice_to_nonneg {A} (l : list A) (n : Z) :
  (0 ≤ n)%Z → py_slice_to l n = take (Z.to_nat n) l.
Proof. intros Hn. unfold py_slice_to. by rewrite decide_True. Qed.

Lemma url_element_key (x : NewsItem) :
  hashable (url x) = true → url_element x = inr (url_key x).
Proof. unfold url_element, url_key. by destruct (url x). Qed.

Lemma url_element_unhashable (x : NewsItem) :
  hashable (url x) = false → url_element x = inl TypeError.
Proof. unfold url_element. by destruct (url x). Qed.

Lemma url_element_inr (x : NewsItem) k :
  url_element x = inr k → hashable (url x) = true.
Proof. unfold url_element. by destruct (url x). Qed.

Lemma first_by_key_acc (l : list NewsItem) seen acc :
  first_by_key l seen acc = acc ++ first_by_key l seen [].
Proof.
  revert seen acc. induction l as [|x l IH]; intros seen acc; simpl.
  - by rewrite app_nil_r.
  - case_decide.
    + rewrite (IH _ (acc ++ [x])), (IH _ [x]). by rewrite <- app_assoc.
    + apply IH.
Qed.

Lemma first_by_key_cons (x : NewsItem) l seen :
  first_by_key (x :: l) seen [] =
    if decide (url_key x ∉ seen) then x :: first_by_key l ({[url_key x]} ∪ seen) []
    else first_by_key l seen [].
Proof.
  simpl. case_decide; [|done]. by rewrite first_by_key_acc.
Qed.

Lemma first_by_key_sublist (l : list NewsItem) seen :
  sublist (first_by_key l seen []) l.
Proof.
  revert seen. induction l as [|x l IH]; intros seen.
  - done.
  - rewrite first_by_key_cons. case_decide.
    + by apply sublist_skip.
    + by apply sublist_cons.
Qed.

Lemma first_by_key_unseen (l : list NewsItem) seen x :
  x ∈ first_by_key l seen [] → url_key x ∉ seen.
Proof.
  revert seen. induction l as [|y l IH]; intros seen.
  - simpl. by intros ?%elem_of_nil.
  - rewrite first_by_key_cons. case_decide.
    + intros [->|Hin]%elem_of_cons; [done|].
      apply IH in Hin. set_solver.
    + apply IH.
Qed.

Lemma first_by_key_NoDup (l : list NewsItem) seen :
  NoDup (url_key <$> first_by_key l seen []).
Proof.
  revert seen. induction l as [|x l IH]; intros seen.
  - simpl. constructor.
  - rewrite first_by_key_cons. case_decide; [|apply IH].
    rewrite fmap_cons. constructor; [|apply IH].
    intros (y & Hy & Hin)%list_elem_of_fmap.
    apply first_by_key_unseen in Hin. set_solver.
Qed.

Lemma first_by_key_first (l : list NewsItem) seen x i :
  l !! i = Some x →
  (∀ j y, j < i → l !! j = Some y → url_key y ≠ url_key x) →
  url_key x ∉ seen → x ∈ first_by_key l seen [].
Proof.
  revert seen i. induction l as [|y l IH]; intros seen i Hi Hfirst Hseen.
  - by rewrite lookup_nil in Hi.
  - rewrite first_by_key_cons. destruct i as [|i]; simpl in Hi.
    + simplify_eq. rewrite decide_True by done. left.
    + assert (url_key y ≠ url_key x) as Hne by (apply (Hfirst 0); [lia|done]).
      assert (∀ j z, j < i → l !! j = Some z → url_key z ≠ url_key x) as Hl.
      { intros j z Hj Hz. apply (Hfirst (S j)); [lia|done]. }
      case_decide.
      * right. apply (IH _ i); [done|done|].
        apply not_elem_of_union. split; [|done].
        by apply not_elem_of_singleton.
      * by apply (IH _ i).
Qed.

Lemma first_by_key_only_first (l : list NewsItem) seen x :
  x ∈ first_by_key l seen [] →
  ∃ i, l !! i = Some x ∧ ∀ j y, j < i → l !! j = Some y → url_key y ≠ url_key x.
Proof.
  revert seen. induction l as [|y l IH]; intros seen.
  - simpl. by intros ?%elem_of_nil.
  - rewrite first_by_key_cons. intros Hin.
    assert (x = y ∨
            (url_key y ≠ url_key x ∧
             ∃ i, l !! i = Some x ∧
                  ∀ j z, j < i → l !! j = Some z → url_key z ≠ url_key x))
      as [->|[Hne (i & Hi & Hfirst)]].
    { case_decide as Hy.
      - apply elem_of_cons in Hin as [->|Hin]; [by left|right].
        split; [|by eapply IH].
        apply first_by_key_unseen in Hin.
        apply not_elem_of_union in Hin as [Hin _].
        by apply not_elem_of_singleton in Hin.
      - right. split; [|by eapply IH].
        apply first_by_key_unseen in Hin.
        intros Heq. apply Hin. by rewrite <- Heq. }
    + exists 0. split; [done|]. intros; lia.
    + exists (S i). split; [done|]. intros [|j] z Hj Hz; simpl in Hz.
      * by simplify_eq.
      * apply (Hfirst j); [lia|done].
Qed.

(** On hashable urls, being one element of the set is having one key. *)
Lemma url_element_ne (x y : NewsItem) :
  hashable (url x) = true → hashable (url y) = true →
  url_element y ≠ url_element x ↔ url_key y ≠ url_key x.
Proof.
  intros Hx Hy. rewrite (url_element_key x Hx), (url_element_key y Hy).
  split; intros Hne Heq; apply Hne; [by rewrite Heq|by injection Heq].
Qed.

Lemma first_with_url_key (l : list NewsItem) x :
  Forall (λ y, hashable (url y) = true) l →
  first_with_url l x ↔
  ∃ i, l !! i = Some x ∧ ∀ j y, j < i → l !! j = Some y → url_key y ≠ url_key x.
Proof.
  intros Hl.
  assert (∀ i y, l !! i = Some y → hashable (url y) = true) as Hh.
  { intros i y Hy. by apply (Forall_lookup_1 _ _ _ _ Hl Hy). }
  split; intros (i & Hi & Hfirst); exists i; (split; [done|]); intros j y Hj Hy.
  - apply url_element_ne; eauto.
  - apply url_element_ne; eauto.
Qed.

Lemma url_element_fmap (l : list NewsItem) :
  Forall (λ y, hashable (url y) = true) l →
  url_element <$> l = inr <$> (url_key <$> l).
Proof.
  induction 1 as [|x l Hx _ IH]; [done|].
  rewrite !fmap_cons, IH. f_equal. by apply url_element_key.
Qed.

Lemma url_element_NoDup (l : list NewsItem) :
  Forall (λ y, hashable (url y) = true) l →
  NoDup (url_key <$> l) → NoDup (url_element <$> l).
Proof.
  intros Hl Hnd. rewrite (url_element_fmap l Hl).
  apply (NoDup_fmap_2 _). done.
Qed.

Lemma url_element_NoDup_url (l : list NewsItem) :
  NoDup (url_element <$> l) → NoDup (url <$> l).
Proof.
  unfold url_element. rewrite (list_fmap_compose url hash_key).
  apply NoDup_fmap_1.
Qed.

(** The dedup loop: it returns when every url can be hashed, and raises
    [TypeError] otherwise. *)
Lemma dedup_loop_hashable (l : list NewsItem) seen acc :
  Forall (λ x, hashable (url x) = true) l →
  dedup_loop l seen acc = inr (first_by_key l seen acc).
Proof.
  intros Hl. revert seen acc.
  induction Hl as [|x l Hx _ IH]; intros seen acc; simpl; [done|].
  pose proof (url_element_key x Hx) as Hk. unfold url_element in Hk. rewrite Hk.
  case_decide; apply IH.
Qed.

Lemma dedup_loop_unhashable (l : list NewsItem) seen acc :
  Exists (λ x, hashable (url x) = false) l →
  dedup_loop l seen acc = inl TypeError.
Proof.
  intros Hl. revert seen acc.
  induction l as [|x l IH]; intros seen acc; [by apply Exists_nil in Hl|].
  simpl. destruct (hashable (url x)) eqn:Hx.
  - pose proof (url_element_key x Hx) as Hk. unfold url_element in Hk. rewrite Hk.
    apply Exists_cons in Hl as [Hl|Hl]; [congruence|].
    case_decide; by apply IH.
  - pose proof (url_element_unhashable x Hx) as Hk. unfold url_element in Hk.
    by rewrite Hk.
Qed.

Lemma dedup_loop_inr (l : list NewsItem) seen acc out :
  dedup_loop l seen acc = inr out →
  Forall (λ x, hashable (url x) = true) l ∧ out = first_by_key l seen acc.
Proof.
  intros Hout.
  destruct (decide (Forall (λ x, hashable (url x) = true) l)) as [Hl|Hl].
  - split; [done|]. rewrite dedup_loop_hashable in Hout by done. by injection Hout.
  - apply not_Forall_Exists in Hl; [|apply _].
    rewrite dedup_loop_unhashable in Hout; [done|].
    eapply Exists_impl; [exact Hl|]. intros x Hx. simpl in Hx.
    by destruct (hashable (url x)).
Qed.

Section CollectorProperties.
Context {World : Type}.
Variable _search_and_parse :
  World → string → string → string → Z → World * (exn + list NewsItem).
Variable date_filter_of : World → Z → exn + string.

Lemma gather_queries_parsed w queries tool date_filter max_results acc :
  gather_queries _search_and_parse w queries tool date_filter max_results acc =
    (world_after_queries _search_and_parse w queries tool date_filter max_results,
     acc ++ concat (parsed_per_query _search_and_parse w queries tool date_filter
                      max_results)).
Proof.
  revert w acc. induction queries as [|q queries IH]; intros w acc; simpl.
  - by rewrite app_nil_r.
  - destruct (_search_and_parse w q tool date_filter max_results) as [w' [e|items]]; simpl.
    + apply IH.
    + rewrite IH. by rewrite app_assoc.
Qed.

Lemma parsed_per_query_length w queries tool date_filter max_results :
  length (parsed_per_query _search_and_parse w queries tool date_filter max_results) =
    length queries.
Proof.
  revert w. induction queries as [|q queries IH]; intros w; simpl; [done|].
  destruct (_search_and_parse w q tool date_filter max_results) as [w' [e|items]];
    simpl; by rewrite IH.
Qed.

Lemma search_tool_news_overflow w cfg days_back max_results e :
  date_filter_of w days_back = inl e →
  search_tool_news _search_and_parse date_filter_of w cfg days_back max_results =
    (w, inl e).
Proof. intros Hd. unfold search_tool_news. by rewrite Hd. Qed.

Lemma search_tool_news_unfold w cfg days_back max_results date_filter :
  date_filter_of w days_back = inr date_filter →
  search_tool_news _search_and_parse date_filter_of w cfg days_back max_results =
    (world_after_queries _search_and_parse w (search_queries cfg) (name cfg)
       date_filter max_results,
     match
       dedup_loop
         (concat (parsed_per_query _search_and_parse w (search_queries cfg) (name cfg)
                    date_filter max_results)) ∅ []
     with
     | inl e => inl e
     | inr unique_items => inr (py_slice_to unique_items max_results)
     end).
Proof.
  intros Hd. unfold search_tool_news. rewrite Hd, gather_queries_parsed. simpl.
  by destruct (dedup_loop _ _ _).
Qed.

Lemma search_tool_news_NoDup w cfg days_back max_results w' out :
  search_tool_news _search_and_parse date_filter_of w cfg days_back max_results =
    (w', inr out) →
  Forall (λ x, hashable (url x) = true) out ∧ NoDup (url_key <$> out).
Proof.
  intros Hrun. destruct (date_filter_of w days_back) as [e|date_filter] eqn:Hd.
  { by rewrite (search_tool_news_overflow _ _ _ _ e) in Hrun. }
  rewrite (search_tool_news_unfold _ _ _ _ date_filter Hd) in Hrun.
  destruct (dedup_loop _ _ _) as [e|unique_items] eqn:Hdedup; [done|].
  injection Hrun as _ <-. apply dedup_loop_inr in Hdedup as [Hl ->].
  assert (sublist (py_slice_to (first_by_key
            (concat (parsed_per_query _search_and_parse w (search_queries cfg)
                       (name cfg) date_filter max_results)) ∅ []) max_results)
            (concat (parsed_per_query _search_and_parse w (search_queries cfg)
                       (name cfg) date_filter max_results))) as Hsub.
  { etrans; [apply py_slice_to_sublist|apply first_by_key_sublist]. }
  split.
  - apply Forall_forall. intros x Hx.
    apply (proj1 (Forall_forall _ _) Hl). by eapply elem_of_sublist.
  - eapply sublist_NoDup; [apply first_by_key_NoDup|].
    apply fmap_sublist, py_slice_to_sublist.
Qed.

(** C1, as amended. An overflow of the date filter leaves
    [search_tool_news] before any search. Otherwise the parsed items of the
    tool's queries are taken in query order; when the url of one of them
    cannot be hashed the dedup loop raises [TypeError]; when all can, the
    loop keeps exactly the first item with each url, in their order, and
    for a non-negative [max_results] the first [max_results] of those are
    returned: at most [max_results] items with pairwise-distinct urls, and
    of two parsed items with one url the first only. *)
Theorem search_tool_news_dedup_truncate w cfg days_back max_results :
  (0 ≤ max_results)%Z →
  let run :=
    search_tool_news _search_and_parse date_filter_of w cfg days_back max_results in
  (∀ e, date_filter_of w days_back = inl e → run = (w, inl e)) ∧
  (∀ date_filter, date_filter_of w days_back = inr date_filter →
     let per_query :=
       parsed_per_query _search_and_parse w (search_queries cfg) (name cfg)
         date_filter max_results in
     length per_query = length (search_queries cfg) ∧
     (Exists (λ x, hashable (url x) = false) (concat per_query) →
      run.2 = inl TypeError) ∧
     (Forall (λ x, hashable (url x) = true) (concat per_query) →
      ∃ unique_items out,
        run.2 = inr out ∧
        sublist unique_items (concat per_query) ∧
        (∀ x, x ∈ unique_items ↔ first_with_url (concat per_query) x) ∧
        NoDup (url_element <$> unique_items) ∧
        out = take (Z.to_nat max_results) unique_items ∧
        (Z.of_nat (length out) ≤ max_results)%Z ∧
        NoDup (url_element <$> out) ∧
        NoDup (url <$> out) ∧
        (∀ x y, concat per_query = [x; y] → url_element x = url_element y →
                (1 ≤ max_results)%Z → out = [x]))).
Proof.
  intros Hmax run. split.
  { intros e He. by apply search_tool_news_overflow. }
  intros date_filter Hd per_query.
  split; [apply parsed_per_query_length|].
  unfold run. rewrite (search_tool_news_unfold _ _ _ _ date_filter Hd).
  fold per_query. cbn [snd]. split.
  { intros Hbad. by rewrite dedup_loop_unhashable. }
  intros Hl. rewrite (dedup_loop_hashable _ _ _ Hl).
  set (unique_items := first_by_key (concat per_query) ∅ []).
  assert (sublist unique_items (concat per_query)) as Hsub
    by apply first_by_key_sublist.
  assert (Forall (λ x, hashable (url x) = true) unique_items) as Hu.
  { apply Forall_forall. intros x Hx.
    apply (proj1 (Forall_forall _ _) Hl). by eapply elem_of_sublist. }
  assert (NoDup (url_element <$> unique_items)) as Hnd.
  { apply url_element_NoDup; [done|apply first_by_key_NoDup]. }
  assert (NoDup (url_element <$> take (Z.to_nat max_results) unique_items)) as Hnd'.
  { eapply sublist_NoDup; [exact Hnd|]. apply fmap_sublist, sublist_take. }
  exists unique_items, (take (Z.to_nat max_results) unique_items).
  split_and!.
  - by rewrite py_slice_to_nonneg.
  - done.
  - intros x. rewrite (first_with_url_key _ _ Hl). split.
    + apply first_by_key_only_first.
    + intros (i & Hi & Hfirst). apply (first_by_key_first _ _ _ i); [done|done|set_solver].
  - done.
  - done.
  - rewrite length_take. lia.
  - done.
  - by apply url_element_NoDup_url.
  - intros x y Hxy Hurl Hone. unfold unique_items. rewrite Hxy in Hl |- *.
    apply Forall_cons in Hl as [Hx Hl]. apply Forall_cons in Hl as [Hy _].
    rewrite (url_element_key x Hx), (url_element_key y Hy) in Hurl.
    injection Hurl as Hurl.
    rewrite !first_by_key_cons. rewrite decide_True by set_solver.
    rewrite decide_False by (rewrite Hurl; set_solver).
    simpl. destruct (Z.to_nat max_results) as [|n] eqn:Hn; [lia|by destruct n].
Qed.

Lemma collect_loop_per_tool w cfgs days_back max_results acc :
  (collect_loop _search_and_parse date_filter_of w cfgs days_back max_results acc).2 =
    match news_per_tool _search_and_parse date_filter_of w cfgs
            days_back max_results with
    | inl e => inl e
    | inr per_tool => inr (acc ++ concat per_tool)
    end.
Proof.
  revert w acc. induction cfgs as [|cfg cfgs IH]; intros w acc; simpl.
  - by rewrite app_nil_r.
  - destruct (search_tool_news _ _ w cfg days_back max_results) as [w' [e|news]];
      [done|].
    rewrite IH. destruct (news_per_tool _ _ w' cfgs _ _) as [e|per_tool]; [done|].
    simpl. by rewrite app_assoc.
Qed.

Lemma news_per_tool_NoDup w cfgs days_back max_results per_tool :
  news_per_tool _search_and_parse date_filter_of w cfgs days_back max_results =
    inr per_tool →
  length per_tool = length cfgs ∧
  Forall (λ news, Forall (λ x, hashable (url x) = true) news ∧
                  NoDup (url_key <$> news)) per_tool.
Proof.
  revert w per_tool. induction cfgs as [|cfg cfgs IH]; intros w per_tool; simpl.
  - intros [= <-]. by split.
  - pose proof (search_tool_news_NoDup w cfg days_back max_results) as Hnd.
    destruct (search_tool_news _ _ w cfg days_back max_results) as [w' [e|news]];
      [done|].
    specialize (IH w').
    destruct (news_per_tool _ _ w' cfgs _ _) as [e|rest]; [done|].
    intros [= <-]. destruct (IH rest eq_refl) as [Hlen Hall].
    split; [simpl; by rewrite Hlen|]. constructor; [by eapply Hnd|done].
Qed.

(** C4, as amended: when the search of a tool raises, [collect_all_news]
    raises the same exception; otherwise the list it returns is the
    concatenation, in tool order, of one list per tool configuration, and
    the urls within each tool's list are pairwise distinct. *)
Theorem collect_all_news_unique_per_tool w cfgs days_back max_results :
  match news_per_tool _search_and_parse date_filter_of w cfgs
          days_back max_results with
  | inl e =>
      (collect_all_news _search_and_parse date_filter_of w cfgs days_back
         max_results).2 = inl e
  | inr per_tool =>
      (collect_all_news _search_and_parse date_filter_of w cfgs days_back
         max_results).2 = inr (concat per_tool) ∧
      length per_tool = length cfgs ∧
      Forall (λ news, NoDup (url_element <$> news) ∧ NoDup (url <$> news)) per_tool
  end.
Proof.
  unfold collect_all_news. rewrite collect_loop_per_tool.
  destruct (news_per_tool _ _ w cfgs _ _) as [e|per_tool] eqn:Hper; [done|].
  apply news_per_tool_NoDup in Hper as [Hlen Hall].
  split_and!; [done|done|].
  eapply Forall_impl; [exact Hall|]. intros news [Hh Hnd]. simpl.
  assert (NoDup (url_element <$> news)) by by apply url_element_NoDup.
  split; [done|by apply url_element_NoDup_url].
Qed.

End CollectorProperties.

(** C1 at a concrete run: two queries whose answers share a url. *)
Lemma search_tool_news_dedup_truncate_witness :
  (0 ≤ 10)%Z ∧
  (search_tool_news scripted_search fixed_date_filter
     [inr [item_a1; item_a2]; inr [item_a1'; item_a3]] tool_a 1 10).2 =
    inr [item_a1; item_a2; item_a3].
Proof.
  split; [lia|].
  destruct (search_tool_news_dedup_truncate scripted_search fixed_date_filter
              [inr [item_a1; item_a2]; inr [item_a1'; item_a3]] tool_a 1 10)
    as (_ & Hrun); [lia|].
  destruct (Hrun "2024-05-01" eq_refl) as (_ & _ & Hok).
  destruct Hok as (unique_items & out & Hout & _).
  { apply (bool_decide_unpack _). vm_compute. exact I. }
  reflexivity.
Defined.

(** C1 as stated fails for a negative [max_results]: the slice drops the
    last item and the result is longer than [max_results]. *)
Lemma search_tool_news_negative_max_results :
  ∃ out,
    (search_tool_news scripted_search fixed_date_filter
       [inr [item_a1; item_a2]; inr [item_a1'; item_a3]] tool_a 1 (-1)).2 = inr out ∧
    out = [item_a1; item_a2] ∧ ¬ (Z.of_nat (length out) ≤ -1)%Z.
Proof.
  eexists. split; [vm_compute; reflexivity|]. split; [reflexivity|].
  vm_compute. intros H. exact (H eq_refl).
Qed.

(** C1 as stated also fails on a url that cannot be hashed: the generator
    answered with a list for a url; the dedup loop raises [TypeError] and
    no list is returned. For a url 1 and a url 1.0 the second item is
    dropped, although the two urls are not the same value. *)
Lemma search_tool_news_unhashable_url :
  (search_tool_news scripted_search fixed_date_filter
     [inr [item_a1; item_list_url]; inr [item_a2]] tool_a 1 10).2 = inl TypeError ∧
  (search_tool_news scripted_search fixed_date_filter
     [inr [item_url_1; item_url_1_0]; inr []] tool_a 1 10).2 = inr [item_url_1] ∧
  url item_url_1 ≠ url item_url_1_0 ∧
  (search_tool_news scripted_search fixed_date_filter
     [inr [item_a1]; inr [item_a2]] tool_a 1000000000 10) =
    ([inr [item_a1]; inr [item_a2]], inl OverflowError).
Proof. vm_compute. split_and!; done. Qed.

(** C4 as stated fails: two tools whose searches return the same url. *)
Lemma collect_all_news_shared_url :
  ∃ out,
    (collect_all_news scripted_search fixed_date_filter
       [inr [item_a1]; inr []; inr [item_b1]] [tool_a; tool_b] 1 10).2 = inr out ∧
    out = [item_a1; item_b1] ∧ ¬ NoDup (url <$> out).
Proof.
  eexists. split; [vm_compute; reflexivity|]. split; [reflexivity|].
  intros Hnd. apply NoDup_cons in Hnd as [Hnotin _].
  apply Hnotin. vm_compute. left.
Qed.

(** ** The store and the merge *)

Lemma bind_run {A B} (c : M A) (k : A → M B) (h : heap) :
  (c ≫= k) h =
    match c h with
    | (h', inr a) => k a h'
    | (h', inl e) => (h', inl e)
    end.
Proof. reflexivity. Qed.

#[global] Instance same_identity_refl : Reflexive same_identity.
Proof. intros x. by repeat split. Qed.

#[global] Instance same_identity_trans : Transitive same_identity.
Proof.
  intros x y z (?&?&?&?&?&?&?) (?&?&?&?&?&?&?).
  repeat split; congruence.
Qed.

Lemma writes_only_ret {A} item (a : A) : writes_only item (mret a).
Proof. intros h. by split. Qed.

Lemma writes_only_lift {A} item (r : exn + A) : writes_only item (lift r).
Proof. intros h. by destruct r. Qed.

Lemma writes_only_bind {A B} item (c : M A) (k : A → M B) :
  writes_only item c → (∀ a, writes_only item (k a)) → writes_only item (c ≫= k).
Proof.
  intros Hc Hk h. rewrite bind_run.
  destruct (Hc h) as [Hother Hsame].
  destruct (c h) as [h' [e|a]]; simpl in *; [done|].
  destruct (Hk a h') as [Hother' Hsame']. split.
  - intros r Hr. rewrite Hother', Hother; done.
  - by etrans.
Qed.

Lemma writes_only_setattr {V} (upd : NewsItem → V → NewsItem) item v :
  (∀ x, same_identity x (upd x v)) → writes_only item (setattr upd item v).
Proof.
  intros Hupd h. unfold setattr. cbn [fst]. split.
  - intros r Hr. by apply fn_lookup_insert_ne.
  - pose proof (fn_lookup_insert h item (upd (h item) v)) as Heq.
    unfold heap in *. rewrite Heq. apply Hupd.
Qed.

Lemma writes_only_merge_item item r : writes_only item (merge_item item r).
Proof.
  unfold merge_item.
  repeat first
    [ apply writes_only_bind; [|intros ?]
    | apply writes_only_lift
    | apply writes_only_setattr; intros ?; by repeat split ].
Qed.

(** The merge loop keeps the identity of every object, and leaves alone
    every object none of whose positions has a result. *)
Lemma merge_loop_frame result_map items idx h :
  let h' := (merge_loop result_map idx items h).1 in
  (∀ r, same_identity (h r) (h' r)) ∧
  (∀ r, (∀ j, items !! j = Some r → result_map !! KInt (Z.of_nat (idx + j)) = None) →
        h' r = h r).
Proof.
  revert idx h. induction items as [|item items IH]; intros idx h; simpl.
  - by split.
  - rewrite bind_run.
    set (step := match result_map !! KInt (Z.of_nat idx) with
                 | Some r => merge_item item r
                 | None => mret ()
                 end).
    assert (writes_only item step) as Hstep.
    { unfold step. destruct (result_map !! _); [apply writes_only_merge_item|].
      apply writes_only_ret. }
    assert (result_map !! KInt (Z.of_nat idx) = None → step h = (h, inr ())) as Hnone.
    { intros Hn. unfold step. by rewrite Hn. }
    destruct (Hstep h) as [Hother Hsame].
    assert (∀ r, same_identity (h r) ((step h).1 r)) as Hall.
    { intros r. destruct (decide (r = item)) as [->|Hne]; [done|].
      by rewrite Hother. }
    assert (∀ r, (∀ j, (item :: items) !! j = Some r →
                       result_map !! KInt (Z.of_nat (idx + j)) = None) →
                 (step h).1 r = h r) as Hkeep.
    { intros r Hr. destruct (decide (r = item)) as [->|Hne]; [|by apply Hother].
      rewrite Hnone; [done|]. specialize (Hr 0 eq_refl).
      by rewrite Nat.add_0_r in Hr. }
    destruct (step h) as [h1 [e|[]]]; simpl in *; [done|].
    destruct (IH (S idx) h1) as [IHsame IHkeep]. split.
    + intros r. etrans; [apply Hall|apply IHsame].
    + intros r Hr. rewrite IHkeep, Hkeep; [done|done|].
      intros j Hj. specialize (Hr (S j) Hj).
      by replace (S idx + j) with (idx + S j) by lia.
Qed.

Lemma store_insert_eq (h : heap) (item : ref) (x : NewsItem) :
  (<[item := x]> h) item = x.
Proof. apply fn_lookup_insert. Qed.

Lemma store_insert_ne (h : heap) (item r : ref) (x : NewsItem) :
  r ≠ item → (<[item := x]> h) r = h r.
Proof. intros Hne. by apply fn_lookup_insert_ne. Qed.

(** What [merge_item] does with a dict result, assignment by assignment. *)
Lemma merge_item_dict item kvs (h : heap) :
  merge_item item (PDict kvs) h =
    let h1 := <[item := with_summary_ja (h item) (dict_get kvs "summary_ja" (PStr EmptyString))]> h in
    let h2 := <[item := with_summary_en (h1 item) (dict_get kvs "summary_en" (PStr EmptyString))]> h1 in
    match Importance_of (dict_get kvs "importance" (PStr "medium")) with
    | inl e => (h2, inl e)
    | inr i =>
        let h3 := <[item := with_importance (h2 item) i]> h2 in
        match Category_of (dict_get kvs "category" (PStr "other")) with
        | inl e => (h3, inl e)
        | inr c =>
            let h4 := <[item := with_category (h3 item) c]> h3 in
            (<[item := with_tags (h4 item) (dict_get kvs "tags" (PList []))]> h4, inr ())
        end
    end.
Proof.
  unfold merge_item, mbind, M_bind, bind, lift, ret, raise, setattr. simpl.
  destruct (Importance_of _); [done|].
  by destruct (Category_of _).
Qed.

Lemma merge_item_not_dict item r h :
  (∀ kvs, r ≠ PDict kvs) → merge_item item r h = (h, inl AttributeError).
Proof. intros Hr. destruct r; try done. by destruct (Hr kvs). Qed.

Lemma enum_of_value_error {E} (members : list E) value v e :
  enum_of_value members value v = inl e → e = ValueError.
Proof.
  unfold enum_of_value. destruct v; try (by intros [= <-]).
  destruct (List.find _ _); by intros [= <-].
Qed.

Lemma merge_item_returns item r h h' :
  merge_item item r h = (h', inr ()) →
  ∃ kvs i c,
    r = PDict kvs ∧
    Importance_of (dict_get kvs "importance" (PStr "medium")) = inr i ∧
    Category_of (dict_get kvs "category" (PStr "other")) = inr c ∧
    h' item =
      enriched (h item) (dict_get kvs "summary_ja" (PStr EmptyString))
        (dict_get kvs "summary_en" (PStr EmptyString)) i c (dict_get kvs "tags" (PList [])).
Proof.
  destruct r as [| | | | |l|kvs]; try done.
  rewrite merge_item_dict. cbv zeta.
  destruct (Importance_of _) as [e|i] eqn:Hi; [done|].
  destruct (Category_of _) as [e|c] eqn:Hc; [done|].
  intros [= <-]. exists kvs, i, c. split_and!; try done.
  by rewrite !store_insert_eq.
Qed.

Lemma merge_item_raises_ValueError item kvs h h' e :
  merge_item item (PDict kvs) h = (h', inl e) → e = ValueError.
Proof.
  rewrite merge_item_dict. cbv zeta.
  destruct (Importance_of _) as [e1|i] eqn:Hi.
  { intros [= _ <-]. by eapply enum_of_value_error. }
  destruct (Category_of _) as [e1|c] eqn:Hc; [|done].
  intros [= _ <-]. by eapply enum_of_value_error.
Qed.

Lemma enum_of_value_unrecognized {E} (members : list E) value s :
  s ∉ value <$> members → enum_of_value members value (PStr s) = inl ValueError.
Proof.
  intros Hs. unfold enum_of_value.
  destruct (List.find _ _) as [m|] eqn:Hfind; [|done].
  apply find_some in Hfind as [Hin Heq%String.eqb_eq].
  destruct Hs. apply list_elem_of_fmap. exists m. split; [done|].
  by apply list_elem_of_In.
Qed.

Lemma unrecognized_importance kvs :
  unrecognized (PDict kvs) "importance" ["critical"; "high"; "medium"; "low"] →
  Importance_of (dict_get kvs "importance" (PStr "medium")) = inl ValueError.
Proof.
  intros (kvs' & s & [= <-] & Hk & Hs). unfold dict_get. rewrite Hk.
  by apply enum_of_value_unrecognized.
Qed.

Lemma unrecognized_category kvs :
  unrecognized (PDict kvs) "category"
    ["release"; "feature"; "update"; "bugfix"; "security"; "documentation";
     "announcement"; "other"] →
  Category_of (dict_get kvs "category" (PStr "other")) = inl ValueError.
Proof.
  intros (kvs' & s & [= <-] & Hk & Hs). unfold dict_get. rewrite Hk.
  by apply enum_of_value_unrecognized.
Qed.

(** A result with a value no enum member has: the merge of that item raises
    and the field in question is not assigned. *)
Lemma merge_item_unrecognized item kvs h :
  let bad_i := Importance_of (dict_get kvs "importance" (PStr "medium")) = inl ValueError in
  let bad_c := Category_of (dict_get kvs "category" (PStr "other")) = inl ValueError in
  bad_i ∨ bad_c →
  ∃ h', merge_item item (PDict kvs) h = (h', inl ValueError) ∧
        (bad_i → importance (h' item) = importance (h item)) ∧
        (bad_c → category (h' item) = category (h item)).
Proof.
  intros bad_i bad_c Hbad. rewrite merge_item_dict. cbv zeta.
  unfold bad_i, bad_c in *.
  destruct (Importance_of _) as [e|i] eqn:Hi.
  - assert (e = ValueError) as -> by (by eapply enum_of_value_error).
    eexists. split; [done|]. rewrite !store_insert_eq. by split.
  - destruct Hbad as [?|Hc]; [done|]. rewrite Hc.
    eexists. split; [done|]. rewrite !store_insert_eq. by split.
Qed.

Lemma merge_loop_cons result_map idx item rest h :
  merge_loop result_map idx (item :: rest) h =
    match
      match result_map !! KInt (Z.of_nat idx) with
      | Some r => merge_item item r h
      | None => (h, inr ())
      end
    with
    | (h1, inr _) => merge_loop result_map (S idx) rest h1
    | (h1, inl e) => (h1, inl e)
    end.
Proof. simpl. rewrite bind_run. by destruct (result_map !! _). Qed.

Lemma merge_item_other item r h x :
  x ≠ item → (merge_item item r h).1 x = h x.
Proof. intros Hx. by apply (writes_only_merge_item item r h). Qed.

Lemma merge_loop_unrecognized result_map idx items h i item kvs :
  let bad_i := Importance_of (dict_get kvs "importance" (PStr "medium")) = inl ValueError in
  let bad_c := Category_of (dict_get kvs "category" (PStr "other")) = inl ValueError in
  (∀ k r, result_map !! k = Some r → ∃ kvs', r = PDict kvs') →
  items !! i = Some item →
  result_map !! KInt (Z.of_nat (idx + i)) = Some (PDict kvs) →
  bad_i ∨ bad_c →
  ∃ h', merge_loop result_map idx items h = (h', inl ValueError) ∧
        (NoDup items →
         (bad_i → importance (h' item) = importance (h item)) ∧
         (bad_c → category (h' item) = category (h item))).
Proof.
  intros bad_i bad_c Hdicts. revert idx i h.
  induction items as [|x rest IH]; intros idx i h Hi Hr Hbad; [done|].
  rewrite merge_loop_cons. destruct i as [|i]; simpl in Hi.
  - simplify_eq. rewrite Nat.add_0_r in Hr. rewrite Hr.
    destruct (merge_item_unrecognized item kvs h Hbad) as (h' & -> & Hfields).
    by exists h'.
  - replace (idx + S i) with (S idx + i) in Hr by lia.
    assert (NoDup (x :: rest) → item ≠ x) as Hne.
    { intros [Hx _]%NoDup_cons ->. apply Hx. by eapply list_elem_of_lookup_2. }
    destruct (result_map !! KInt (Z.of_nat idx)) as [r|] eqn:Hx.
    + pose proof (merge_item_other x r h item) as Hother.
      destruct (Hdicts _ _ Hx) as [kvs' ->].
      destruct (merge_item x (PDict kvs') h) as [h1 [e|[]]] eqn:Hstep; simpl in *.
      * apply merge_item_raises_ValueError in Hstep as ->.
        exists h1. split; [done|]. intros Hnd. rewrite Hother by auto. done.
      * destruct (IH (S idx) i h1 Hi Hr Hbad) as (h' & -> & Hfields).
        exists h'. split; [done|]. intros Hnd.
        rewrite <- Hother by auto. apply Hfields. by apply NoDup_cons in Hnd as [_ ?].
    + destruct (IH (S idx) i h Hi Hr Hbad) as (h' & -> & Hfields).
      exists h'. split; [done|]. intros Hnd.
      apply Hfields. by apply NoDup_cons in Hnd as [_ ?].
Qed.

Lemma merge_loop_returns result_map idx items h h' :
  merge_loop result_map idx items h = (h', inr ()) →
  NoDup items →
  ∀ i item, items !! i = Some item →
    match result_map !! KInt (Z.of_nat (idx + i)) with
    | Some r => merged_from r (h item) (h' item)
    | None => h' item = h item
    end.
Proof.
  revert idx h. induction items as [|x rest IH]; intros idx h Hrun Hnd i item Hi; [done|].
  apply NoDup_cons in Hnd as [Hx Hnd].
  rewrite merge_loop_cons in Hrun.
  destruct i as [|i]; simpl in Hi.
  - simplify_eq. rewrite Nat.add_0_r.
    assert (∀ h1, merge_loop result_map (S idx) rest h1 = (h', inr ()) → h' item = h1 item)
      as Hrest.
    { intros h1 Hrun1.
      pose proof (merge_loop_frame result_map rest (S idx) h1) as [_ Hkeep].
      rewrite Hrun1 in Hkeep. simpl in Hkeep. apply Hkeep.
      intros j Hj. destruct Hx. by eapply list_elem_of_lookup_2. }
    destruct (result_map !! KInt (Z.of_nat idx)) as [r|].
    + destruct (merge_item item r h) as [h1 [e|[]]] eqn:Hstep; [done|].
      rewrite (Hrest _ Hrun).
      destruct (merge_item_returns _ _ _ _ Hstep) as (kvs & im & c & ? & ? & ? & ?).
      by exists kvs, im, c.
    + by apply Hrest.
  - replace (idx + S i) with (S idx + i) by lia.
    assert (item ≠ x) as Hne.
    { intros ->. apply Hx. by eapply list_elem_of_lookup_2. }
    destruct (result_map !! KInt (Z.of_nat idx)) as [r|].
    + pose proof (merge_item_other x r h item Hne) as Hother.
      destruct (merge_item x r h) as [h1 [e|[]]] eqn:Hstep; [done|].
      simpl in Hother. rewrite <- Hother. by apply IH.
    + by apply IH.
Qed.

Lemma build_result_map_lookup results (m0 m : gmap pykey pyval) i :
  build_result_map results m0 = inr m →
  m !! KInt (Z.of_nat i) =
    match result_for results i with
    | Some r => Some r
    | None => m0 !! KInt (Z.of_nat i)
    end.
Proof.
  unfold result_for. revert m0.
  induction results as [|r results IH]; intros m0; simpl.
  - by intros [= <-].
  - destruct (getitem_str r "id") as [e|k] eqn:Hid; [done|].
    destruct (hash_key k) as [e|key] eqn:Hk; [done|].
    intros Hbuild. rewrite (IH _ Hbuild).
    assert (has_id i r = bool_decide (key = KInt (Z.of_nat i))) as ->.
    { unfold has_id. by rewrite Hid, Hk. }
    case_bool_decide as Hkey.
    + rewrite last_cons. destruct (last _); [done|].
      subst key. by rewrite lookup_insert_eq.
    + destruct (last _); [done|]. by rewrite lookup_insert_ne.
Qed.

Lemma build_result_map_dicts results (m0 m : gmap pykey pyval) :
  build_result_map results m0 = inr m →
  (∀ k r, m0 !! k = Some r → ∃ kvs, r = PDict kvs) →
  ∀ k r, m !! k = Some r → ∃ kvs, r = PDict kvs.
Proof.
  revert m0. induction results as [|r results IH]; intros m0; simpl.
  - by intros [= <-].
  - destruct (getitem_str r "id") as [e|k] eqn:Hid; [done|].
    destruct (hash_key k) as [e|key]; [done|].
    intros Hbuild Hm0. apply (IH _ Hbuild).
    intros k' r' [[_ <-]|[_ ?]]%lookup_insert_Some; [|by eapply Hm0].
    destruct r; try done. by eexists.
Qed.

Lemma merge_results_run results batch h :
  merge_results results batch h =
    match build_result_map results ∅ with
    | inr result_map => merge_loop result_map 0 batch h
    | inl e => (h, inl e)
    end.
Proof.
  unfold merge_results. rewrite bind_run. by destruct (build_result_map _ _).
Qed.

(** C2, as amended: the mapping built from the results holds, for an index,
    the last result whose id equals it. An item object none of whose batch
    positions has a result keeps every field, whether the merge completes
    or raises. When the merge completes on a batch of pairwise-distinct
    objects, the item at index [i] has its five enrichment fields
    overwritten from the result with id [i] exactly when there is one, and
    is left as it was otherwise. *)
Theorem merge_results_by_id results batch h :
  let h' := (merge_results results batch h).1 in
  (∀ result_map i, build_result_map results ∅ = inr result_map →
     result_map !! KInt (Z.of_nat i) = result_for results i) ∧
  (∀ item, (∀ j, batch !! j = Some item → result_for results j = None) →
     h' item = h item) ∧
  ((merge_results results batch h).2 = inr () → NoDup batch →
   ∀ i item, batch !! i = Some item →
     match result_for results i with
     | Some r => merged_from r (h item) (h' item)
     | None => h' item = h item
     end).
Proof.
  intros h'. unfold h'. rewrite merge_results_run. split_and!.
  - intros m i Hm. rewrite (build_result_map_lookup _ _ _ i Hm).
    rewrite lookup_empty. by destruct (result_for results i).
  - intros item Hitem.
    destruct (build_result_map results ∅) as [e|m] eqn:Hm; [done|].
    apply (merge_loop_frame m batch 0 h). intros j Hj. simpl.
    rewrite (build_result_map_lookup _ _ _ j Hm), lookup_empty.
    by rewrite (Hitem j Hj).
  - destruct (build_result_map results ∅) as [e|m] eqn:Hm; [done|].
    intros Hrun Hnd i item Hi.
    destruct (merge_loop m 0 batch h) as [h1 [e|[]]] eqn:Hloop; [done|]. simpl.
    pose proof (merge_loop_returns m 0 batch h h1 Hloop Hnd i item Hi) as Hres.
    simpl in Hres. rewrite (build_result_map_lookup _ _ _ i Hm), lookup_empty in Hres.
    by destruct (result_for results i).
Qed.

Lemma merge_results_frame results batch h r :
  same_identity (h r) ((merge_results results batch h).1 r).
Proof.
  rewrite merge_results_run.
  destruct (build_result_map results ∅) as [e|m]; [done|].
  apply merge_loop_frame.
Qed.

(** ** Summariser *)

Section SummarizerProperties.
Context {World : Type}.
Variable messages_create : World → list ItemData → World * (exn + string).
Variable re_search_json_block : string → option string.
Variable json_loads : string → option pyval.
Variable dict_slice_error : exn.

Abbreviation parse_response := (_parse_response re_search_json_block json_loads).
Abbreviation process_batch :=
  (_process_batch messages_create re_search_json_block json_loads dict_slice_error).
Abbreviation loop :=
  (batches_loop messages_create re_search_json_block json_loads dict_slice_error).
Abbreviation payloads := (payloads_of dict_slice_error).

Lemma parse_response_run text items h :
  parse_response text items h =
    match json_loads (json_str_of re_search_json_block text) with
    | None => (h, inr items)
    | Some v =>
        match merge_results (as_list v) items h with
        | (h', inr _) => (h', inr items)
        | (h', inl e) => (h', inl e)
        end
    end.
Proof.
  unfold _parse_response. destruct (json_loads _); [|done].
  rewrite bind_run. by destruct (merge_results _ _ _) as [h' [e|[]]].
Qed.

Lemma parse_response_frame text items h r :
  same_identity (h r) ((parse_response text items h).1 r).
Proof.
  rewrite parse_response_run. destruct (json_loads _) as [v|]; [|done].
  pose proof (merge_results_frame (as_list v) items h r) as Hframe.
  by destruct (merge_results _ _ _) as [h' [e|[]]].
Qed.

(** *** The payload *)

Lemma content_slice_sliceable (c : pyval) :
  sliceable c = true → ∃ c', content_slice dict_slice_error c = inr c'.
Proof.
  unfold sliceable, content_slice. destruct (truthy c); [|by eexists].
  destruct c; simpl; try done; by eexists.
Qed.

Lemma content_slice_error (c : pyval) :
  sliceable c = false →
  ∃ e, content_slice dict_slice_error c = inl e ∧
       (e = TypeError ∨ e = dict_slice_error).
Proof.
  unfold sliceable, content_slice. destruct (truthy c); [|done].
  destruct c; simpl; try done; eexists; (split; [done|]); first [by left|by right].
Qed.

Lemma items_data_loop_sliceable h idx items acc :
  Forall (λ item, sliceable (content (h item)) = true) items →
  ∃ d, items_data_loop dict_slice_error h idx items acc = inr d.
Proof.
  intros Hall. revert idx acc.
  induction Hall as [|item items Hitem _ IH]; intros idx acc; simpl; [by eexists|].
  destruct (content_slice_sliceable _ Hitem) as [c ->]. apply IH.
Qed.

Lemma items_data_loop_unsliceable h idx items acc :
  Exists (λ item, sliceable (content (h item)) = false) items →
  ∃ e, items_data_loop dict_slice_error h idx items acc = inl e ∧
       (e = TypeError ∨ e = dict_slice_error).
Proof.
  revert idx acc. induction items as [|item items IH]; intros idx acc Hbad;
    [by apply Exists_nil in Hbad|].
  simpl. destruct (sliceable (content (h item))) eqn:Hitem.
  - destruct (content_slice_sliceable _ Hitem) as [c ->].
    apply IH. apply Exists_cons in Hbad as [Hbad|Hbad]; [congruence|done].
  - destruct (content_slice_error _ Hitem) as (e & -> & He). by exists e.
Qed.

Lemma items_data_loop_frame h h' idx items acc :
  (∀ r, same_identity (h r) (h' r)) →
  items_data_loop dict_slice_error h idx items acc =
    items_data_loop dict_slice_error h' idx items acc.
Proof.
  intros Hsame. revert idx acc.
  induction items as [|item items IH]; intros idx acc; simpl; [done|].
  destruct (Hsame item) as (-> & -> & -> & _ & -> & _).
  destruct (content_slice _ _); [done|]. apply IH.
Qed.

Lemma items_data_of_frame h h' items :
  (∀ r, same_identity (h r) (h' r)) →
  items_data_of dict_slice_error h items = items_data_of dict_slice_error h' items.
Proof. apply items_data_loop_frame. Qed.

Lemma payloads_of_frame h h' batches :
  (∀ r, same_identity (h r) (h' r)) → payloads h batches = payloads h' batches.
Proof.
  intros Hsame. induction batches as [|batch batches IH]; simpl; [done|].
  rewrite (items_data_of_frame h h' batch Hsame), IH. done.
Qed.

(** *** One batch *)

Lemma process_batch_outcome w batch h :
  match items_data_of dict_slice_error h batch with
  | inl e => process_batch w batch h = (w, h, inl e)
  | inr items_data =>
      (process_batch w batch h).1.1 = (messages_create w items_data).1 ∧
      (process_batch w batch h).2 = inr batch
  end.
Proof.
  unfold _process_batch.
  destruct (items_data_of dict_slice_error h batch) as [e|items_data]; [done|].
  destruct (messages_create _ _) as [w' [e|text]]; [done|].
  rewrite parse_response_run. destruct (json_loads _) as [v|]; [|done].
  by destruct (merge_results _ _ _) as [h' [e|[]]].
Qed.

Lemma process_batch_frame w batch h r :
  same_identity (h r) ((process_batch w batch h).1.2 r).
Proof.
  unfold _process_batch.
  destruct (items_data_of dict_slice_error h batch) as [e|items_data]; [done|].
  destruct (messages_create _ _) as [w' [e|text]]; [done|].
  pose proof (parse_response_frame text batch h r) as Hframe.
  by destruct (parse_response text batch h) as [h' [e|out]].
Qed.

(** *** The loop over the batches *)

(** One request per batch, in order, up to the first batch whose payload
    cannot be built; the exception of that batch ends the loop, and no
    other exception does. *)
Lemma batches_loop_run w h items starts acc :
  let batches := (λ i, take batch_size (drop i items)) <$> starts in
  (loop w h items starts acc).1.1 =
    world_after_requests messages_create w (payloads h batches).1 ∧
  (loop w h items starts acc).2 =
    match (payloads h batches).2 with
    | None => inr (acc ++ concat batches)
    | Some e => inl e
    end ∧
  ∀ r, same_identity (h r) ((loop w h items starts acc).1.2 r).
Proof.
  revert w h acc. induction starts as [|i starts IH]; intros w h acc; simpl.
  - by rewrite app_nil_r.
  - pose proof (process_batch_outcome w (take batch_size (drop i items)) h) as Hout.
    pose proof (process_batch_frame w (take batch_size (drop i items)) h) as Hframe.
    destruct (items_data_of dict_slice_error h (take batch_size (drop i items)))
      as [e|items_data].
    { rewrite Hout. by split_and!. }
    destruct (process_batch w _ h) as [[w' h'] [e|processed]]; simpl in *;
      destruct Hout as [Hw' Hitems]; [done|].
    injection Hitems as ->. subst w'.
    destruct (IH (messages_create w items_data).1 h'
                (acc ++ take batch_size (drop i items))) as (Hw & Hres & IHframe).
    rewrite <- (payloads_of_frame h h' _ Hframe) in Hw, Hres.
    destruct (payloads h _) as [ps err]. simpl in *.
    split_and!.
    + done.
    + rewrite Hres. destruct err; [done|]. by rewrite app_assoc.
    + intros r. etrans; [apply Hframe|apply IHframe].
Qed.

(** C3, as amended: when the result that the mapping holds for the index
    of a batch item carries an importance or category string outside the
    closed sets, [_parse_response] raises [ValueError]; on a batch of
    pairwise-distinct objects the field in question is not given a default
    value, it keeps the value it had before the merge. *)
Theorem parse_response_unrecognized_enum text v batch h result_map i item r :
  let bad_importance :=
    unrecognized r "importance" ["critical"; "high"; "medium"; "low"] in
  let bad_category :=
    unrecognized r "category"
      ["release"; "feature"; "update"; "bugfix"; "security"; "documentation";
       "announcement"; "other"] in
  json_loads (json_str_of re_search_json_block text) = Some v →
  build_result_map (as_list v) ∅ = inr result_map →
  batch !! i = Some item →
  result_map !! KInt (Z.of_nat i) = Some r →
  bad_importance ∨ bad_category →
  ∃ h', parse_response text batch h = (h', inl ValueError) ∧
        (NoDup batch →
         (bad_importance → importance (h' item) = importance (h item)) ∧
         (bad_category → category (h' item) = category (h item))).
Proof.
  intros bad_importance bad_category Hv Hm Hi Hr Hbad.
  rewrite parse_response_run, Hv, merge_results_run, Hm.
  assert (∃ kvs, r = PDict kvs) as [kvs ->].
  { destruct Hbad as [(kvs & _ & -> & _)|(kvs & _ & -> & _)]; by eexists. }
  destruct (merge_loop_unrecognized result_map 0 batch h i item kvs)
    as (h' & -> & Hfields); try done.
  - eapply build_result_map_dicts; [done|]. intros k r'. by rewrite lookup_empty.
  - destruct Hbad as [Hb|Hb];
      [left; by apply unrecognized_importance|right; by apply unrecognized_category].
  - exists h'. split; [done|]. intros Hnd. destruct (Hfields Hnd) as [Hfi Hfc].
    split; intros Hb; [apply Hfi; by apply unrecognized_importance|].
    apply Hfc; by apply unrecognized_category.
Qed.

(** C5: when the request for a batch fails, or its reply cannot be parsed
    as JSON, [_process_batch] returns the batch with the store unchanged
    and raises nothing, and the loop goes on with the remaining batches from
    that store: what it returns then depends on the remaining batches
    only, and the only exception it can still end in is the one of a
    remaining batch whose payload cannot be built. *)
Theorem failed_batch_is_isolated w h news_items i rest acc :
  let batch := take batch_size (drop i news_items) in
  let remaining := (λ j, take batch_size (drop j news_items)) <$> rest in
  request_fails messages_create dict_slice_error w h batch ∨
    reply_unparseable messages_create re_search_json_block json_loads
      dict_slice_error w h batch →
  let w' := world_after messages_create dict_slice_error w h batch in
  process_batch w batch h = (w', h, inr batch) ∧
  loop w h news_items (i :: rest) acc = loop w' h news_items rest (acc ++ batch) ∧
  (loop w h news_items (i :: rest) acc).2 =
    match (payloads h remaining).2 with
    | None => inr (acc ++ batch ++ concat remaining)
    | Some e => inl e
    end.
Proof.
  intros batch remaining Hfail w'.
  assert (process_batch w batch h = (w', h, inr batch)) as Hbatch.
  { unfold w', world_after, _process_batch.
    destruct Hfail as [(d & w1 & e & -> & ->)|(d & w1 & text & -> & -> & Hparse)];
      [done|].
    rewrite parse_response_run. by rewrite Hparse. }
  assert (loop w h news_items (i :: rest) acc =
          loop w' h news_items rest (acc ++ batch)) as Hloop.
  { simpl. fold batch. by rewrite Hbatch. }
  split_and!; [done|done|].
  rewrite Hloop. rewrite (proj1 (proj2 (batches_loop_run _ _ _ _ _))).
  fold remaining. destruct (payloads h remaining).2; [done|]. by rewrite app_assoc.
Qed.

End SummarizerProperties.

(** ** Batches *)

Lemma concat_chunks {A} (l : list A) (s c : nat) :
  concat ((λ k, take s (drop (k * s) l)) <$> seq 0 c) = take (c * s) l.
Proof.
  induction c as [|c IH].
  - done.
  - rewrite seq_S, fmap_app, concat_app, IH. simpl. rewrite app_nil_r.
    rewrite take_take_drop. f_equal. lia.
Qed.

Lemma batch_count_covers (n : nat) :
  n ≤ (n + batch_size - 1) / batch_size * batch_size ∧
  ∀ k, k < (n + batch_size - 1) / batch_size → k * batch_size < n.
Proof.
  unfold batch_size.
  pose proof (Nat.div_mod_eq (n + 10 - 1) 10) as Hdm.
  pose proof (Nat.mod_upper_bound (n + 10 - 1) 10) as Hmod.
  split; [lia|]. intros k Hk. nia.
Qed.

Lemma concat_batches_of (l : list ref) : concat (batches_of l) = l.
Proof.
  unfold batches_of, py_range0. rewrite <- list_fmap_compose.
  rewrite (concat_chunks l batch_size). apply take_ge.
  apply batch_count_covers.
Qed.

Lemma batches_of_sizes (l : list ref) :
  Forall (λ batch, 1 ≤ length batch ≤ batch_size) (batches_of l).
Proof.
  unfold batches_of, py_range0. rewrite <- list_fmap_compose.
  apply Forall_fmap, Forall_forall. intros k Hk%elem_of_seq. simpl.
  rewrite length_take, length_drop.
  pose proof (proj2 (batch_count_covers (length l)) k) as Hlt.
  unfold batch_size in *. lia.
Qed.

Section SummarizerFrame.
Context {World : Type}.
Variable messages_create : World → list ItemData → World * (exn + string).
Variable re_search_json_block : string → option string.
Variable json_loads : string → option pyval.
Variable dict_slice_error : exn.

Abbreviation summarize :=
  (summarize_and_categorize messages_create re_search_json_block json_loads
     dict_slice_error).

Lemma summarize_and_categorize_batches w news_items h :
  summarize w news_items h =
    batches_loop messages_create re_search_json_block json_loads dict_slice_error
      w h news_items (py_range0 (length news_items) batch_size) [].
Proof. by destruct news_items. Qed.

Lemma payloads_of_sliceable h batches :
  Forall (λ item, sliceable (content (h item)) = true) (concat batches) →
  length (payloads_of dict_slice_error h batches).1 = length batches ∧
  (payloads_of dict_slice_error h batches).2 = None.
Proof.
  induction batches as [|batch batches IH]; simpl; [done|].
  intros [Hbatch Hrest]%Forall_app.
  destruct (items_data_loop_sliceable dict_slice_error h 0 batch [] Hbatch) as [d Hd].
  unfold items_data_of. rewrite Hd.
  destruct (IH Hrest) as [Hlen Herr].
  destruct (payloads_of dict_slice_error h batches) as [ps err]. simpl in *.
  by rewrite Hlen.
Qed.

Lemma payloads_of_unsliceable h batches :
  Exists (λ item, sliceable (content (h item)) = false) (concat batches) →
  ∃ e, (payloads_of dict_slice_error h batches).2 = Some e ∧
       (e = TypeError ∨ e = dict_slice_error).
Proof.
  induction batches as [|batch batches IH]; simpl; [by intros ?%Exists_nil|].
  intros Hbad.
  destruct (decide (Forall (λ item, sliceable (content (h item)) = true) batch))
    as [Hbatch|Hbatch].
  - destruct (items_data_loop_sliceable dict_slice_error h 0 batch [] Hbatch) as [d Hd].
    unfold items_data_of. rewrite Hd.
    apply Exists_app in Hbad as [Hbad|Hbad].
    { exfalso. apply Exists_exists in Hbad as (item & Hin & Hitem).
      pose proof (proj1 (Forall_forall _ _) Hbatch item Hin) as Hok. simpl in Hok.
      congruence. }
    destruct (IH Hbad) as (e & He & Hcases).
    destruct (payloads_of dict_slice_error h batches) as [ps err]. simpl in *.
    by exists e.
  - apply not_Forall_Exists in Hbatch; [|apply _].
    destruct (items_data_loop_unsliceable dict_slice_error h 0 batch []) as (e & He & Hcases).
    { eapply Exists_impl; [exact Hbatch|]. intros item Hitem. simpl in Hitem.
      by destruct (sliceable (content (h item))). }
    unfold items_data_of. rewrite He. by exists e.
Qed.

(** C7, as amended. The input is cut into consecutive batches of one to
    ten items, and one request is made per batch, in order, for the payload
    of that batch. When the content of every item can be sliced, the run
    returns the items it was given, in the same order. When the content of
    some item is a true value that is neither a string nor a list, the run
    ends in the exception of the first batch that holds such an item, after
    the requests for the batches before it. In either case no operation of
    the summariser changes the title, url, tool_name, source, content,
    published_at or raw_data of any object of the store. *)
Theorem summarize_and_categorize_same_items w news_items h :
  let result := summarize w news_items h in
  let outcome := payloads_of dict_slice_error h (batches_of news_items) in
  concat (batches_of news_items) = news_items ∧
  Forall (λ batch, 1 ≤ length batch ≤ 10) (batches_of news_items) ∧
  result.1.1 = world_after_requests messages_create w outcome.1 ∧
  result.2 =
    match outcome.2 with
    | None => inr news_items
    | Some e => inl e
    end ∧
  (Forall (λ item, sliceable (content (h item)) = true) news_items →
   length outcome.1 = length (batches_of news_items) ∧
   result.2 = inr news_items) ∧
  (Exists (λ item, sliceable (content (h item)) = false) news_items →
   ∃ e, result.2 = inl e ∧ (e = TypeError ∨ e = dict_slice_error)) ∧
  (∀ r, same_identity (h r) (result.1.2 r)) ∧
  (∀ w batch h r,
     same_identity (h r)
       ((_process_batch messages_create re_search_json_block json_loads
           dict_slice_error w batch h).1.2 r)) ∧
  (∀ text batch h r,
     same_identity (h r)
       ((_parse_response re_search_json_block json_loads text batch h).1 r)).
Proof.
  intros result outcome.
  pose proof (batches_loop_run messages_create re_search_json_block json_loads
                dict_slice_error w h news_items
                (py_range0 (length news_items) batch_size) [])
    as (Hworld & Hres & Hframe).
  rewrite <- summarize_and_categorize_batches in Hworld, Hres, Hframe.
  change ((λ i, take batch_size (drop i news_items)) <$>
            py_range0 (length news_items) batch_size)
    with (batches_of news_items) in Hworld, Hres.
  rewrite concat_batches_of in Hres. simpl in Hres.
  fold result outcome in Hworld, Hres, Hframe.
  split_and!.
  - apply concat_batches_of.
  - apply batches_of_sizes.
  - done.
  - done.
  - intros Hall. rewrite <- (concat_batches_of news_items) in Hall.
    destruct (payloads_of_sliceable h _ Hall) as [Hlen Herr].
    fold outcome in Hlen, Herr. split; [done|]. by rewrite Hres, Herr.
  - intros Hbad. rewrite <- (concat_batches_of news_items) in Hbad.
    destruct (payloads_of_unsliceable h _ Hbad) as (e & He & Hcases).
    fold outcome in He. exists e. split; [|done]. by rewrite Hres, He.
  - done.
  - apply process_batch_frame.
  - apply parse_response_frame.
Qed.

End SummarizerFrame.

(** ** The merge on concrete replies *)

Lemma NoDup_0_1_2 : NoDup [0; 1; 2].
Proof. apply (bool_decide_unpack _). reflexivity. Defined.

(** C2 at a concrete merge: results with ids [0] and [2.0] for a batch of
    three; the item at index 1 is left alone, the item at index 2 is
    overwritten from the result whose id equals 2. *)
Lemma merge_results_by_id_witness :
  let h' := (merge_results [result_ok_0; result_ok_2] [0; 1; 2] store0).1 in
  ((merge_results [result_ok_0; result_ok_2] [0; 1; 2] store0).2 = inr () ∧
   NoDup [0; 1; 2] ∧ [0; 1; 2] !! 1 = Some 1 ∧ [0; 1; 2] !! 2 = Some 2) ∧
  h' 1 = store0 1 ∧
  merged_from result_ok_2 (store0 2) (h' 2).
Proof.
  pose proof (merge_results_by_id [result_ok_0; result_ok_2] [0; 1; 2] store0)
    as (_ & _ & Hmerged).
  split; [split_and!; [reflexivity|exact NoDup_0_1_2|reflexivity|reflexivity]|].
  split.
  - exact (Hmerged eq_refl NoDup_0_1_2 1 1 eq_refl).
  - exact (Hmerged eq_refl NoDup_0_1_2 2 2 eq_refl).
Defined.

(** C2 as stated fails: a result has id 0, yet the item at index 0 is not
    overwritten, because another result of the list has no id and building
    the mapping raises [KeyError] before any item is merged. *)
Lemma merge_results_missing_id :
  let results := [result_ok_0; result_without_id] in
  let h' := (merge_results results [0; 1] store0).1 in
  result_for results 0 = Some result_ok_0 ∧
  (merge_results results [0; 1] store0).2 = inl KeyError ∧
  h' 0 = store0 0 ∧
  summary_en (h' 0) ≠ PStr "A 2.0 is out".
Proof. vm_compute. split_and!; done. Qed.

(** The objects of a batch have to be distinct for an item without a result
    to stay as it was: in the batch [[0; 0]] no result has id 1, yet the
    item at index 1 is the object that the result with id 0 overwrites. *)
Lemma merge_results_aliased_batch :
  let h' := (merge_results [result_ok_0] [0; 0] store0).1 in
  result_for [result_ok_0] 1 = None ∧
  (merge_results [result_ok_0] [0; 0] store0).2 = inr () ∧
  h' 0 ≠ store0 0.
Proof. vm_compute. split_and!; done. Qed.

Lemma urgent_unrecognized r kvs :
  r = PDict kvs → dict_lookup kvs "importance" = Some (PStr "urgent") →
  unrecognized r "importance" ["critical"; "high"; "medium"; "low"].
Proof.
  intros -> Hk. exists kvs, "urgent". split_and!; [done|done|].
  apply (bool_decide_unpack _). reflexivity.
Defined.

(** C3 at a concrete reply: the result for index 1 has importance "urgent". *)
Lemma parse_response_unrecognized_enum_witness :
  ∃ h', _parse_response no_json_block scenario_json_loads
          "reply: result 0, then importance urgent for 1" [0; 1] store0 =
          (h', inl ValueError) ∧
        importance (h' 1) = importance (store0 1).
Proof.
  destruct (parse_response_unrecognized_enum no_json_block scenario_json_loads
              "reply: result 0, then importance urgent for 1"
              (PList [result_ok_0; result_urgent_1]) [0; 1] store0
              (<[KInt 1 := result_urgent_1]> (<[KInt 0 := result_ok_0]> ∅))
              1 1 result_urgent_1)
    as (h' & Hrun & Hfields).
  - reflexivity.
  - reflexivity.
  - reflexivity.
  - vm_compute. reflexivity.
  - left. by eapply urgent_unrecognized.
  - exists h'. split; [exact Hrun|].
    apply Hfields.
    + apply (bool_decide_unpack _). reflexivity.
    + by eapply urgent_unrecognized.
Defined.

(** C3 as stated fails: a result carries the importance "urgent", but its
    id matches no item of the batch; the merge completes without an error
    and leaves the item as it was. *)
Lemma merge_results_unused_result_no_error :
  unrecognized result_urgent_7 "importance" ["critical"; "high"; "medium"; "low"] ∧
  (_parse_response no_json_block scenario_json_loads
     "reply: importance urgent for id 7" [0] store0).2 = inr [0] ∧
  (_parse_response no_json_block scenario_json_loads
     "reply: importance urgent for id 7" [0] store0).1 0 = store0 0.
Proof.
  split; [by eapply urgent_unrecognized|]. vm_compute. done.
Qed.

(** C6 on a concrete batch: the reply enriches item 0 and names the
    importance "urgent" for item 1. [_process_batch] returns the batch with
    item 0 enriched and item 1 holding the new summaries and its old
    importance, category and tags. *)
Theorem process_batch_partial_enrichment (dict_slice_error : exn) :
  let result :=
    _process_batch scripted_messages_create no_json_block scenario_json_loads
      dict_slice_error
      [inr "reply: result 0, then importance urgent for 1"] [0; 1] store0 in
  let h' := result.1.2 in
  result.2 = inr [0; 1] ∧
  h' 0 = enriched (store0 0) (PStr "A 2.0 ga deta") (PStr "A 2.0 is out")
           CRITICAL RELEASE (PList [PStr "release"]) ∧
  summary_ja (store0 1) = PStr EmptyString ∧
  summary_ja (h' 1) = PStr "A no bagu shuusei" ∧
  summary_en (h' 1) = PStr "A fixes a bug" ∧
  importance (h' 1) = MEDIUM ∧ category (h' 1) = OTHER ∧ tags (h' 1) = PList [] ∧
  h' 0 ≠ store0 0 ∧ h' 1 ≠ store0 1.
Proof. vm_compute. split_and!; done. Qed.

(** C5 at a concrete run of twelve items: the reply for the first batch is
    not JSON, the second batch is merged. *)
Lemma failed_batch_is_isolated_witness :
  let w := [inr "I cannot help with that"; inr "reply: results 0 and 2"] in
  reply_unparseable scripted_messages_create no_json_block scenario_json_loads
    TypeError w store0 (take batch_size (drop 0 (seq 0 12))) ∧
  _process_batch scripted_messages_create no_json_block scenario_json_loads TypeError
    w (seq 0 10) store0 = ([inr "reply: results 0 and 2"], store0, inr (seq 0 10)) ∧
  (batches_loop scripted_messages_create no_json_block scenario_json_loads TypeError
     w store0 (seq 0 12) [0; 10] []).2 = inr (seq 0 12).
Proof.
  intros w.
  assert (reply_unparseable scripted_messages_create no_json_block scenario_json_loads
            TypeError w store0 (take batch_size (drop 0 (seq 0 12)))) as Hfail.
  { eexists _, [inr "reply: results 0 and 2"], "I cannot help with that".
    split_and!; reflexivity. }
  split; [exact Hfail|].
  destruct (failed_batch_is_isolated scripted_messages_create no_json_block
              scenario_json_loads TypeError w store0 (seq 0 12) 0 [10] []
              (or_intror Hfail))
    as (Hbatch & _ & Hout).
  split; [exact Hbatch|exact Hout].
Defined.

(** C7 as stated fails: the twelfth item has the number 5 for content. The
    first batch is requested and returned; building the payload of the
    second batch raises [TypeError] (slicing a number, under every version
    of Python), and the run returns no item. *)
Lemma summarize_and_categorize_numeric_content :
  summarize_and_categorize scripted_messages_create no_json_block scenario_json_loads
    KeyError [inr "I cannot help with that"; inr "reply: results 0 and 2"]
    (seq 0 12) store_numeric_snippet =
  ([inr "reply: results 0 and 2"], store_numeric_snippet, inl TypeError) ∧
  summarize_and_categorize scripted_messages_create no_json_block scenario_json_loads
    TypeError [inr "I cannot help with that"; inr "reply: results 0 and 2"]
    (seq 0 12) store_numeric_snippet =
  ([inr "reply: results 0 and 2"], store_numeric_snippet, inl TypeError).
Proof. split; reflexivity. Qed.

(** ** The dictionary form *)

Lemma Importance_of_value (i : Importance) :
  Importance_of (PStr (Importance_value i)) = inr i.
Proof. by destruct i. Qed.

Lemma Category_of_value (c : Category) :
  Category_of (PStr (Category_value c)) = inr c.
Proof. by destruct c. Qed.

Section DictFormProperties.
Variable isoformat : datetime → string.
Variable fromisoformat : string → exn + datetime.

(** C8: for every item, [from_dict (to_dict item)] returns an item with the
    same importance and the same category. The [datetime] library is a
    parameter: [fromisoformat] is taken to accept the non-empty text that
    [isoformat] wrote for the item's [published_at], if it has one. *)
Theorem to_dict_from_dict_enums (self : NewsItem) :
  (∀ d, published_at self = Some d →
        isoformat d ≠ EmptyString ∧ ∃ d', fromisoformat (isoformat d) = inr d') →
  ∃ item,
    from_dict fromisoformat (to_dict isoformat self) = Some (inr item) ∧
    importance item = importance self ∧
    category item = category self.
Proof.
  intros Hiso.
  assert (∃ p, parse_published_at fromisoformat (to_dict isoformat self) = inr p)
    as [p Hp].
  { unfold parse_published_at, to_dict, dict_get. simpl.
    destruct (published_at self) as [d|]; [|by eexists].
    destruct (Hiso d eq_refl) as [Hne [d' Hd']]. simpl.
    apply String.eqb_neq in Hne. rewrite Hne. simpl. rewrite Hd'. by eexists. }
  unfold from_dict. rewrite Hp.
  unfold to_dict, and_then, field_required, field_default, dict_get.
  cbn -[Importance_of Category_of].
  rewrite Importance_of_value, Category_of_value.
  eexists. split; [reflexivity|]. by split.
Qed.

End DictFormProperties.

(** C8 on an item that has a publication date. *)
Lemma to_dict_from_dict_enums_witness :
  ∃ item,
    from_dict scenario_fromisoformat (to_dict scenario_isoformat published_item) =
      Some (inr item) ∧
    importance item = CRITICAL ∧ category item = RELEASE.
Proof.
  apply (to_dict_from_dict_enums scenario_isoformat scenario_fromisoformat published_item).
  intros d [= <-]. split; [discriminate|]. eexists. reflexivity.
Defined.

(** ** Grouping by tool *)

Lemma first_occurrences_elem (l : list string) x :
  x ∈ first_occurrences l ↔ x ∈ l.
Proof.
  induction l as [|y l IH]; simpl; [done|].
  rewrite !elem_of_cons, list_elem_of_filter, IH.
  destruct (decide (x = y)); naive_solver.
Qed.

Lemma first_occurrences_NoDup (l : list string) : NoDup (first_occurrences l).
Proof.
  induction l as [|y l IH]; simpl; [constructor|].
  constructor; [|by apply NoDup_filter].
  rewrite list_elem_of_filter. naive_solver.
Qed.

Lemma first_occurrences_snoc (l : list string) x :
  first_occurrences (l ++ [x]) =
    if decide (x ∈ l) then first_occurrences l else first_occurrences l ++ [x].
Proof.
  induction l as [|y l IH]; cbn [first_occurrences app].
  - rewrite decide_False by (by intros ?%elem_of_nil). done.
  - rewrite IH. destruct (decide (x = y)) as [->|Hne].
    + rewrite (decide_True (P := y ∈ y :: l)) by left.
      destruct (decide (y ∈ l)); [done|].
      rewrite filter_app, filter_cons_False by naive_solver.
      by rewrite filter_nil, app_nil_r.
    + destruct (decide (x ∈ l)) as [Hin|Hin].
      * rewrite decide_True; [done|]. by right.
      * rewrite decide_False by (intros [?|?]%elem_of_cons; done).
        rewrite filter_app, filter_cons_True by done. by rewrite filter_nil.
Qed.

(** Appending to the group of [k] in a dict whose keys are distinct. *)
Lemma defaultdict_append_groups (ks : list string) (f : string → list NewsItem) k x :
  NoDup ks → (k ∉ ks → f k = []) →
  defaultdict_append ((λ k', (k', f k')) <$> ks) k x =
    (λ k', (k', f k' ++ if decide (k' = k) then [x] else [])) <$>
      (if decide (k ∈ ks) then ks else ks ++ [k]).
Proof.
  intros Hnd Hfresh. induction ks as [|k0 ks IH].
  - rewrite decide_False by (by intros ?%elem_of_nil). cbn.
    rewrite decide_True by done. rewrite Hfresh; [done|]. by intros ?%elem_of_nil.
  - apply NoDup_cons in Hnd as [Hk0 Hnd]. cbn [fmap list_fmap defaultdict_append].
    destruct (String.eqb_spec k0 k) as [->|Hne].
    + rewrite (decide_True (P := k ∈ k :: ks)) by left. cbn [fmap list_fmap].
      rewrite decide_True by done.
      f_equal. apply list_fmap_ext. intros i k' Hk'.
      rewrite decide_False; [by rewrite app_nil_r|].
      intros ->. apply Hk0. by eapply list_elem_of_lookup_2.
    + rewrite IH; [|done|].
      * destruct (decide (k ∈ ks)) as [Hin|Hin].
        -- rewrite (decide_True (P := k ∈ k0 :: ks)) by (by right). cbn [fmap list_fmap].
           rewrite (decide_False (P := k0 = k)) by done. by rewrite app_nil_r.
        -- rewrite (decide_False (P := k ∈ k0 :: ks)) by (intros [?|?]%elem_of_cons; done).
           cbn [fmap list_fmap app].
           rewrite (decide_False (P := k0 = k)) by done. by rewrite app_nil_r.
      * intros Hin. apply Hfresh. intros [?|?]%elem_of_cons; done.
Qed.

Lemma items_of_tool_snoc (p : list NewsItem) (x : NewsItem) k :
  items_of_tool (p ++ [x]) k =
    items_of_tool p k ++ if decide (k = tool_name x) then [x] else [].
Proof.
  unfold items_of_tool. rewrite filter_app. f_equal.
  case_decide as Hk.
  - by rewrite filter_cons_True.
  - rewrite filter_cons_False; [done|]. intros Heq. by apply Hk.
Qed.

Lemma items_of_tool_absent (p : list NewsItem) k :
  k ∉ tool_name <$> p → items_of_tool p k = [].
Proof.
  unfold items_of_tool. induction p as [|y p IH]; [done|].
  rewrite fmap_cons, not_elem_of_cons. intros [Hy Hp].
  rewrite filter_cons_False by (intros Heq; by apply Hy). by apply IH.
Qed.

Lemma defaultdict_append_stable (p : list NewsItem) (x : NewsItem) :
  defaultdict_append (stable_groups p) (tool_name x) x = stable_groups (p ++ [x]).
Proof.
  unfold stable_groups.
  rewrite defaultdict_append_groups.
  - rewrite fmap_app. cbn [fmap list_fmap]. rewrite first_occurrences_snoc.
    assert (∀ ks : list string,
              (λ k', (k', items_of_tool p k' ++
                            if decide (k' = tool_name x) then [x] else [])) <$> ks =
              (λ k, (k, items_of_tool (p ++ [x]) k)) <$> ks) as Hext.
    { intros ks. apply list_fmap_ext. intros _ k _. f_equal.
      by rewrite items_of_tool_snoc. }
    rewrite Hext.
    destruct (decide (tool_name x ∈ tool_name <$> p)) as [Hin|Hin].
    + by rewrite decide_True by (by apply first_occurrences_elem).
    + by rewrite decide_False by (by rewrite first_occurrences_elem).
  - apply first_occurrences_NoDup.
  - rewrite first_occurrences_elem. apply items_of_tool_absent.
Qed.

Lemma group_by_tool_stable_groups (p items : list NewsItem) :
  group_by_tool items (stable_groups p) = stable_groups (p ++ items).
Proof.
  revert p. induction items as [|x items IH]; intros p; simpl.
  - by rewrite app_nil_r.
  - rewrite defaultdict_append_stable, IH. by rewrite <- app_assoc.
Qed.

Lemma sublist_lookup_order {A} (l1 l2 : list A) i j x y :
  sublist l1 l2 → i < j → l1 !! i = Some x → l1 !! j = Some y →
  ∃ i' j', i' < j' ∧ l2 !! i' = Some x ∧ l2 !! j' = Some y.
Proof.
  intros Hsub. revert i j. induction Hsub as [|z l1 l2 Hsub IH|z l1 l2 Hsub IH];
    intros i j Hij Hi Hj.
  - done.
  - destruct j as [|j]; [lia|]. destruct i as [|i]; simpl in *.
    + simplify_eq. apply list_elem_of_lookup_2 in Hj.
      apply (elem_of_sublist _ _ _ Hj), list_elem_of_lookup_1 in Hsub as [j' ?].
      exists 0, (S j'). split_and!; [lia|done|done].
    + destruct (IH i j) as (i' & j' & ? & ? & ?); [lia|done|done|].
      exists (S i'), (S j'). split_and!; [lia|done|done].
  - destruct (IH i j) as (i' & j' & ? & ? & ?); [done|done|done|].
    exists (S i'), (S j'). split_and!; [lia|done|done].
Qed.

(** In [first_occurrences l], an element that comes earlier has its first
    occurrence in [l] before every occurrence of one that comes later. *)
Lemma first_occurrences_order (l : list string) i j k1 k2 :
  i < j →
  first_occurrences l !! i = Some k1 → first_occurrences l !! j = Some k2 →
  ∃ a, l !! a = Some k1 ∧ ∀ b, l !! b = Some k2 → a < b.
Proof.
  revert i j. induction l as [|x l IH]; intros i j Hij Hi Hj; [done|].
  cbn [first_occurrences] in *.
  destruct j as [|j]; [lia|]. simpl in Hj.
  assert (k2 ≠ x) as Hk2.
  { apply list_elem_of_lookup_2, list_elem_of_filter in Hj. tauto. }
  destruct i as [|i]; simpl in Hi.
  - simplify_eq. exists 0. split; [done|].
    intros [|b] Hb; [|lia]. simpl in Hb. by simplify_eq.
  - destruct (sublist_lookup_order _ (first_occurrences l) i j k1 k2
                (sublist_filter (λ y, y ≠ x) (first_occurrences l)))
      as (i' & j' & Hij' & Hi' & Hj'); [lia|done|done|].
    destruct (IH i' j' Hij' Hi' Hj') as (a & Ha & Hfirst).
    exists (S a). split; [done|].
    intros [|b] Hb; simpl in Hb; [by simplify_eq|].
    apply Hfirst in Hb. lia.
Qed.

(** C9: the groups handed to the template are one group per tool name; a
    group holds the items of its tool in their original relative order, and
    the groups come in the order in which their tool names first occur in
    the item list. *)
Theorem group_by_tool_stable (report : DailyReport) :
  let items := news_items report in
  let groups := ri_news_by_tool (render_input report) in
  groups = stable_groups items ∧
  NoDup groups.*1 ∧
  (∀ k, k ∈ groups.*1 ↔ k ∈ tool_name <$> items) ∧
  (∀ k g, (k, g) ∈ groups →
     g = filter (λ x, tool_name x = k) items ∧ sublist g items) ∧
  (∀ i j k1 k2, i < j → groups.*1 !! i = Some k1 → groups.*1 !! j = Some k2 →
     ∃ a, (tool_name <$> items) !! a = Some k1 ∧
          ∀ b, (tool_name <$> items) !! b = Some k2 → a < b).
Proof.
  intros items groups.
  assert (groups = stable_groups items) as Hgroups.
  { unfold groups, render_input. simpl.
    apply (group_by_tool_stable_groups [] items). }
  assert (groups.*1 = first_occurrences (tool_name <$> items)) as Hkeys.
  { rewrite Hgroups. unfold stable_groups.
    rewrite <- list_fmap_compose. apply list_fmap_id. }
  split_and!.
  - done.
  - rewrite Hkeys. apply first_occurrences_NoDup.
  - intros k. rewrite Hkeys. apply first_occurrences_elem.
  - intros k g. rewrite Hgroups. unfold stable_groups.
    intros (k' & [= -> ->] & _)%list_elem_of_fmap.
    split; [done|]. apply sublist_filter.
  - intros i j k1 k2. rewrite Hkeys. apply first_occurrences_order.
Qed.

(** ** Dates as file names *)

Lemma nat_of_ascii_digit (n : Z) : Z.of_nat (nat_of_ascii (digit n)) = (48 + n mod 10)%Z.
Proof.
  unfold digit. pose proof (Z.mod_pos_bound n 10 ltac:(lia)).
  rewrite nat_ascii_embedding by lia. lia.
Qed.

Lemma ascii_compare_nat (a b : ascii) :
  Ascii.compare a b = (Z.of_nat (nat_of_ascii a) ?= Z.of_nat (nat_of_ascii b))%Z.
Proof.
  unfold Ascii.compare, nat_of_ascii.
  by rewrite N2Nat.inj_compare, Nat2Z.inj_compare.
Qed.

Lemma ascii_compare_digit (a b : Z) :
  Ascii.compare (digit a) (digit b) = (a mod 10 ?= b mod 10)%Z.
Proof.
  rewrite ascii_compare_nat, !nat_of_ascii_digit.
  destruct (Z.compare_spec (a mod 10) (b mod 10)).
  - apply Z.compare_eq_iff. lia.
  - apply Z.compare_lt_iff. lia.
  - apply Z.compare_gt_iff. lia.
Qed.

Lemma ascii_compare_refl (c : ascii) : Ascii.compare c c = Eq.
Proof. rewrite ascii_compare_nat. apply Z.compare_refl. Qed.

Lemma string_compare_refl (s : string) : String.compare s s = Eq.
Proof. induction s as [|c s IH]; simpl; [done|]. by rewrite ascii_compare_refl. Qed.

Ltac compare_cases :=
  repeat match goal with
         | |- context [(?x ?= ?y)%Z] => destruct (Z.compare_spec x y)
         end;
  try done; try lia.

(** Two-digit fields compare as their numbers. *)
Lemma compare_pad2 (a b : Z) (s t : string) :
  (0 ≤ a < 100)%Z → (0 ≤ b < 100)%Z →
  String.compare (pad2 a +:+ s) (pad2 b +:+ t) =
    match (a ?= b)%Z with
    | Eq => String.compare s t
    | c => c
    end.
Proof.
  intros Ha Hb. unfold pad2. simpl. rewrite !ascii_compare_digit.
  pose proof (Z.div_mod a 10 ltac:(lia)). pose proof (Z.div_mod b 10 ltac:(lia)).
  pose proof (Z.mod_pos_bound a 10 ltac:(lia)).
  pose proof (Z.mod_pos_bound b 10 ltac:(lia)).
  rewrite (Z.mod_small (a / 10) 10), (Z.mod_small (b / 10) 10) by lia.
  compare_cases.
Qed.

Lemma compare_pad4 (a b : Z) (s t : string) :
  (0 ≤ a < 10000)%Z → (0 ≤ b < 10000)%Z →
  String.compare (pad4 a +:+ s) (pad4 b +:+ t) =
    match (a ?= b)%Z with
    | Eq => String.compare s t
    | c => c
    end.
Proof.
  intros Ha Hb.
  change (pad4 a +:+ s) with (pad2 (a / 100) +:+ (pad2 (a mod 100) +:+ s)).
  change (pad4 b +:+ t) with (pad2 (b / 100) +:+ (pad2 (b mod 100) +:+ t)).
  pose proof (Z.div_mod a 100 ltac:(lia)). pose proof (Z.div_mod b 100 ltac:(lia)).
  pose proof (Z.mod_pos_bound a 100 ltac:(lia)).
  pose proof (Z.mod_pos_bound b 100 ltac:(lia)).
  rewrite !compare_pad2 by lia.
  compare_cases.
Qed.

(** The names of report files are ordered as their dates. *)
Lemma compare_report_file (a b : datetime) :
  four_digit_date a → four_digit_date b →
  String.compare (report_file a) (report_file b) =
    (date_ordinal a ?= date_ordinal b)%Z.
Proof.
  intros (Hya & Hma & Hda) (Hyb & Hmb & Hdb). unfold report_file, strftime_Ymd.
  change (String.compare
            (pad4 (dt_year a) +:+ String "-" (pad2 (dt_month a) +:+
               String "-" (pad2 (dt_day a) +:+ "_ja.html")))
            (pad4 (dt_year b) +:+ String "-" (pad2 (dt_month b) +:+
               String "-" (pad2 (dt_day b) +:+ "_ja.html"))) =
          (date_ordinal a ?= date_ordinal b)%Z).
  rewrite compare_pad4 by lia. cbn [String.compare]. rewrite ascii_compare_refl.
  rewrite compare_pad2 by lia. cbn [String.compare]. rewrite ascii_compare_refl.
  rewrite compare_pad2 by lia. rewrite string_compare_refl.
  unfold date_ordinal. compare_cases.
Qed.

Lemma digit_not_underscore (n : Z) : digit n ≠ "_"%char.
Proof.
  intros Heq. pose proof (nat_of_ascii_digit n) as Hn. rewrite Heq in Hn.
  change (Z.of_nat (nat_of_ascii "_")) with 95%Z in Hn.
  pose proof (Z.mod_pos_bound n 10 ltac:(lia)). lia.
Qed.

Lemma remove_all_skip (c : ascii) (s : string) :
  c ≠ "_"%char → remove_all "_ja" (String c s) 0 = String c (remove_all "_ja" s 0).
Proof.
  intros Hc. cbn [remove_all String.prefix].
  destruct (ascii_dec "_" c) as [Heq|_]; [by destruct Hc|done].
Qed.

(** The date component that [_update_index] derives from the name of a
    report file is the date the file was written for. *)
Lemma index_entry_report_file (d : datetime) :
  index_entry (report_file d) = entry_of_date d.
Proof.
  unfold index_entry, entry_of_date.
  assert (stem (report_file d) = strftime_Ymd d +:+ "_ja") as -> by reflexivity.
  assert (remove_all "_ja" (strftime_Ymd d +:+ "_ja") 0 = strftime_Ymd d) as ->; [|done].
  unfold strftime_Ymd, pad4, pad2. cbv [String.append].
  repeat (rewrite remove_all_skip by (apply digit_not_underscore || discriminate)).
  reflexivity.
Qed.

(** ** Sorting the report files *)

Lemma insert_desc_Permutation (x : string) (l : list string) :
  insert_desc x l ≡ₚ x :: l.
Proof.
  induction l as [|y l IH]; simpl; [done|].
  destruct (String.ltb y x); [done|].
  rewrite IH. apply Permutation_swap.
Qed.

Lemma sorted_reverse_Permutation (l : list string) : sorted_reverse l ≡ₚ l.
Proof.
  induction l as [|x l IH]; simpl; [done|].
  by rewrite insert_desc_Permutation, IH.
Qed.

Lemma ltb_asym (a b : string) : String.ltb a b = true → String.ltb b a = false.
Proof.
  unfold String.ltb. rewrite (String.compare_antisym a b).
  by destruct (String.compare b a).
Qed.

Lemma insert_desc_HdRel (x y : string) (l : list string) :
  String.ltb y x = false →
  HdRel (λ a b, String.ltb a b = false) y l →
  HdRel (λ a b, String.ltb a b = false) y (insert_desc x l).
Proof.
  intros Hyx Hhd. destruct l as [|z l]; simpl; [by constructor|].
  destruct (String.ltb z x); constructor; [done|]. by inv Hhd.
Qed.

Lemma insert_desc_Sorted (x : string) (l : list string) :
  Sorted (λ a b, String.ltb a b = false) l →
  Sorted (λ a b, String.ltb a b = false) (insert_desc x l).
Proof.
  induction 1 as [|y l Hsorted IH Hhd]; simpl.
  - by repeat constructor.
  - destruct (String.ltb y x) eqn:Hyx.
    + constructor; [by constructor|]. constructor. by apply ltb_asym.
    + constructor; [done|]. by apply insert_desc_HdRel.
Qed.

(** [sorted(..., reverse=True)] puts no name before a greater one. *)
Lemma sorted_reverse_Sorted (l : list string) :
  Sorted (λ a b, String.ltb a b = false) (sorted_reverse l).
Proof.
  induction l as [|x l IH]; simpl; [constructor|]. by apply insert_desc_Sorted.
Qed.

Lemma report_file_not_below (a b : datetime) :
  four_digit_date a → four_digit_date b →
  String.ltb (report_file a) (report_file b) = false →
  (date_ordinal b ≤ date_ordinal a)%Z.
Proof.
  intros Ha Hb. unfold String.ltb. rewrite compare_report_file by done.
  destruct (Z.compare_spec (date_ordinal a) (date_ordinal b)); [lia|done|lia].
Qed.

Lemma report_files_sorted (ds : list datetime) :
  Forall four_digit_date ds →
  Sorted (λ a b, String.ltb a b = false) (report_file <$> ds) →
  StronglySorted (λ a b, (date_ordinal b ≤ date_ordinal a)%Z) ds.
Proof.
  intros Hds Hsorted. apply Sorted.Sorted_StronglySorted.
  { intros a b c ??. lia. }
  induction ds as [|a ds IH]; [constructor|].
  apply Forall_cons in Hds as [Ha Hds]. rewrite fmap_cons in Hsorted.
  apply Sorted_inv in Hsorted as [Hsorted Hhd].
  constructor; [by apply IH|].
  destruct ds as [|b ds]; [constructor|]. constructor.
  apply Forall_cons in Hds as [Hb _]. rewrite fmap_cons in Hhd.
  apply HdRel_inv in Hhd. by apply report_file_not_below.
Qed.

Lemma date_before_ordinal (a b : datetime) :
  four_digit_date a → four_digit_date b →
  (date_ordinal a < date_ordinal b)%Z → date_before a b.
Proof. unfold four_digit_date, date_ordinal, date_before. lia. Qed.

Lemma date_key_ordinal (a b : datetime) :
  four_digit_date a → four_digit_date b →
  date_ordinal a = date_ordinal b → date_key a = date_key b.
Proof.
  unfold four_digit_date, date_ordinal, date_key. intros ?? Hord.
  f_equal; [f_equal|]; lia.
Qed.

Lemma distinct_dates_descend (ds : list datetime) :
  Forall four_digit_date ds →
  NoDup (date_key <$> ds) →
  StronglySorted (λ a b, (date_ordinal b ≤ date_ordinal a)%Z) ds →
  StronglySorted (λ a b, date_before b a) ds.
Proof.
  intros Hds Hnd Hsorted.
  induction Hsorted as [|a ds Hsorted IH Hall]; [constructor|].
  apply Forall_cons in Hds as [Ha Hds].
  rewrite fmap_cons in Hnd. apply NoDup_cons in Hnd as [Hnotin Hnd].
  constructor; [by apply IH|].
  apply Forall_forall. intros b Hb.
  pose proof (proj1 (Forall_forall _ _) Hall b Hb) as Hle. cbv beta in Hle.
  pose proof (proj1 (Forall_forall _ _) Hds b Hb) as Hfb.
  apply date_before_ordinal; [done|done|].
  assert (date_ordinal a ≠ date_ordinal b); [|lia].
  intros Heq. apply Hnotin. rewrite (date_key_ordinal a b) by done.
  apply list_elem_of_fmap. by exists b.
Qed.

Lemma fmap_Permutation_inv {A B} (f : A → B) (l1 : list B) (l2 : list A) :
  l1 ≡ₚ f <$> l2 → ∃ l3, l1 = f <$> l3 ∧ l2 ≡ₚ l3.
Proof. apply Permutation_map_inv. Qed.

(** ** The index page *)

Section IndexProperties.
Variables index_head index_tail : string.

(** C10: when the Japanese-language report files of the output directory
    are those of a list of distinct dates, the index lists the most recent
    dates, at most 30 of them and exactly 30 when there are 30 or more, in
    descending order of date; every entry carries the date and the links to
    the Japanese and the English report of that date. The page is its fixed
    head, one list item per listed date, in that order, and its fixed tail;
    the item of a date is the same markup for every date, with the date as
    the text of a span and the paths of the Japanese and of the English
    report of that date as the [href] of two links. *)
Theorem update_index_most_recent_30 (dates : list datetime) (names : list string) :
  Forall four_digit_date dates →
  NoDup (date_key <$> dates) →
  glob_ja_html names ≡ₚ report_file <$> dates →
  ∃ listed dropped,
    dates ≡ₚ listed ++ dropped ∧
    length listed = 30 `min` length dates ∧
    (30 ≤ length dates → length listed = 30) ∧
    StronglySorted (λ a b, date_before b a) listed ∧
    (∀ a b, a ∈ listed → b ∈ dropped → date_before b a) ∧
    index_reports names = entry_of_date <$> listed ∧
    ∃ before_date before_ja before_en after_en,
      endswith before_date (">") = true ∧
      String.prefix "</span>" before_ja = true ∧
      endswith before_ja ("<a href=" +:+ dq) = true ∧
      String.prefix dq before_en = true ∧
      endswith before_en ("<a href=" +:+ dq) = true ∧
      String.prefix dq after_en = true ∧
      endswith after_en "</li>" = true ∧
      _update_index index_head index_tail names =
        index_head
          +:+ String.concat EmptyString
                ((λ d,
                    before_date +:+ strftime_Ymd d +:+
                    before_ja +:+ ("reports/" +:+ strftime_Ymd d +:+ "_ja.html") +:+
                    before_en +:+ ("reports/" +:+ strftime_Ymd d +:+ "_en.html") +:+
                    after_en) <$> listed)
          +:+ index_tail.
Proof.
  intros Hdates Hnd Hfiles.
  destruct (fmap_Permutation_inv report_file (sorted_reverse (glob_ja_html names)) dates)
    as (ds & Hsorted & Hperm).
  { by rewrite sorted_reverse_Permutation. }
  assert (Forall four_digit_date ds) as Hds by (by rewrite <- Hperm).
  assert (StronglySorted (λ a b, date_before b a) ds) as Hdesc.
  { apply distinct_dates_descend; [done|by rewrite <- Hperm|].
    apply report_files_sorted; [done|]. rewrite <- Hsorted.
    apply sorted_reverse_Sorted. }
  rewrite <- (take_drop 30 ds) in Hdesc.
  apply StronglySorted_app in Hdesc as (Hcross & Hlisted & _).
  assert (index_reports names = entry_of_date <$> take 30 ds) as Hreports.
  { unfold index_reports. rewrite py_slice_to_nonneg by lia.
    rewrite Hsorted, <- list_fmap_compose, <- fmap_take.
    apply list_fmap_ext. intros _ d _. apply index_entry_report_file. }
  exists (take 30 ds), (drop 30 ds). split_and!.
  - by rewrite take_drop.
  - rewrite length_take, (Permutation_length Hperm). lia.
  - rewrite length_take, (Permutation_length Hperm). lia.
  - done.
  - done.
  - done.
  - exists ("
            <li class=" +:+ dq +:+ "report-item" +:+ dq +:+ ">
                <span class=" +:+ dq +:+ "report-date" +:+ dq +:+ ">"), ("</span>
                <span class=" +:+ dq +:+ "report-links" +:+ dq +:+ ">
                    <a href=" +:+ dq), (dq +:+ ">日本語</a>
                    <a href=" +:+ dq), (dq +:+ ">English</a>
                </span>
            </li>").
    split_and!; try (vm_compute; reflexivity).
    unfold _update_index, _generate_index_html. rewrite Hreports.
    f_equal. f_equal. f_equal. rewrite <- list_fmap_compose.
    apply list_fmap_ext. intros _ d _. vm_compute. reflexivity.
Qed.

End IndexProperties.

(** C10 on a directory with the reports of 45 days: the index lists the 30
    days from 2024-02-14 back to 2024-01-16. *)
Lemma update_index_most_recent_30_witness :
  (Forall four_digit_date scenario_dates ∧
   NoDup (date_key <$> scenario_dates) ∧
   glob_ja_html scenario_names ≡ₚ report_file <$> scenario_dates) ∧
  length (index_reports scenario_names) = 30 ∧
  head (index_reports scenario_names) = Some (entry_of_date (midnight 2024 2 14)) ∧
  last (index_reports scenario_names) = Some (entry_of_date (midnight 2024 1 16)).
Proof.
  assert (Forall four_digit_date scenario_dates) as Hdates.
  { apply (bool_decide_unpack _). vm_compute. exact I. }
  assert (NoDup (date_key <$> scenario_dates)) as Hnd.
  { apply (bool_decide_unpack _). vm_compute. exact I. }
  assert (glob_ja_html scenario_names ≡ₚ report_file <$> scenario_dates) as Hfiles.
  { assert (glob_ja_html scenario_names = report_file <$> scenario_dates) as ->.
    { vm_compute. reflexivity. }
    reflexivity. }
  split; [by split_and!|].
  destruct (update_index_most_recent_30 EmptyString EmptyString
              scenario_dates scenario_names Hdates Hnd Hfiles)
    as (listed & dropped & _ & _ & Hlen & _ & _ & Hreports & _).
  split_and!.
  - rewrite Hreports, length_fmap. apply Hlen. vm_compute. lia.
  - vm_compute. reflexivity.
  - vm_compute. reflexivity.
Defined.

(** C9 on a report whose items alternate between two tools. *)
Lemma group_by_tool_stable_witness :
  ri_news_by_tool (render_input scenario_report) =
    [("tool-a", [item_a1; item_a2]); ("tool-b", [item_b1])].
Proof.
  rewrite (proj1 (group_by_tool_stable scenario_report)). vm_compute. reflexivity.
Defined.

(** * Further properties *)

(** ** Collector: what the dedup keeps and how much a run returns *)

Lemma first_by_key_covers (l : list NewsItem) (seen : gset pykey) (x : NewsItem) :
  x ∈ l → url_key x ∈ seen ∨ url_key x ∈ url_key <$> first_by_key l seen [].
Proof.
  revert seen. induction l as [|y l IH]; intros seen Hx.
  - by apply elem_of_nil in Hx.
  - rewrite first_by_key_cons. apply elem_of_cons in Hx as [->|Hx].
    + destruct (decide (url_key y ∉ seen)) as [Hy|Hy].
      * right. rewrite fmap_cons. left.
      * left. by apply dec_stable.
    + destruct (decide (url_key y ∉ seen)) as [Hy|Hy].
      * destruct (IH ({[url_key y]} ∪ seen) Hx) as [Hin|Hin].
        -- apply elem_of_union in Hin as [->%elem_of_singleton|Hin]; [|by left].
           right. rewrite fmap_cons. left.
        -- right. rewrite fmap_cons. by right.
      * by apply IH.
Qed.

Lemma first_by_key_length (l : list NewsItem) :
  length (first_by_key l ∅ []) ≤ size (list_to_set (url_key <$> l) : gset pykey).
Proof.
  rewrite <- (length_fmap url_key).
  rewrite <- (size_list_to_set (C := gset pykey)) by apply first_by_key_NoDup.
  apply subseteq_size. intros u Hu%elem_of_list_to_set.
  apply elem_of_list_to_set.
  eapply elem_of_sublist; [done|]. apply fmap_sublist, first_by_key_sublist.
Qed.

Section CollectorFurther.
Context {World : Type}.
Variable _search_and_parse :
  World → string → string → string → Z → World * (exn + list NewsItem).
Variable date_filter_of : World → Z → exn + string.

(** X1: when the date filter is computed, every parsed url can be hashed
    and the parsed items of a tool hold no more distinct urls than
    [max_results], nothing is cut: [search_tool_news] returns, and the urls
    of the returned items are exactly the urls of the parsed items. *)
Theorem search_tool_news_keeps_every_url w cfg days_back max_results date_filter :
  let parsed :=
    concat (parsed_per_query _search_and_parse w (search_queries cfg) (name cfg)
              date_filter max_results) in
  (0 ≤ max_results)%Z →
  date_filter_of w days_back = inr date_filter →
  Forall (λ x, hashable (url x) = true) parsed →
  size (list_to_set (url_key <$> parsed) : gset pykey) ≤ Z.to_nat max_results →
  ∃ out,
    (search_tool_news _search_and_parse date_filter_of w cfg days_back
       max_results).2 = inr out ∧
    ∀ u, u ∈ url_element <$> out ↔ u ∈ url_element <$> parsed.
Proof.
  intros parsed Hmax Hd Hl Hsize.
  exists (first_by_key parsed ∅ []).
  split.
  { rewrite (search_tool_news_unfold _ _ _ _ _ _ date_filter Hd). fold parsed.
    rewrite (dedup_loop_hashable _ _ _ Hl). cbn [snd]. f_equal.
    rewrite py_slice_to_nonneg by done.
    apply take_ge. pose proof (first_by_key_length parsed). lia. }
  intros u. split.
  - intros Hu. eapply elem_of_sublist; [done|].
    apply fmap_sublist, first_by_key_sublist.
  - intros (x & -> & Hx)%list_elem_of_fmap.
    destruct (first_by_key_covers parsed ∅ x Hx) as [Hin|Hin];
      [by apply not_elem_of_empty in Hin|].
    apply list_elem_of_fmap in Hin as (y & Hkey & Hy).
    apply list_elem_of_fmap. exists y. split; [|done].
    assert (hashable (url y) = true) as Hhy.
    { apply (proj1 (Forall_forall _ _) Hl).
      eapply elem_of_sublist; [done|apply first_by_key_sublist]. }
    rewrite (url_element_key x), (url_element_key y Hhy), Hkey; [done|].
    by apply (proj1 (Forall_forall _ _) Hl).
Qed.

Lemma search_tool_news_length w cfg days_back max_results w' out :
  search_tool_news _search_and_parse date_filter_of w cfg days_back max_results =
    (w', inr out) →
  (0 ≤ max_results)%Z → length out ≤ Z.to_nat max_results.
Proof.
  intros Hrun Hmax. destruct (date_filter_of w days_back) as [e|date_filter] eqn:Hd.
  { by rewrite (search_tool_news_overflow _ _ _ _ _ _ e) in Hrun. }
  rewrite (search_tool_news_unfold _ _ _ _ _ _ date_filter Hd) in Hrun.
  destruct (dedup_loop _ _ _) as [e|unique_items]; [done|].
  injection Hrun as _ <-. rewrite py_slice_to_nonneg by done.
  rewrite length_take. lia.
Qed.

Lemma news_per_tool_lengths w cfgs days_back max_results per_tool :
  news_per_tool _search_and_parse date_filter_of w cfgs days_back max_results =
    inr per_tool →
  (0 ≤ max_results)%Z →
  sum_list (length <$> per_tool) ≤ length cfgs * Z.to_nat max_results.
Proof.
  intros Hper Hmax. revert w per_tool Hper.
  induction cfgs as [|cfg cfgs IH]; intros w per_tool; simpl.
  - by intros [= <-].
  - pose proof (search_tool_news_length w cfg days_back max_results) as Hlen.
    destruct (search_tool_news _ _ w cfg days_back max_results) as [w' [e|news]];
      [done|].
    specialize (IH w').
    destruct (news_per_tool _ _ w' cfgs _ _) as [e|rest]; [done|].
    intros [= <-]. specialize (IH rest eq_refl). specialize (Hlen w' news eq_refl Hmax).
    change (length news + sum_list (length <$> rest) ≤
            Z.to_nat max_results + length cfgs * Z.to_nat max_results).
    lia.
Qed.

(** X2: [collect_all_news] puts no cap on the run as a whole: when the
    search of every tool returns, it returns as many items as the tools
    contribute together, which for a non-negative cap is at most the cap
    times the number of tools. *)
Theorem collect_all_news_length w cfgs days_back max_results per_tool :
  news_per_tool _search_and_parse date_filter_of w cfgs days_back max_results =
    inr per_tool →
  ∃ out,
    (collect_all_news _search_and_parse date_filter_of w cfgs days_back
       max_results).2 = inr out ∧
    length out = sum_list (length <$> per_tool) ∧
    ((0 ≤ max_results)%Z → length out ≤ length cfgs * Z.to_nat max_results).
Proof.
  intros Hper. exists (concat per_tool).
  assert (length (concat per_tool) = sum_list (length <$> per_tool)) as Hsum.
  { clear Hper. induction per_tool as [|news rest IH]; simpl; [done|].
    rewrite length_app. by rewrite IH. }
  split_and!.
  - unfold collect_all_news. rewrite collect_loop_per_tool. by rewrite Hper.
  - done.
  - intros Hmax. rewrite Hsum. by eapply news_per_tool_lengths.
Qed.

(** The parser stamps every item with the tool it was asked for. *)
Hypothesis stamps_tool_name :
  ∀ w query tool date_filter max_results w' items,
    _search_and_parse w query tool date_filter max_results = (w', inr items) →
    Forall (λ x, tool_name x = tool) items.

Lemma parsed_per_query_stamped w queries tool date_filter max_results :
  Forall (λ x, tool_name x = tool)
    (concat (parsed_per_query _search_and_parse w queries tool date_filter max_results)).
Proof.
  revert w. induction queries as [|q queries IH]; intros w; simpl; [constructor|].
  destruct (_search_and_parse w q tool date_filter max_results) as [w' [e|items]] eqn:Hsp;
    simpl; [apply IH|].
  apply Forall_app. split; [by eapply stamps_tool_name|apply IH].
Qed.

Lemma search_tool_news_stamped w cfg days_back max_results w' out :
  search_tool_news _search_and_parse date_filter_of w cfg days_back max_results =
    (w', inr out) →
  Forall (λ x, tool_name x = name cfg) out.
Proof.
  intros Hrun. destruct (date_filter_of w days_back) as [e|date_filter] eqn:Hd.
  { by rewrite (search_tool_news_overflow _ _ _ _ _ _ e) in Hrun. }
  rewrite (search_tool_news_unfold _ _ _ _ _ _ date_filter Hd) in Hrun.
  destruct (dedup_loop _ _ _) as [e|unique_items] eqn:Hdedup; [done|].
  injection Hrun as _ <-. apply dedup_loop_inr in Hdedup as [_ ->].
  apply Forall_forall. intros x Hx.
  apply (proj1 (Forall_forall _ _)
           (parsed_per_query_stamped w (search_queries cfg) (name cfg)
              date_filter max_results)).
  eapply elem_of_sublist; [done|].
  etrans; [apply py_slice_to_sublist|apply first_by_key_sublist].
Qed.

Lemma news_per_tool_unique w cfgs days_back max_results per_tool :
  NoDup (name <$> cfgs) →
  news_per_tool _search_and_parse date_filter_of w cfgs days_back max_results =
    inr per_tool →
  Forall (λ x, tool_name x ∈ name <$> cfgs) (concat per_tool) ∧
  NoDup ((λ x, (tool_name x, url_element x)) <$> concat per_tool).
Proof.
  revert w per_tool. induction cfgs as [|cfg cfgs IH]; intros w per_tool Hnames; simpl.
  { intros [= <-]. split; constructor. }
  pose proof (search_tool_news_stamped w cfg days_back max_results) as Hstamp.
  pose proof (search_tool_news_NoDup _search_and_parse date_filter_of
                w cfg days_back max_results) as Hurls.
  destruct (search_tool_news _ _ w cfg days_back max_results) as [w' [e|news]];
    [done|].
  apply NoDup_cons in Hnames as [Hfresh Hnames].
  specialize (IH w').
  destruct (news_per_tool _ _ w' cfgs _ _) as [e|rest]; [done|].
  intros [= <-]. destruct (IH rest Hnames eq_refl) as [IHin IHnd].
  specialize (Hstamp w' news eq_refl). destruct (Hurls w' news eq_refl) as [Hh Hnd].
  simpl. split.
  - apply Forall_app. split.
    + eapply Forall_impl; [exact Hstamp|]. intros x ->. left.
    + eapply Forall_impl; [exact IHin|]. intros x ?. by right.
  - rewrite fmap_app. apply NoDup_app. split_and!; [|intros p Hp Hp'|done].
    + apply (NoDup_fmap_1 snd). rewrite <- list_fmap_compose.
      by apply url_element_NoDup.
    + apply list_elem_of_fmap in Hp as (x & -> & Hx).
      apply list_elem_of_fmap in Hp' as (y & [= Htool _] & Hy).
      apply Hfresh.
      rewrite <- (proj1 (Forall_forall _ _) Hstamp x Hx), Htool.
      by apply (proj1 (Forall_forall _ _) IHin y).
Qed.

(** X3: when the tools have pairwise-distinct names, no two items that a
    run returns agree on both tool name and url: a url occurs at most once
    per tool. *)
Theorem collect_all_news_unique_per_tool_and_url w cfgs days_back max_results out :
  NoDup (name <$> cfgs) →
  (collect_all_news _search_and_parse date_filter_of w cfgs days_back
     max_results).2 = inr out →
  NoDup ((λ x, (tool_name x, url_element x)) <$> out) ∧
  NoDup ((λ x, (tool_name x, url x)) <$> out).
Proof.
  intros Hnames. unfold collect_all_news. rewrite collect_loop_per_tool.
  destruct (news_per_tool _ _ w cfgs _ _) as [e|per_tool] eqn:Hper; [done|].
  intros [= <-]. simpl.
  destruct (news_per_tool_unique w cfgs days_back max_results per_tool Hnames Hper)
    as [_ Hnd].
  split; [done|].
  apply (NoDup_fmap_1 (λ p, (p.1, hash_key p.2))).
  by rewrite <- list_fmap_compose.
Qed.

End CollectorFurther.

(** X1 on the run of two queries that share a url. *)
Lemma search_tool_news_keeps_every_url_witness :
  ∃ out,
    (search_tool_news scripted_search fixed_date_filter
       [inr [item_a1; item_a2]; inr [item_a1'; item_a3]] tool_a 1 10).2 = inr out ∧
    ∀ u, u ∈ url_element <$> out ↔
         u ∈ url_element <$> [item_a1; item_a2; item_a1'; item_a3].
Proof.
  apply (search_tool_news_keeps_every_url scripted_search fixed_date_filter
           [inr [item_a1; item_a2]; inr [item_a1'; item_a3]] tool_a 1 10 "2024-05-01").
  - lia.
  - reflexivity.
  - apply (bool_decide_unpack _). vm_compute. exact I.
  - vm_compute. lia.
Defined.

(** X2 on two tools and a cap of 10. *)
Lemma collect_all_news_length_witness :
  ∃ out,
    (collect_all_news scripted_search fixed_date_filter
       [inr [item_a1; item_a2]; inr [item_a1'; item_a3]; inr [item_b1]]
       [tool_a; tool_b] 1 10).2 = inr out ∧
    length out = 4 ∧
    ((0 ≤ 10)%Z → length out ≤ 2 * Z.to_nat 10).
Proof.
  apply (collect_all_news_length scripted_search fixed_date_filter
           [inr [item_a1; item_a2]; inr [item_a1'; item_a3]; inr [item_b1]]
           [tool_a; tool_b] 1 10 [[item_a1; item_a2; item_a3]; [item_b1]]).
  reflexivity.
Defined.

Lemma stamping_search_stamps w query tool date_filter max_results w' items :
  stamping_search w query tool date_filter max_results = (w', inr items) →
  Forall (λ x, tool_name x = tool) items.
Proof.
  destruct w as [|[e|l] w]; intros [= <- <-].
  - constructor.
  - by apply Forall_fmap, Forall_true.
Qed.

(** X3 on two tools whose searches return the same url. *)
Lemma collect_all_news_unique_per_tool_and_url_witness :
  NoDup ((λ x, (tool_name x, url_element x)) <$>
           [item_a1; with_tool_name "tool-b" item_a1]) ∧
  NoDup ((λ x, (tool_name x, url x)) <$> [item_a1; with_tool_name "tool-b" item_a1]).
Proof.
  apply (collect_all_news_unique_per_tool_and_url stamping_search fixed_date_filter
           (λ w query tool date_filter max_results w' items H,
              stamping_search_stamps w query tool date_filter max_results w' items H)
           [inr [item_a1]; inr [item_a1']; inr [item_a1]] [tool_a; tool_b] 1 10).
  - apply (bool_decide_unpack _). vm_compute. exact I.
  - reflexivity.
Defined.

(** ** Collector: the parser *)

Section ParserProperties.
Import GeminiSearchCollector.
Context {World : Type}.
Variable generate_content : World → string → string → Z → World * (exn + string).
Variable re_search_json_block : string → option string.
Variable json_loads : string → option pyval.
Variable strptime_Ymd : string → option datetime.

Abbreviation parse_items' := (parse_items strptime_Ymd).
Abbreviation parse_response' :=
  (GeminiSearchCollector._parse_response re_search_json_block json_loads strptime_Ymd).
Abbreviation search_and_parse' :=
  (GeminiSearchCollector._search_and_parse generate_content re_search_json_block
     json_loads strptime_Ymd).

Lemma parse_item_ok item tool p :
  parse_item strptime_Ymd item tool = inr (Some p) → parsed_ok tool p.
Proof.
  destruct item as [| | | | | |kvs]; try done. simpl.
  destruct (truthy (dict_get kvs "title" PNone)) eqn:Ht; [|done].
  destruct (truthy (dict_get kvs "url" PNone)) eqn:Hu; [|done]. simpl.
  destruct (parse_published_date strptime_Ymd kvs); [done|].
  intros [= <-]. by repeat split.
Qed.

Lemma parse_items_ok items tool acc l :
  Forall (parsed_ok tool) acc →
  parse_items' items tool acc = inr l → Forall (parsed_ok tool) l.
Proof.
  revert acc. induction items as [|item items IH]; intros acc Hacc; simpl.
  - by intros [= <-].
  - destruct (parse_item strptime_Ymd item tool) as [e|[p|]] eqn:Hitem; [done| |].
    + apply IH. apply Forall_app. split; [done|].
      constructor; [|constructor]. by eapply parse_item_ok.
    + by apply IH.
Qed.

Lemma search_and_parse_parsed_ok w query tool date_filter max_results :
  Forall (parsed_ok tool) (search_and_parse' w query tool date_filter max_results).2.
Proof.
  unfold GeminiSearchCollector._search_and_parse.
  destruct (generate_content w query date_filter max_results) as [w' [e|text]];
    [constructor|].
  destruct (parse_response' text tool) as [e|l] eqn:Hparse; [constructor|]. simpl.
  unfold GeminiSearchCollector._parse_response in Hparse.
  destruct (String.eqb text EmptyString); [by injection Hparse as <-|].
  destruct (json_loads _) as [v|]; [|by injection Hparse as <-].
  by eapply (parse_items_ok _ _ []).
Qed.

Lemma parsed_search_stamps w query tool date_filter max_results w' items :
  parsed_search generate_content re_search_json_block json_loads strptime_Ymd
    w query tool date_filter max_results = (w', inr items) →
  Forall (λ x, tool_name x = tool ∧ truthy (url x) = true) items.
Proof.
  unfold parsed_search.
  pose proof (search_and_parse_parsed_ok w query tool date_filter max_results) as Hok.
  destruct (search_and_parse' w query tool date_filter max_results) as [w1 ps].
  intros [= _ <-]. apply Forall_fmap. eapply Forall_impl; [exact Hok|].
  intros p (_ & Hu & Ht & _). by split.
Qed.

(** X4: every item [_search_and_parse] returns has a true (non-empty) title
    and url, carries the tool name it was asked for and the source
    [gemini_search], and its title, url and content are those of the JSON
    entry kept as its [raw_data]. *)
Theorem search_and_parse_items_validated w query tool date_filter max_results :
  Forall (λ p,
    truthy (p_title p) = true ∧ truthy (p_url p) = true ∧
    p_tool_name p = tool ∧ p_source p = "gemini_search" ∧
    p_title p = dict_get (p_raw_data p) "title" PNone ∧
    p_url p = dict_get (p_raw_data p) "url" PNone ∧
    p_content p = dict_get (p_raw_data p) "snippet" (PStr EmptyString))
    (search_and_parse' w query tool date_filter max_results).2.
Proof. apply search_and_parse_parsed_ok. Qed.

Lemma parse_items_fatal items tool acc :
  Exists (λ item, fatal_entry item = true) items →
  ∃ e, parse_items' items tool acc = inl e.
Proof.
  intros Hex. revert acc. induction Hex as [item items Hfatal|item items Hex IH];
    intros acc; simpl.
  - assert (∃ e, parse_item strptime_Ymd item tool = inl e) as [e ->]; [|by eexists].
    destruct item as [| | | | | |kvs]; try by eexists.
    simpl in *. unfold parse_published_date.
    destruct (truthy (dict_get kvs "title" PNone)); [|done].
    destruct (truthy (dict_get kvs "url" PNone)); [|done]. simpl in *.
    destruct (truthy (dict_get kvs "published_date" PNone)); [|done].
    destruct (dict_get kvs "published_date" PNone); try done; by eexists.
  - destruct (parse_item strptime_Ymd item tool) as [e|[p|]]; [by eexists|apply IH..].
Qed.

(** X5: one bad entry voids the whole query. When the reply parses to JSON
    and some entry of it is not an object, or is a valid entry whose
    [published_date] is a true value other than a string, [_search_and_parse]
    returns no item at all, whatever the other entries are. *)
Theorem search_and_parse_all_or_nothing w w' query tool date_filter max_results text v :
  generate_content w query date_filter max_results = (w', inr text) →
  text ≠ EmptyString →
  json_loads (default text (re_search_json_block text)) = Some v →
  Exists (λ item, fatal_entry item = true) (as_list v) →
  search_and_parse' w query tool date_filter max_results = (w', []).
Proof.
  intros Hgen Htext Hv Hfatal.
  unfold GeminiSearchCollector._search_and_parse. rewrite Hgen.
  unfold GeminiSearchCollector._parse_response.
  apply String.eqb_neq in Htext. rewrite Htext.
  assert (match re_search_json_block text with
          | Some group1 => group1
          | None => text
          end = default text (re_search_json_block text)) as ->
    by (by destruct (re_search_json_block text)).
  rewrite Hv.
  by destruct (parse_items_fatal (as_list v) tool [] Hfatal) as [e ->].
Qed.

Lemma parse_items_well_formed items tool acc :
  Forall (λ item, fatal_entry item = false) items →
  ∃ l, parse_items' items tool acc = inr (acc ++ l) ∧
       p_raw_data <$> l = valid_entries items ∧
       Forall (λ p, p_published_at p =
                      match dict_get (p_raw_data p) "published_date" PNone with
                      | PStr s => if String.eqb s EmptyString then None else strptime_Ymd s
                      | _ => None
                      end) l.
Proof.
  intros Hitems. revert acc. induction Hitems as [|item items Hitem _ IH]; intros acc.
  { exists []. by rewrite app_nil_r. }
  cbn [parse_items valid_entries omap list_omap].
  destruct item as [| | | | | |kvs]; try done.
  cbn [parse_item valid_entry fatal_entry] in *. unfold parse_published_date.
  destruct (truthy (dict_get kvs "title" PNone)); cbn [negb andb] in *; [|apply IH].
  destruct (truthy (dict_get kvs "url" PNone)); cbn [negb andb] in *; [|apply IH].
  assert (∃ d,
    (if truthy (dict_get kvs "published_date" PNone)
     then match dict_get kvs "published_date" PNone with
          | PStr s => inr (strptime_Ymd s)
          | _ => inl TypeError
          end
     else inr None) = inr d ∧
    d = match dict_get kvs "published_date" PNone with
        | PStr s => if String.eqb s EmptyString then None else strptime_Ymd s
        | _ => None
        end) as (d & -> & Hd).
  { destruct (dict_get kvs "published_date" PNone) as [| | | |s| |]; simpl in *;
      try (by eexists); try (by destruct (truthy _); [done|eexists]).
    - destruct b; [done|by eexists].
    - destruct (z =? 0)%Z; [by eexists|done].
    - destruct f; try done; by eexists.
    - destruct (String.eqb s EmptyString); by eexists.
    - destruct l; [by eexists|done].
    - destruct kvs0; [by eexists|done]. }
  destruct (IH (acc ++ [
    {| p_title := dict_get kvs "title" PNone; p_url := dict_get kvs "url" PNone;
       p_tool_name := tool; p_source := "gemini_search"; p_published_at := d;
       p_content := dict_get kvs "snippet" (PStr EmptyString);
       p_raw_data := kvs |}])) as (l & -> & Hraw & Hdates).
  eexists (_ :: l). rewrite <- app_assoc. split; [done|].
  split; [by rewrite fmap_cons, Hraw|]. by constructor.
Qed.

(** X6: when the reply parses to JSON and no entry is bad in the sense of
    X5, [_search_and_parse] returns exactly one item per entry that has a
    true title and url, in the order of the reply; an entry whose
    [published_date] is missing, empty or rejected by [strptime] is kept,
    with [published_at] left at [None]. *)
Theorem search_and_parse_valid_entries w w' query tool date_filter max_results text v :
  generate_content w query date_filter max_results = (w', inr text) →
  text ≠ EmptyString →
  json_loads (default text (re_search_json_block text)) = Some v →
  Forall (λ item, fatal_entry item = false) (as_list v) →
  let out := (search_and_parse' w query tool date_filter max_results).2 in
  p_raw_data <$> out = valid_entries (as_list v) ∧
  Forall (λ p, p_published_at p =
                 match dict_get (p_raw_data p) "published_date" PNone with
                 | PStr s => if String.eqb s EmptyString then None else strptime_Ymd s
                 | _ => None
                 end) out.
Proof.
  intros Hgen Htext Hv Hitems.
  unfold GeminiSearchCollector._search_and_parse. rewrite Hgen.
  unfold GeminiSearchCollector._parse_response.
  apply String.eqb_neq in Htext. rewrite Htext.
  assert (match re_search_json_block text with
          | Some group1 => group1
          | None => text
          end = default text (re_search_json_block text)) as ->
    by (by destruct (re_search_json_block text)).
  rewrite Hv.
  by destruct (parse_items_well_formed (as_list v) tool [] Hitems) as (l & -> & ? & ?).
Qed.

(** X25: with the parser of the module, and whatever the generator
    answers: when the tools have pairwise-distinct names, every item that a
    run returns is filed under one of the tools, and no two items agree on
    both tool name and url. *)
Theorem collect_parsed_news_unique_per_tool_and_url
    (date_filter_of : World → Z → exn + string) w cfgs days_back max_results out :
  NoDup (name <$> cfgs) →
  (collect_all_news
     (parsed_search generate_content re_search_json_block json_loads strptime_Ymd)
     date_filter_of w cfgs days_back max_results).2 = inr out →
  Forall (λ x, tool_name x ∈ name <$> cfgs) out ∧
  NoDup ((λ x, (tool_name x, url_element x)) <$> out) ∧
  NoDup ((λ x, (tool_name x, url x)) <$> out).
Proof.
  intros Hnames. unfold collect_all_news. rewrite collect_loop_per_tool.
  destruct (news_per_tool _ _ w cfgs _ _) as [e|per_tool] eqn:Hper; [done|].
  intros [= <-]. simpl.
  destruct (news_per_tool_unique _ date_filter_of
              (λ w query tool date_filter max_results w' items H,
                 Forall_impl _ _ _
                   (parsed_search_stamps w query tool date_filter max_results w' items H)
                   (λ x Hx, proj1 Hx))
              w cfgs days_back max_results per_tool Hnames Hper)
    as [Htools Hnd].
  split_and!; [done|done|].
  apply (NoDup_fmap_1 (λ p, (p.1, hash_key p.2))).
  by rewrite <- list_fmap_compose.
Qed.

End ParserProperties.

(** A reply that gives two urls for an entry, as a list: the parser keeps
    the entry, its url being a true value, and the dedup loop of
    [search_tool_news] raises [TypeError] on it. *)
Lemma search_tool_news_reply_with_two_urls :
  search_tool_news
    (parsed_search scripted_generate_content no_json_block search_json_loads
       scenario_strptime)
    fixed_date_filter [inr "reply: an entry with two urls"; inr "[]"] tool_a 1 10 =
  ([], inl TypeError).
Proof. vm_compute. reflexivity. Qed.

(** X5 on a reply with a valid entry followed by a bare string. *)
Lemma search_and_parse_all_or_nothing_witness :
  GeminiSearchCollector._search_and_parse scripted_generate_content no_json_block
    search_json_loads scenario_strptime
    [inr "reply: an entry and a bare string"] "tool-a news" "tool-a" "2024-05-01" 10 =
    ([], []).
Proof.
  apply (search_and_parse_all_or_nothing scripted_generate_content no_json_block
           search_json_loads scenario_strptime _ _ _ _ _ _
           "reply: an entry and a bare string"
           (PList [entry_full; PStr "https://example.com/other"])).
  - reflexivity.
  - discriminate.
  - reflexivity.
  - right. left. reflexivity.
Defined.

(** X6 on a reply with a dated entry, an entry without url and an entry
    whose date is no date. *)
Lemma search_and_parse_valid_entries_witness :
  let out :=
    (GeminiSearchCollector._search_and_parse scripted_generate_content no_json_block
       search_json_loads scenario_strptime
       [inr "reply: three entries"] "tool-a news" "tool-a" "2024-05-01" 10).2 in
  GeminiSearchCollector.p_title <$> out = [PStr "A ships 2.0"; PStr "A fixes a bug"] ∧
  GeminiSearchCollector.p_published_at <$> out = [Some (midnight 2024 5 1); None].
Proof.
  destruct (search_and_parse_valid_entries scripted_generate_content no_json_block
              search_json_loads scenario_strptime
              [inr "reply: three entries"] [] "tool-a news" "tool-a" "2024-05-01" 10
              "reply: three entries" (PList [entry_full; entry_no_url; entry_bad_date]))
    as [Hraw Hdates].
  - reflexivity.
  - discriminate.
  - reflexivity.
  - repeat constructor.
  - split; reflexivity.
Defined.

(** ** The views of a report and the banner counts *)

Lemma defaultdict_append_size d k (x : NewsItem) :
  sum_list (length ∘ snd <$> defaultdict_append d k x) =
    S (sum_list (length ∘ snd <$> d)).
Proof.
  induction d as [|[k' l] d IHd]; [done|].
  cbn [defaultdict_append].
  destruct (String.eqb k' k); rewrite !fmap_cons; cbn [sum_list sum_list_with compose snd].
  - rewrite length_app. simpl. lia.
  - rewrite IHd. lia.
Qed.

Lemma group_by_tool_sizes (items : list NewsItem) d :
  sum_list (length ∘ snd <$> group_by_tool items d) =
    sum_list (length ∘ snd <$> d) + length items.
Proof.
  revert d. induction items as [|x items IH]; intros d; cbn [group_by_tool length]; [lia|].
  rewrite IH, defaultdict_append_size. lia.
Qed.

Lemma important_filter (l : list NewsItem) :
  List.filter is_critical_or_high l =
    filter (λ item, importance item ∈ [CRITICAL; HIGH]) l.
Proof.
  induction l as [|x l IH]; [done|]. cbn [List.filter].
  unfold is_critical_or_high at 1.
  destruct (importance x) eqn:Hx.
  - rewrite filter_cons_True by (rewrite Hx; by apply (bool_decide_unpack _)).
    by f_equal.
  - rewrite filter_cons_True by (rewrite Hx; by apply (bool_decide_unpack _)).
    by f_equal.
  - rewrite filter_cons_False; [done|].
    rewrite Hx. by apply (bool_decide_unpack _).
  - rewrite filter_cons_False; [done|].
    rewrite Hx. by apply (bool_decide_unpack _).
Qed.

(** X7: the template input agrees with the views of the report: the group
    of a tool is [get_by_tool] of that tool and is never empty, every tool
    that has an item has its group, the banner's count of important items
    is the length of [get_critical_and_high], the total is the sum of the
    group sizes, and the tool count is the number of distinct tool names. *)
Theorem render_input_matches_views (report : DailyReport) :
  let input := render_input report in
  (∀ k g, (k, g) ∈ ri_news_by_tool input → g = get_by_tool report k ∧ g ≠ []) ∧
  (∀ x, x ∈ news_items report →
     (tool_name x, get_by_tool report (tool_name x)) ∈ ri_news_by_tool input) ∧
  ri_critical_count input = length (get_critical_and_high report) ∧
  ri_total_count input = sum_list (length ∘ snd <$> ri_news_by_tool input) ∧
  ri_tools_count input =
    size (list_to_set (tool_name <$> news_items report) : gset string).
Proof.
  intros input.
  assert (ri_news_by_tool input = stable_groups (news_items report)) as Hgroups.
  { apply (group_by_tool_stable_groups [] (news_items report)). }
  split_and!.
  - intros k g. rewrite Hgroups. unfold stable_groups.
    intros (k' & [= -> ->] & Hk)%list_elem_of_fmap. split; [done|].
    apply first_occurrences_elem, list_elem_of_fmap in Hk as (x & -> & Hx).
    intros Hnil. eapply (filter_nil_not_elem_of _ _ x); [exact Hnil|done|done].
  - intros x Hx. rewrite Hgroups. unfold stable_groups.
    apply list_elem_of_fmap. exists (tool_name x). split; [done|].
    apply first_occurrences_elem, list_elem_of_fmap. by exists x.
  - unfold input, render_input, get_critical_and_high. cbn [ri_critical_count].
    by rewrite important_filter.
  - unfold input, render_input. simpl. by rewrite group_by_tool_sizes.
  - change (ri_tools_count input) with (length (ri_news_by_tool input)).
    rewrite Hgroups. unfold stable_groups. rewrite length_fmap.
    rewrite <- (size_list_to_set (C := gset string)) by apply first_occurrences_NoDup.
    f_equal. apply set_eq. intros k.
    rewrite !elem_of_list_to_set. apply first_occurrences_elem.
Qed.

(** X8: the important items are the critical and the high ones: in the
    order of the report, [get_critical_and_high] is a rearrangement of
    [get_by_importance(CRITICAL)] followed by [get_by_importance(HIGH)], and
    the four importance views together account for every item. *)
Theorem importance_views_partition (report : DailyReport) :
  get_critical_and_high report ≡ₚ
    get_by_importance report CRITICAL ++ get_by_importance report HIGH ∧
  sublist (get_critical_and_high report) (news_items report) ∧
  length (get_by_importance report CRITICAL) + length (get_by_importance report HIGH) +
  length (get_by_importance report MEDIUM) + length (get_by_importance report LOW) =
    length (news_items report).
Proof.
  unfold get_critical_and_high, get_by_importance. split_and!.
  - induction (news_items report) as [|x l IH]; [done|].
    destruct (importance x) eqn:Hx.
    + rewrite (filter_cons_True (λ item, importance item ∈ _) x)
        by (rewrite Hx; by apply (bool_decide_unpack _)).
      rewrite (filter_cons_True (λ item, importance item = CRITICAL) x) by done.
      rewrite (filter_cons_False (λ item, importance item = HIGH) x)
        by (by rewrite Hx).
      simpl. by f_equiv.
    + rewrite (filter_cons_True (λ item, importance item ∈ _) x)
        by (rewrite Hx; by apply (bool_decide_unpack _)).
      rewrite (filter_cons_False (λ item, importance item = CRITICAL) x)
        by (by rewrite Hx).
      rewrite (filter_cons_True (λ item, importance item = HIGH) x) by done.
      rewrite IH. apply Permutation_middle.
    + rewrite (filter_cons_False (λ item, importance item ∈ _) x)
        by (rewrite Hx; by apply (bool_decide_unpack _)).
      by rewrite !(filter_cons_False (λ item, importance item = _) x)
        by (by rewrite Hx).
    + rewrite (filter_cons_False (λ item, importance item ∈ _) x)
        by (rewrite Hx; by apply (bool_decide_unpack _)).
      by rewrite !(filter_cons_False (λ item, importance item = _) x)
        by (by rewrite Hx).
  - apply sublist_filter.
  - induction (news_items report) as [|x l IH]; [done|].
    rewrite !(filter_cons _ x).
    destruct (importance x) eqn:Hx; repeat case_decide; try done; simpl; lia.
Qed.

(** X7 on the report of the scenario: two tools, three items. *)
Lemma render_input_matches_views_witness :
  get_by_tool scenario_report "tool-a" = [item_a1; item_a2] ∧
  ri_tools_count (render_input scenario_report) = 2.
Proof.
  destruct (render_input_matches_views scenario_report) as (Hgroup & _ & _ & _ & Htools).
  split.
  - symmetry. apply (Hgroup "tool-a"). left.
  - rewrite Htools. vm_compute. reflexivity.
Defined.

(** ** The dictionary form: what comes back *)

Section DictFormFurther.
Variable isoformat : datetime → string.
Variable fromisoformat : string → exn + datetime.

(** X9: when [fromisoformat] reads back the date that [isoformat] wrote for
    the item, [from_dict (to_dict item)] is the item with every field as it
    was, except [raw_data], which the dictionary form does not carry and
    which comes back empty. *)
Theorem to_dict_from_dict_drops_raw_data (self : NewsItem) :
  (∀ d, published_at self = Some d →
        isoformat d ≠ EmptyString ∧ fromisoformat (isoformat d) = inr d) →
  from_dict fromisoformat (to_dict isoformat self) = Some (inr (without_raw_data self)).
Proof.
  intros Hiso.
  assert (parse_published_at fromisoformat (to_dict isoformat self) =
          inr (published_at self)) as Hp.
  { unfold parse_published_at, to_dict, dict_get. simpl.
    destruct (published_at self) as [d|]; [|done].
    destruct (Hiso d eq_refl) as [Hne Hd]. simpl.
    apply String.eqb_neq in Hne. rewrite Hne. simpl. by rewrite Hd. }
  unfold from_dict. rewrite Hp.
  unfold to_dict, and_then, field_required, field_default, dict_get.
  cbn -[Importance_of Category_of].
  by rewrite Importance_of_value, Category_of_value.
Qed.

(** X10: a dictionary with only the four required keys gives the item that
    the dataclass builds from them, whatever values it holds for title and
    url: no date, empty content and summaries, importance MEDIUM, category
    OTHER, no tags, no raw data. *)
Theorem from_dict_defaults data (t u : pyval) (tn s : string) :
  dict_lookup data "title" = Some t →
  dict_lookup data "url" = Some u →
  dict_lookup data "tool_name" = Some (PStr tn) →
  dict_lookup data "source" = Some (PStr s) →
  Forall (λ k, dict_lookup data k = None) optional_keys →
  from_dict fromisoformat data = Some (inr (new_NewsItem t u tn s)).
Proof.
  intros Ht Hu Htn Hs Hopt.
  repeat (apply Forall_cons in Hopt as [? Hopt]).
  unfold from_dict, parse_published_at, field_value, field_required, dict_get.
  by repeat match goal with H : dict_lookup data _ = _ |- _ => rewrite !H; clear H end.
Qed.

(** X11: a dictionary without a date that lacks one of the four required
    keys, the ones it has being strings, makes [from_dict] raise
    [KeyError]. *)
Theorem from_dict_missing_key data :
  truthy (dict_get data "published_at" PNone) = false →
  Forall (λ k, dict_lookup data k = None ∨ ∃ s, dict_lookup data k = Some (PStr s))
    required_keys →
  Exists (λ k, dict_lookup data k = None) required_keys →
  from_dict fromisoformat data = Some (inl KeyError).
Proof.
  intros Hdate Hkeys Hmissing.
  unfold from_dict, parse_published_at. rewrite Hdate.
  unfold required_keys in *.
  repeat (apply Forall_cons in Hkeys as [? Hkeys]).
  unfold and_then, field_value, field_required.
  repeat match goal with
         | H : _ ∨ _ |- _ => destruct H as [H|[? H]]; rewrite H; [done|]
         end.
  exfalso.
  repeat match goal with
         | H : Exists _ (_ :: _) |- _ => apply Exists_cons in H as [H|H]; [congruence|]
         end.
  by apply Exists_nil in Hmissing.
Qed.

End DictFormFurther.

(** X9 on an item with a publication date and raw data. *)
Lemma to_dict_from_dict_drops_raw_data_witness :
  from_dict scenario_fromisoformat (to_dict scenario_isoformat published_item) =
    Some (inr (without_raw_data published_item)) ∧
  raw_data published_item ≠ [].
Proof.
  split; [|discriminate].
  apply (to_dict_from_dict_drops_raw_data scenario_isoformat scenario_fromisoformat).
  intros d [= <-]. split; [discriminate|reflexivity].
Defined.

(** X10 on the dictionary of the four required keys. *)
Lemma from_dict_defaults_witness :
  from_dict scenario_fromisoformat
    [("title", PStr "A docs"); ("url", PStr "https://example.com/docs");
     ("tool_name", PStr "tool-a"); ("source", PStr "gemini_search")] =
    Some (inr item_a3).
Proof.
  apply (from_dict_defaults scenario_fromisoformat _ (PStr "A docs")
           (PStr "https://example.com/docs") "tool-a" "gemini_search"); try reflexivity.
  repeat constructor.
Defined.

(** X11 on a dictionary without url. *)
Lemma from_dict_missing_key_witness :
  from_dict scenario_fromisoformat
    [("title", PStr "A docs"); ("tool_name", PStr "tool-a");
     ("source", PStr "gemini_search")] = Some (inl KeyError).
Proof.
  apply from_dict_missing_key.
  - reflexivity.
  - unfold required_keys.
    repeat (apply Forall_cons; split);
      [right; by eexists|by left|right; by eexists|right; by eexists|constructor].
  - right. left. reflexivity.
Defined.

(** ** Summariser: the payload of a request and replies that match nothing *)

Lemma string_append_cons (c : ascii) (a b : string) :
  String c a +:+ b = String c (a +:+ b).
Proof. reflexivity. Qed.

(** [s[:n]] cuts [s] between two characters, after the [n]-th when there
    are that many. *)
Lemma str_slice_to_split (s : string) (n : nat) :
  ∃ rest, s = str_slice_to s n +:+ rest ∧
          py_len (str_slice_to s n) = min n (py_len s) ∧ at_character rest.
Proof.
  revert n. induction s as [|c s IH]; intros n.
  - exists EmptyString. simpl. split_and!; [done|lia|done].
  - simpl. destruct (is_continuation c) eqn:Hc.
    + destruct (IH n) as (rest & Hs & Hlen & Hrest). exists rest.
      rewrite string_append_cons, <- Hs. simpl. rewrite Hc. by split_and!.
    + destruct n as [|n].
      * exists (String c s). split_and!; [done|done|exact Hc].
      * destruct (IH n) as (rest & Hs & Hlen & Hrest). exists rest.
        rewrite string_append_cons, <- Hs. simpl. rewrite Hc, Hlen. by split_and!.
Qed.

Lemma merge_loop_no_match result_map idx items h :
  (∀ j, j < length items → result_map !! KInt (Z.of_nat (idx + j)) = None) →
  merge_loop result_map idx items h = (h, inr ()).
Proof.
  revert idx. induction items as [|item items IH]; intros idx Hnone; [done|].
  rewrite merge_loop_cons.
  rewrite <- (Nat.add_0_r idx) at 1. rewrite (Hnone 0) by (simpl; lia).
  apply IH. intros j Hj. replace (S idx + j) with (idx + S j) by lia.
  apply Hnone. simpl. lia.
Qed.

Section SummarizerFurther.
Context {World : Type}.
Variable messages_create : World → list ItemData → World * (exn + string).
Variable re_search_json_block : string → option string.
Variable json_loads : string → option pyval.
Variable dict_slice_error : exn.

Lemma content_slice_payload (c c' : pyval) :
  content_slice dict_slice_error c = inr c' → payload_content c c'.
Proof.
  unfold content_slice, payload_content. destruct (truthy c); [|by intros [= <-]].
  destruct c as [| | | |s|l|]; try done; intros [= <-].
  - destruct (str_slice_to_split s 500) as (rest & Hs & Hlen & Hrest).
    by exists (str_slice_to s 500), rest.
  - exists (take 500 l), (drop 500 l). split_and!; [done| |].
    + by rewrite take_drop.
    + rewrite length_take. lia.
Qed.

Lemma items_data_loop_inr h idx items acc payload :
  items_data_loop dict_slice_error h idx items acc = inr payload →
  ∃ entries,
    payload = acc ++ entries ∧ length entries = length items ∧
    ∀ i d, entries !! i = Some d →
      ∃ item, items !! i = Some item ∧
        id_idx d = idx + i ∧ id_title d = title (h item) ∧ id_url d = url (h item) ∧
        id_tool_name d = tool_name (h item) ∧
        content_slice dict_slice_error (content (h item)) = inr (id_content d).
Proof.
  revert idx acc. induction items as [|item items IH]; intros idx acc; simpl.
  - intros [= <-]. exists []. rewrite app_nil_r. split_and!; [done|done|].
    intros i d. by rewrite lookup_nil.
  - destruct (content_slice dict_slice_error (content (h item))) as [e|c] eqn:Hc;
      [done|].
    intros Hloop. destruct (IH _ _ Hloop) as (entries & -> & Hlen & Hentries).
    eexists (_ :: entries). split_and!.
    + by rewrite <- app_assoc.
    + simpl. by rewrite Hlen.
    + intros [|i] d; simpl.
      * intros [= <-]. exists item. simpl. rewrite Nat.add_0_r. by split_and!.
      * intros Hd. destruct (Hentries i d Hd) as (item' & Hitem' & Hidx & Hrest).
        exists item'. split; [done|]. split; [lia|done].
Qed.

(** X12: when the content of every item of a batch can be sliced, the
    payload of the request has one entry per item, in order; an entry
    carries its 0-based position in the batch as id, the title, url and tool
    name of its item, and as content the empty string for a false content,
    the first 500 characters of a string, the first 500 elements of a
    list. Otherwise building the payload raises, and [_process_batch]
    raises with it before any request is made and without writing to an
    item. *)
Theorem items_data_payload (h : heap) (news_items : list ref) :
  match items_data_of dict_slice_error h news_items with
  | inr payload =>
      Forall (λ item, sliceable (content (h item)) = true) news_items ∧
      length payload = length news_items ∧
      ∀ i d, payload !! i = Some d →
        ∃ item, news_items !! i = Some item ∧
          id_idx d = i ∧ id_title d = title (h item) ∧ id_url d = url (h item) ∧
          id_tool_name d = tool_name (h item) ∧
          payload_content (content (h item)) (id_content d)
  | inl e =>
      Exists (λ item, sliceable (content (h item)) = false) news_items ∧
      (e = TypeError ∨ e = dict_slice_error) ∧
      ∀ w, _process_batch messages_create re_search_json_block json_loads
             dict_slice_error w news_items h = (w, h, inl e)
  end.
Proof.
  pose proof (λ w, process_batch_outcome messages_create re_search_json_block
                     json_loads dict_slice_error w news_items h) as Hbatch.
  destruct (decide (Forall (λ item, sliceable (content (h item)) = true) news_items))
    as [Hall|Hbad].
  - destruct (items_data_loop_sliceable dict_slice_error h 0 news_items [] Hall)
      as [payload Hp].
    unfold items_data_of in *. rewrite Hp.
    destruct (items_data_loop_inr h 0 news_items [] payload Hp)
      as (entries & -> & Hlen & Hentries).
    split_and!; [done|done|].
    intros i d Hd. destruct (Hentries i d Hd) as (item & Hitem & ? & ? & ? & ? & Hc).
    exists item. split_and!; try done. by apply content_slice_payload.
  - apply not_Forall_Exists in Hbad; [|apply _].
    assert (Exists (λ item, sliceable (content (h item)) = false) news_items) as Hex.
    { eapply Exists_impl; [exact Hbad|]. intros item Hitem. simpl in Hitem.
      by destruct (sliceable (content (h item))). }
    destruct (items_data_loop_unsliceable dict_slice_error h 0 news_items [] Hex)
      as (e & He & Hcases).
    unfold items_data_of in *. rewrite He in Hbatch |- *. by split_and!.
Qed.

(** X13: a reply that matches nothing is dropped without a trace. When the
    mapping is built and no result has an id equal to an index of the
    batch (ids given as strings, or ids past the end of the batch), the
    parse returns the batch with the store unchanged and raises nothing. *)
Theorem parse_response_no_matching_id text v result_map batch h :
  json_loads (json_str_of re_search_json_block text) = Some v →
  build_result_map (as_list v) ∅ = inr result_map →
  (∀ i, i < length batch → result_for (as_list v) i = None) →
  _parse_response re_search_json_block json_loads text batch h = (h, inr batch).
Proof.
  intros Hv Hm Hnone.
  rewrite parse_response_run, Hv, merge_results_run, Hm.
  rewrite merge_loop_no_match; [done|].
  intros j Hj. simpl.
  rewrite (build_result_map_lookup _ _ _ j Hm), lookup_empty.
  by rewrite Hnone.
Qed.

End SummarizerFurther.

(** X13 on a reply whose only result has the id "0", a string. *)
Lemma parse_response_no_matching_id_witness :
  _parse_response no_json_block string_ids_json_loads "reply: ids as strings"
    [0; 1] store0 = (store0, inr [0; 1]).
Proof.
  apply (parse_response_no_matching_id no_json_block string_ids_json_loads
           "reply: ids as strings" (PList [result_string_id])
           (<[KStr "0" := result_string_id]> ∅)).
  - reflexivity.
  - reflexivity.
  - intros i _. reflexivity.
Defined.

(** ** Report files and the index *)

Lemma string_length_append (a b : string) :
  String.length (a +:+ b) = String.length a + String.length b.
Proof. induction a as [|c a IH]; simpl; [done|]. by rewrite IH. Qed.

Lemma string_append_inj (a b s t : string) :
  String.length a = String.length b → a +:+ s = b +:+ t → a = b ∧ s = t.
Proof.
  revert b. induction a as [|c a IH]; intros [|c' b] Hlen Heq; simpl in *; try done.
  injection Heq as -> Heq. destruct (IH b) as [-> ->]; [lia|done|done].
Qed.

Lemma string_append_cancel_r (a b s : string) : a +:+ s = b +:+ s → a = b.
Proof.
  intros Heq. apply (string_append_inj a b s s); [|done].
  apply (f_equal String.length) in Heq. rewrite !string_length_append in Heq. lia.
Qed.

Lemma strftime_Ymd_inj (a b : datetime) :
  four_digit_date a → four_digit_date b →
  strftime_Ymd a = strftime_Ymd b → date_key a = date_key b.
Proof.
  intros Ha Hb Heq. apply date_key_ordinal; [done|done|].
  apply Z.compare_eq_iff. rewrite <- compare_report_file by done.
  unfold report_file. rewrite Heq. apply string_compare_refl.
Qed.

(** X14: reports never overwrite each other: for dates with four-digit
    years, two report files have the same name only when they are for the
    same day and the same language. *)
Theorem report_name_inj (d1 d2 : datetime) (lang1 lang2 : string) :
  four_digit_date d1 → four_digit_date d2 →
  report_name d1 lang1 = report_name d2 lang2 →
  date_key d1 = date_key d2 ∧ lang1 = lang2.
Proof.
  intros H1 H2 Heq. unfold report_name in Heq.
  apply string_append_inj in Heq as [Hdate Hrest]; [|reflexivity].
  split; [by apply strftime_Ymd_inj|].
  apply (string_append_inj "_" "_") in Hrest as [_ Hrest]; [|done].
  by apply string_append_cancel_r in Hrest.
Qed.

Section ReportFiles.
Variables index_head index_tail : string.

Lemma write_text_elem names name n :
  n ∈ write_text names name ↔ n ∈ names ∨ n = name.
Proof.
  unfold write_text. case_decide as Hin.
  - split; [by left|]. by intros [?| ->].
  - rewrite elem_of_app, list_elem_of_singleton. done.
Qed.

Lemma write_text_present names name : name ∈ names → write_text names name = names.
Proof. intros Hin. unfold write_text. by rewrite decide_True. Qed.

Lemma write_all_elem (f : string → string) langs names n :
  n ∈ foldl (λ ns lang, write_text ns (f lang)) names langs ↔
  n ∈ names ∨ n ∈ f <$> langs.
Proof.
  revert names. induction langs as [|lang langs IH]; intros names; simpl.
  - split; [by left|]. intros [?|?%elem_of_nil]; done.
  - rewrite IH, write_text_elem, elem_of_cons. tauto.
Qed.

Lemma write_all_present (f : string → string) langs names :
  (∀ lang, lang ∈ langs → f lang ∈ names) →
  foldl (λ ns lang, write_text ns (f lang)) names langs = names.
Proof.
  revert names. induction langs as [|lang langs IH]; intros names Hall; simpl; [done|].
  rewrite write_text_present by (apply Hall; left).
  apply IH. intros l Hl. apply Hall. by right.
Qed.

Lemma generate_loop_writes names d langs :
  (1000 ≤ dt_year d)%Z →
  generate_loop names d langs =
    (foldl (λ ns lang, write_text ns (report_name d lang)) names langs, inr ()).
Proof.
  intros Hyear. revert names. induction langs as [|lang langs IH]; intros names; [done|].
  simpl. unfold _generate_single_report, strptime_date_str.
  rewrite decide_True by done. apply IH.
Qed.

Lemma generate_loop_raises names d lang langs :
  (dt_year d < 1000)%Z → generate_loop names d (lang :: langs) = (names, inl ValueError).
Proof.
  intros Hyear. simpl. unfold _generate_single_report, strptime_date_str.
  by rewrite decide_False by lia.
Qed.

Lemma generate_report_writes names report langs :
  (1000 ≤ dt_year (date report))%Z →
  generate_report index_head index_tail names report langs =
    (foldl (λ ns lang, write_text ns (report_name (date report) lang)) names langs,
     inr (render_input report,
          _update_index index_head index_tail
            (foldl (λ ns lang, write_text ns (report_name (date report) lang))
               names langs))).
Proof. intros Hyear. unfold generate_report. by rewrite generate_loop_writes. Qed.

Lemma generate_report_raises names report lang langs :
  (dt_year (date report) < 1000)%Z →
  generate_report index_head index_tail names report (lang :: langs) =
    (names, inl ValueError).
Proof. intros Hyear. unfold generate_report. by rewrite generate_loop_raises. Qed.

(** X15: writing is idempotent: generating the same report a second time,
    for the same languages, ends as the first run did (with the same
    exception if the first run raised) and leaves the names in the output
    directory, the template input and the index page as the first run left
    them. *)
Theorem generate_report_idempotent names report languages :
  let first := generate_report index_head index_tail names report languages in
  generate_report index_head index_tail first.1 report languages = first.
Proof.
  intros first. unfold first.
  destruct (decide (1000 ≤ dt_year (date report))%Z) as [Hyear|Hyear].
  - rewrite !generate_report_writes by done. cbn [fst].
    rewrite (write_all_present _ languages (foldl _ names languages)); [done|].
    intros lang Hlang. apply write_all_elem. right.
    apply list_elem_of_fmap. by exists lang.
  - destruct languages as [|lang languages]; [done|].
    by rewrite !generate_report_raises by lia.
Qed.

Lemma glob_ja_html_write_text names name :
  endswith name "_ja.html" = false →
  glob_ja_html (write_text names name) = glob_ja_html names.
Proof.
  intros Hname. unfold write_text. case_decide; [done|].
  unfold glob_ja_html. induction names as [|n names IH]; simpl.
  - by rewrite Hname.
  - destruct (endswith n "_ja.html"); [f_equal|]; apply IH;
      intros Hin; destruct H; by right.
Qed.

(** X16: the index is built from the Japanese files alone: for a date
    with a four-digit year, a run for English only writes its report and
    leaves the list of the index as it was, so the new report is not
    linked. For a year below 1000 the run raises [ValueError] and writes
    nothing. *)
Theorem generate_report_english_only names report :
  let result := generate_report index_head index_tail names report ["en"] in
  (four_digit_date (date report) →
   report_name (date report) "en" ∈ result.1 ∧
   index_reports result.1 = index_reports names ∧
   result.2 = inr (render_input report, _update_index index_head index_tail names)) ∧
  ((dt_year (date report) < 1000)%Z → result = (names, inl ValueError)).
Proof.
  intros result. split.
  - intros (Hyear & _). unfold result.
    rewrite generate_report_writes by lia. cbn [fst snd foldl].
    assert (index_reports (write_text names (report_name (date report) "en"))
            = index_reports names) as Hindex.
    { unfold index_reports. by rewrite glob_ja_html_write_text. }
    split_and!.
    + apply write_text_elem. by right.
    + done.
    + unfold _update_index. by rewrite Hindex.
  - intros Hyear. by apply generate_report_raises.
Qed.

End ReportFiles.

Lemma glob_ja_html_write_ja names name :
  endswith name "_ja.html" = true →
  glob_ja_html (write_text names name) =
    if decide (name ∈ names) then glob_ja_html names else glob_ja_html names ++ [name].
Proof.
  intros Hname. unfold write_text. case_decide; [done|].
  unfold glob_ja_html. rewrite List.filter_app. cbn [List.filter]. by rewrite Hname.
Qed.

Lemma glob_ja_html_elem names n :
  n ∈ glob_ja_html names ↔ n ∈ names ∧ endswith n "_ja.html" = true.
Proof.
  unfold glob_ja_html. rewrite !list_elem_of_In, List.filter_In. done.
Qed.

Lemma report_file_ordinal (a b : datetime) :
  four_digit_date a → four_digit_date b →
  report_file a = report_file b → date_ordinal a = date_ordinal b.
Proof.
  intros Ha Hb Heq. apply Z.compare_eq_iff.
  rewrite <- compare_report_file, Heq by done. apply string_compare_refl.
Qed.

Lemma not_before_ordinal (a b : datetime) :
  four_digit_date a → four_digit_date b →
  ¬ date_before b a → (date_ordinal a ≤ date_ordinal b)%Z.
Proof. unfold four_digit_date, date_ordinal, date_before. lia. Qed.

Lemma entry_of_date_key (a b : datetime) :
  date_key a = date_key b → entry_of_date a = entry_of_date b.
Proof.
  unfold date_key, entry_of_date, strftime_Ymd. intros Hkey.
  injection Hkey as -> -> ->. done.
Qed.

(** The first name of the descending sort belongs to the latest date. *)
Lemma sorted_reverse_head (files : list string) (ds : list datetime) (d d' : datetime) :
  files ≡ₚ report_file <$> ds →
  Forall four_digit_date ds →
  Forall (λ x, (date_ordinal x ≤ date_ordinal d)%Z) ds →
  d' ∈ ds → date_ordinal d' = date_ordinal d → four_digit_date d →
  head (index_entry <$> sorted_reverse files) = Some (entry_of_date d).
Proof.
  intros Hfiles Hfour Hle Hin Hord Hd.
  pose proof (sorted_reverse_Sorted files) as Hsorted.
  destruct (fmap_Permutation_inv report_file (sorted_reverse files) ds)
    as (ds' & Heq & Hperm).
  { by rewrite sorted_reverse_Permutation. }
  rewrite Heq in Hsorted |- *.
  rewrite Hperm in Hfour, Hle, Hin.
  apply report_files_sorted in Hsorted; [|done].
  destruct ds' as [|top rest]; [by apply elem_of_nil in Hin|].
  cbn [fmap list_fmap head]. f_equal.
  rewrite index_entry_report_file. apply entry_of_date_key.
  apply Forall_cons in Hfour as [Htop _]. apply Forall_cons in Hle as [Hle _].
  apply date_key_ordinal; [done|done|].
  apply StronglySorted_inv in Hsorted as [_ Hall].
  apply elem_of_cons in Hin as [->|Hin]; [done|].
  pose proof (proj1 (Forall_forall _ _) Hall d' Hin) as Hd'. cbv beta in Hd'. lia.
Qed.

Section ReportIndex.
Variables index_head index_tail : string.

(** X17: a run for the default languages returns, and afterwards the
    report just written is the first entry of the index, provided that the
    Japanese report files already in the directory are those of dates none
    of which is later than the date of the report. *)
Theorem generate_report_heads_index (dates : list datetime) (names : list string)
    (report : DailyReport) :
  Forall four_digit_date dates →
  four_digit_date (date report) →
  glob_ja_html names ≡ₚ report_file <$> dates →
  Forall (λ d, ¬ date_before (date report) d) dates →
  let result :=
    generate_report index_head index_tail names report (languages_or_default None) in
  result.2 = inr (render_input report, _update_index index_head index_tail result.1) ∧
  report_name (date report) "ja" ∈ result.1 ∧
  report_name (date report) "en" ∈ result.1 ∧
  head (index_reports result.1) = Some (entry_of_date (date report)).
Proof.
  intros Hfour Hd Hglob Hlater result.
  unfold result, languages_or_default.
  rewrite generate_report_writes by (destruct Hd; lia). cbn [fst snd foldl].
  change (report_name (date report) "ja") with (report_file (date report)).
  split_and!.
  - done.
  - apply write_text_elem. left. apply write_text_elem. by right.
  - apply write_text_elem. by right.
  - unfold index_reports. rewrite py_slice_to_nonneg by lia.
    rewrite glob_ja_html_write_text by done.
    rewrite glob_ja_html_write_ja by done.
    assert (Forall (λ x, (date_ordinal x ≤ date_ordinal (date report))%Z) dates) as Hle.
    { apply Forall_forall. intros x Hx. apply not_before_ordinal.
      - by apply (proj1 (Forall_forall _ _) Hfour).
      - done.
      - by apply (proj1 (Forall_forall _ _) Hlater x). }
    assert (∀ l : list IndexEntry, l ≠ [] → head (take (Z.to_nat 30) l) = head l) as Htake.
    { by intros [|??] ?. }
    case_decide as Hpresent.
    + assert (report_file (date report) ∈ report_file <$> dates) as Hin.
      { rewrite <- Hglob. apply glob_ja_html_elem. done. }
      apply list_elem_of_fmap in Hin as (d' & Hname & Hd').
      pose proof (sorted_reverse_head (glob_ja_html names) dates (date report) d'
                    Hglob Hfour Hle Hd') as Hhead.
      rewrite Htake.
      * apply Hhead; [|done]. symmetry. apply report_file_ordinal; [done| |done].
        by apply (proj1 (Forall_forall _ _) Hfour).
      * intros Hnil. rewrite Hnil in Hhead. discriminate Hhead; [|done].
        symmetry. apply report_file_ordinal; [done| |done].
        by apply (proj1 (Forall_forall _ _) Hfour).
    + assert (head (index_entry <$> sorted_reverse
                      (glob_ja_html names ++ [report_file (date report)])) =
              Some (entry_of_date (date report))) as Hhead.
      { apply (sorted_reverse_head _ (dates ++ [date report]) _ (date report)).
        - by rewrite fmap_app, Hglob.
        - apply Forall_app. split; [done|]. by constructor.
        - apply Forall_app. split; [done|]. constructor; [lia|constructor].
        - apply elem_of_app. right. by left.
        - done.
        - done. }
      rewrite Htake; [done|]. intros Hnil. by rewrite Hnil in Hhead.
Qed.

(** X18: whatever the output directory holds, the index lists one entry
    per file named [*_ja.html], up to 30 entries, and every entry is
    derived from the name of such a file. *)
Theorem index_reports_bounded (names : list string) :
  length (index_reports names) = min 30 (length (glob_ja_html names)) ∧
  (∀ e, e ∈ index_reports names →
     ∃ n, n ∈ names ∧ endswith n "_ja.html" = true ∧ e = index_entry n).
Proof.
  unfold index_reports. rewrite py_slice_to_nonneg by lia. split.
  - rewrite length_take, length_fmap.
    by rewrite (Permutation_length (sorted_reverse_Permutation _)).
  - intros e He.
    assert (e ∈ index_entry <$> sorted_reverse (glob_ja_html names)) as He'.
    { eapply elem_of_sublist; [exact He|apply sublist_take]. }
    apply list_elem_of_fmap in He' as (n & -> & Hn).
    rewrite sorted_reverse_Permutation in Hn. apply glob_ja_html_elem in Hn as [??].
    by exists n.
Qed.

End ReportIndex.

(** X14 on a report of the morning and one of the evening of a day. *)
Lemma report_name_inj_witness :
  date_key (midnight 2024 5 2) =
    date_key {| dt_year := 2024; dt_month := 5; dt_day := 2; dt_hour := 21;
                dt_minute := 30; dt_second := 0; dt_microsecond := 0 |}%Z ∧
  "ja" = "ja".
Proof.
  apply (report_name_inj (midnight 2024 5 2)
           {| dt_year := 2024; dt_month := 5; dt_day := 2; dt_hour := 21;
              dt_minute := 30; dt_second := 0; dt_microsecond := 0 |}%Z "ja" "ja").
  - vm_compute. intuition discriminate.
  - vm_compute. intuition discriminate.
  - reflexivity.
Defined.

(** X17 on the directory of the 45 days of January and February 2024 and
    a report of 2 May 2024. *)
Lemma generate_report_heads_index_witness :
  let result :=
    generate_report EmptyString EmptyString scenario_names scenario_report
      (languages_or_default None) in
  result.2 =
    inr (render_input scenario_report, _update_index EmptyString EmptyString result.1) ∧
  report_name (date scenario_report) "ja" ∈ result.1 ∧
  report_name (date scenario_report) "en" ∈ result.1 ∧
  head (index_reports result.1) = Some (entry_of_date (date scenario_report)).
Proof.
  apply (generate_report_heads_index EmptyString EmptyString scenario_dates).
  - apply (bool_decide_unpack _). vm_compute. exact I.
  - apply (bool_decide_unpack _). vm_compute. exact I.
  - assert (glob_ja_html scenario_names = report_file <$> scenario_dates) as ->.
    { vm_compute. reflexivity. }
    reflexivity.
  - apply (bool_decide_unpack _). vm_compute. exact I.
Defined.

(** ** The pipeline *)

Lemma objects_of_seq (items : list NewsItem) (h : heap) :
  objects_of items h <$> seq 0 (length items) = items.
Proof.
  apply list_eq. intros i. rewrite list_lookup_fmap.
  destruct (decide (i < length items)) as [Hlt|Hge].
  - rewrite lookup_seq_lt by done. simpl.
    destruct (lookup_lt_is_Some_2 items i Hlt) as [x Hx].
    unfold objects_of. by rewrite Hx.
  - rewrite lookup_seq_ge by lia. simpl. symmetry. apply lookup_ge_None. lia.
Qed.

Lemma stable_groups_keys (items : list NewsItem) :
  (stable_groups items).*1 = first_occurrences (tool_name <$> items).
Proof.
  unfold stable_groups. rewrite <- list_fmap_compose. apply list_fmap_id.
Qed.

Lemma same_identity_tool_names (l1 l2 : list NewsItem) :
  Forall2 same_identity l1 l2 → tool_name <$> l1 = tool_name <$> l2.
Proof.
  induction 1 as [|x y l1 l2 Hxy _ IH]; [done|].
  rewrite !fmap_cons, IH. f_equal. apply Hxy.
Qed.

Lemma init_api_key_missing (api_key env : option string) :
  (api_key = None ∨ api_key = Some EmptyString) →
  (env = None ∨ env = Some EmptyString) →
  init_api_key api_key env = inl ValueError.
Proof. by intros [-> | ->] [-> | ->]. Qed.

Section PipelineProperties.
Context {World : Type}.
Variable _search_and_parse :
  World → string → string → string → Z → World * (exn + list NewsItem).
Variable date_filter_of : World → Z → exn + string.
Variable messages_create : World → list ItemData → World * (exn + string).
Variable re_search_json_block : string → option string.
Variable json_loads : string → option pyval.
Variable dict_slice_error : exn.
Variable now : World → World * datetime.
Variables index_head index_tail : string.

Abbreviation collect :=
  (collect_all_news _search_and_parse date_filter_of).
Abbreviation main :=
  (main_steps _search_and_parse date_filter_of messages_create
     re_search_json_block json_loads dict_slice_error now index_head index_tail).
Abbreviation summarize_objects :=
  (summarize_news messages_create re_search_json_block json_loads dict_slice_error).

(** The summariser hands back the objects it was given, with the fields
    it never writes as they were, when every content can be sliced. *)
Lemma summarize_news_objects w refs api_key env h k :
  init_api_key api_key env = inr k →
  Forall (λ item, sliceable (content (h item)) = true) refs →
  ∃ w' h',
    summarize_objects w refs api_key env h = (w', h', inr refs) ∧
    ∀ r, same_identity (h r) (h' r).
Proof.
  intros Hkey Hall. unfold summarize_news. rewrite Hkey.
  rewrite summarize_and_categorize_batches.
  pose proof (batches_loop_run messages_create re_search_json_block json_loads
                dict_slice_error w h refs (py_range0 (length refs) batch_size) [])
    as (_ & Hout & Hframe).
  change ((λ i, take batch_size (drop i refs)) <$> py_range0 (length refs) batch_size)
    with (batches_of refs) in Hout.
  rewrite <- (concat_batches_of refs) in Hall.
  rewrite (proj2 (payloads_of_sliceable dict_slice_error h _ Hall)) in Hout.
  rewrite concat_batches_of in Hout.
  destruct (batches_loop _ _ _ _ w h refs _ []) as [[w' h'] out].
  simpl in Hout, Hframe. exists w', h'. by rewrite Hout.
Qed.

(** It raises when the content of an object cannot be sliced. *)
Lemma summarize_news_raises w refs api_key env h k :
  init_api_key api_key env = inr k →
  Exists (λ item, sliceable (content (h item)) = false) refs →
  ∃ w' h' e,
    summarize_objects w refs api_key env h = (w', h', inl e) ∧
    (e = TypeError ∨ e = dict_slice_error).
Proof.
  intros Hkey Hbad. unfold summarize_news. rewrite Hkey.
  rewrite summarize_and_categorize_batches.
  pose proof (batches_loop_run messages_create re_search_json_block json_loads
                dict_slice_error w h refs (py_range0 (length refs) batch_size) [])
    as (_ & Hout & _).
  change ((λ i, take batch_size (drop i refs)) <$> py_range0 (length refs) batch_size)
    with (batches_of refs) in Hout.
  rewrite <- (concat_batches_of refs) in Hbad.
  destruct (payloads_of_unsliceable dict_slice_error h _ Hbad) as (e & He & Hcases).
  rewrite He in Hout.
  destruct (batches_loop _ _ _ _ w h refs _ []) as [[w' h'] out].
  simpl in Hout. exists w', h', e. by rewrite Hout.
Qed.

Lemma objects_of_contents (P : pyval → Prop) (collected : list NewsItem) (h : heap) :
  Forall (λ x, P (content x)) collected ↔
  Forall (λ item, P (content (objects_of collected h item))) (seq 0 (length collected)).
Proof.
  rewrite <- (objects_of_seq collected h) at 1.
  by rewrite Forall_fmap.
Qed.

(** X19: with the keys it needs, a clock that shows a year of four digits,
    a collection that returns and contents that can be sliced, the
    pipeline completes, and the report it generates is over the collected
    items, one for one and in the order of collection: summarising
    changes no title, url, tool name, source, content, date or raw data, so
    the report counts every collected item and lists the tools in the order
    in which they were first collected. The key of the summariser is needed
    only when something was collected. *)
Theorem main_steps_report w h names cfgs days_back max_results gemini_env
    anthropic_env k w1 collected :
  init_api_key None gemini_env = inr k →
  collect w cfgs days_back max_results = (w1, inr collected) →
  (collected = [] ∨ ∃ k', init_api_key None anthropic_env = inr k') →
  Forall (λ x, sliceable (content x) = true) collected →
  (∀ w, (1000 ≤ dt_year (now w).2)%Z) →
  ∃ w' names' report files,
    main w h names cfgs days_back max_results gemini_env anthropic_env =
      (w', names', inr (report, files)) ∧
    Forall2 same_identity collected (news_items report) ∧
    ri_total_count files.1 = length collected ∧
    (ri_news_by_tool files.1).*1 = first_occurrences (tool_name <$> collected) ∧
    report_name (date report) "ja" ∈ names' ∧
    report_name (date report) "en" ∈ names'.
Proof.
  intros Hgemini Hcollect Hanthropic Hcontents Hclock.
  unfold main_steps, collect_all_news_helper. rewrite Hgemini, Hcollect.
  set (h1 := objects_of collected h).
  set (objects := seq 0 (length collected)).
  assert (∃ w2 h2,
            match collected with
            | [] => (w1, h1, inr objects)
            | _ => summarize_objects w1 objects None anthropic_env h1
            end = (w2, h2, inr objects) ∧
            ∀ r, same_identity (h1 r) (h2 r)) as (w2 & h2 & -> & Hframe).
  { destruct (decide (collected = [])) as [->|Hne].
    - by exists w1, h1.
    - destruct Hanthropic as [?|[k' Hk']]; [done|].
      destruct (summarize_news_objects w1 objects None anthropic_env h1 k' Hk')
        as (w2 & h2 & Hrun & Hframe).
      { unfold objects, h1.
        by apply (objects_of_contents (λ c, sliceable c = true)). }
      exists w2, h2. split; [|done]. by destruct collected. }
  unfold generate_report_helper, languages_or_default.
  pose proof (Hclock w2) as Hyear.
  destruct (now w2) as [w3 d]. destruct (now w3) as [w4 g].
  rewrite generate_report_writes by done.
  eexists _, _, _, _. split; [reflexivity|].
  assert (Forall2 same_identity collected (h2 <$> objects)) as Hsame.
  { rewrite <- (objects_of_seq collected h) at 1. fold h1. fold objects.
    apply Forall2_fmap, Forall_Forall2_diag, Forall_forall. intros r _. apply Hframe. }
  cbn [news_items date fst snd render_input ri_total_count ri_news_by_tool foldl].
  split_and!.
  - done.
  - rewrite length_fmap. unfold objects. by rewrite length_seq.
  - rewrite (group_by_tool_stable_groups [] (h2 <$> objects)). cbn [app].
    rewrite stable_groups_keys. f_equal. symmetry. by apply same_identity_tool_names.
  - apply write_text_elem. left. apply write_text_elem. by right.
  - apply write_text_elem. by right.
Qed.

(** X20: the key of the summariser is checked after the collection: when
    something was collected and the environment holds no key for the
    summariser, the run ends in a [ValueError] once all searches are made,
    and writes no report. *)
Theorem main_steps_missing_summarizer_key w h names cfgs days_back max_results
    gemini_env anthropic_env k w1 collected :
  init_api_key None gemini_env = inr k →
  collect w cfgs days_back max_results = (w1, inr collected) →
  collected ≠ [] →
  anthropic_env = None ∨ anthropic_env = Some EmptyString →
  main w h names cfgs days_back max_results gemini_env anthropic_env =
    (w1, names, inl ValueError).
Proof.
  intros Hgemini Hcollect Hsome Hnone.
  unfold main_steps, collect_all_news_helper. rewrite Hgemini, Hcollect.
  destruct collected as [|x collected]; [done|].
  unfold summarize_news. by rewrite init_api_key_missing by (done || by left).
Qed.

(** X21: both helpers construct their client first: without a key, given
    or in the environment (an empty one counts as none), they raise
    [ValueError] before any request is made and leave the items as they
    are, also for an empty list of tools or of items. *)
Theorem helpers_require_api_key w h cfgs days_back max_results refs api_key env :
  api_key = None ∨ api_key = Some EmptyString →
  env = None ∨ env = Some EmptyString →
  collect_all_news_helper _search_and_parse date_filter_of w cfgs days_back
    max_results api_key env = (w, inl ValueError) ∧
  summarize_objects w refs api_key env h = (w, h, inl ValueError).
Proof.
  intros Hkey Henv. unfold collect_all_news_helper, summarize_news.
  by rewrite init_api_key_missing.
Qed.

(** X24: what the collector kept can end the run. With both keys, a
    collection that returns an item whose content is a true value other
    than a string or a list makes the summariser raise while it builds a
    payload: the run ends in that exception and writes no report. *)
Theorem main_steps_unsliceable_content w h names cfgs days_back max_results
    gemini_env anthropic_env k k' w1 collected :
  init_api_key None gemini_env = inr k →
  init_api_key None anthropic_env = inr k' →
  collect w cfgs days_back max_results = (w1, inr collected) →
  Exists (λ x, sliceable (content x) = false) collected →
  ∃ w' e,
    main w h names cfgs days_back max_results gemini_env anthropic_env =
      (w', names, inl e) ∧
    (e = TypeError ∨ e = dict_slice_error).
Proof.
  intros Hgemini Hanthropic Hcollect Hbad.
  unfold main_steps, collect_all_news_helper. rewrite Hgemini, Hcollect.
  assert (collected ≠ []) as Hne.
  { intros ->. by apply Exists_nil in Hbad. }
  destruct (summarize_news_raises w1 (seq 0 (length collected)) None anthropic_env
              (objects_of collected h) k' Hanthropic) as (w2 & h2 & e & Hrun & Hcases).
  { apply Exists_exists in Hbad as (y & Hy & Hbad).
    apply list_elem_of_lookup in Hy as [i Hi].
    apply Exists_exists. exists i. split.
    - apply elem_of_seq. apply lookup_lt_Some in Hi. lia.
    - unfold objects_of. by rewrite Hi. }
  destruct collected as [|x rest]; [done|].
  rewrite Hrun. by exists w2, e.
Qed.

End PipelineProperties.

(** X19 on a run that collects four items of two tools. *)
Lemma main_steps_report_witness :
  ∃ w' names' report files,
    main_steps pipeline_search pipeline_date_filter pipeline_messages_create
      no_json_block scenario_json_loads TypeError pipeline_now EmptyString EmptyString
      pipeline_world store0 scenario_names [tool_a; tool_b] 1 10
      (Some "gemini-key") (Some "anthropic-key") = (w', names', inr (report, files)) ∧
    Forall2 same_identity [item_a1; item_a2; item_a3; item_b1] (news_items report) ∧
    ri_total_count files.1 = 4 ∧
    (ri_news_by_tool files.1).*1 = ["tool-a"; "tool-b"] ∧
    report_name (date report) "ja" ∈ names' ∧
    report_name (date report) "en" ∈ names'.
Proof.
  apply (main_steps_report pipeline_search pipeline_date_filter
           pipeline_messages_create no_json_block scenario_json_loads TypeError
           pipeline_now EmptyString EmptyString pipeline_world store0 scenario_names
           [tool_a; tool_b] 1 10 (Some "gemini-key") (Some "anthropic-key")
           "gemini-key" ([], [inr "reply: results 0 and 2"], 0%Z)
           [item_a1; item_a2; item_a3; item_b1]).
  - reflexivity.
  - reflexivity.
  - right. exists "anthropic-key". reflexivity.
  - apply (bool_decide_unpack _). vm_compute. exact I.
  - intros [[s m] t]. simpl. lia.
Defined.

(** X20 on the same run without a key for the summariser. *)
Lemma main_steps_missing_summarizer_key_witness :
  main_steps pipeline_search pipeline_date_filter pipeline_messages_create
    no_json_block scenario_json_loads TypeError pipeline_now EmptyString EmptyString
    pipeline_world store0 scenario_names [tool_a; tool_b] 1 10
    (Some "gemini-key") None =
  (([], [inr "reply: results 0 and 2"], 0%Z), scenario_names, inl ValueError).
Proof.
  apply (main_steps_missing_summarizer_key pipeline_search pipeline_date_filter
           pipeline_messages_create no_json_block scenario_json_loads TypeError
           pipeline_now EmptyString EmptyString pipeline_world store0 scenario_names
           [tool_a; tool_b] 1 10 (Some "gemini-key") None "gemini-key"
           ([], [inr "reply: results 0 and 2"], 0%Z)
           [item_a1; item_a2; item_a3; item_b1]).
  - reflexivity.
  - reflexivity.
  - discriminate.
  - by left.
Defined.

(** X21 on an empty key given and none in the environment. *)
Lemma helpers_require_api_key_witness :
  collect_all_news_helper pipeline_search pipeline_date_filter pipeline_world
    [tool_a; tool_b] 1 10 (Some EmptyString) None = (pipeline_world, inl ValueError) ∧
  summarize_news pipeline_messages_create no_json_block scenario_json_loads TypeError
    pipeline_world [] (Some EmptyString) None store0 =
    (pipeline_world, store0, inl ValueError).
Proof.
  apply (helpers_require_api_key pipeline_search pipeline_date_filter
           pipeline_messages_create no_json_block scenario_json_loads TypeError
           pipeline_world store0 [tool_a; tool_b] 1 10 [] (Some EmptyString) None).
  - by right.
  - by left.
Defined.

(** X24 on a run whose second search returns a number for a snippet. *)
Lemma main_steps_unsliceable_content_witness :
  ∃ w' e,
    main_steps pipeline_search pipeline_date_filter pipeline_messages_create
      no_json_block scenario_json_loads TypeError pipeline_now EmptyString EmptyString
      ([inr [item_a1]; inr [item_numeric_snippet]; inr []],
       [inr "reply: results 0 and 2"], 0%Z)
      store0 scenario_names [tool_a; tool_b] 1 10
      (Some "gemini-key") (Some "anthropic-key") = (w', scenario_names, inl e) ∧
    (e = TypeError ∨ e = TypeError).
Proof.
  apply (main_steps_unsliceable_content pipeline_search pipeline_date_filter
           pipeline_messages_create no_json_block scenario_json_loads TypeError
           pipeline_now EmptyString EmptyString _ store0 scenario_names
           [tool_a; tool_b] 1 10 (Some "gemini-key") (Some "anthropic-key")
           "gemini-key" "anthropic-key" ([], [inr "reply: results 0 and 2"], 0%Z)
           [item_a1; item_numeric_snippet]).
  - reflexivity.
  - reflexivity.
  - reflexivity.
  - right. left. reflexivity.
Defined.

(** ** Tool configurations *)

Lemma py_slice_to_nil {A} (n : Z) : py_slice_to (@nil A) n = [].
Proof. unfold py_slice_to. case_decide; [by rewrite take_nil|]. simpl. by rewrite take_nil. Qed.

Section ToolConfigProperties.
Context {World : Type}.
Variable _search_and_parse :
  World → string → string → string → Z → World * (exn + list NewsItem).
Variable date_filter_of : World → Z → exn + string.

(** X22: a tool whose entry in the configuration has no [search_queries]
    is never searched: [from_dict] gives it an empty list of queries, and
    [search_tool_news] then makes no request; it returns no item, whatever
    the cap, unless the date filter overflows, in which case it raises
    that [OverflowError]. *)
Theorem tool_without_queries_not_searched data cfg w days_back max_results :
  ToolConfig_from_dict data = Some (inr cfg) →
  dict_lookup data "search_queries" = None →
  search_tool_news _search_and_parse date_filter_of w cfg days_back max_results =
    (w, match date_filter_of w days_back with
        | inl e => inl e
        | inr _ => inr []
        end).
Proof.
  intros Hcfg Hnone.
  assert (search_queries cfg = []) as Hqueries.
  { assert (field_list_default data "search_queries" = Some (inr [])) as Hq.
    { unfold field_list_default. by rewrite Hnone. }
    unfold ToolConfig_from_dict in Hcfg. rewrite Hq in Hcfg.
    destruct (field_required data "name") as [[e|n]|]; [done| |done].
    destruct (field_default data "vendor" EmptyString) as [[e|v]|]; [done| |done].
    destruct (field_list_default data "keywords") as [[e|kw]|]; [done| |done].
    cbn [and_then] in Hcfg.
    destruct (field_list_default data "official_links") as [[e|ol]|]; [done| |done].
    cbn [and_then] in Hcfg. by injection Hcfg as <-. }
  unfold search_tool_news. rewrite Hqueries.
  destruct (date_filter_of w days_back) as [e|date_filter]; [done|].
  cbn [gather_queries dedup_loop]. by rewrite py_slice_to_nil.
Qed.

End ToolConfigProperties.

(** X22 on an entry that names the tool only. *)
Lemma tool_without_queries_not_searched_witness :
  search_tool_news scripted_search fixed_date_filter [inr [item_a1]]
    {| name := "tool-c"; vendor := EmptyString; keywords := [];
       search_queries := []; official_links := [] |} 1 10 =
    ([inr [item_a1]], inr []).
Proof.
  apply (tool_without_queries_not_searched scripted_search fixed_date_filter
           tool_entry_name_only).
  - reflexivity.
  - reflexivity.
Defined.

Lemma field_list_default_ext (data data' : list (string * pyval)) (k : string) :
  dict_lookup data k = dict_lookup data' k →
  field_list_default data k = field_list_default data' k.
Proof. unfold field_list_default. by intros ->. Qed.

(** X23: [ToolConfig.from_dict] reads the five keys of a tool and nothing
    else: two entries that agree on them give the same result, whatever
    other keys they hold and in whatever order; in particular both raise
    [KeyError] when the [name], the only key that is required, is missing. *)
Theorem ToolConfig_from_dict_keys (data data' : list (string * pyval)) :
  Forall (λ k, dict_lookup data k = dict_lookup data' k) tool_config_keys →
  ToolConfig_from_dict data = ToolConfig_from_dict data' ∧
  (dict_lookup data "name" = None → ToolConfig_from_dict data' = Some (inl KeyError)).
Proof.
  intros Hkeys.
  assert (ToolConfig_from_dict data = ToolConfig_from_dict data') as Heq.
  { unfold tool_config_keys in Hkeys.
    repeat (apply Forall_cons in Hkeys as [? Hkeys]).
    unfold ToolConfig_from_dict, field_required, field_default.
    rewrite (field_list_default_ext data data' "keywords") by done.
    rewrite (field_list_default_ext data data' "search_queries") by done.
    rewrite (field_list_default_ext data data' "official_links") by done.
    by repeat match goal with H : dict_lookup data _ = _ |- _ => rewrite H; clear H end. }
  split; [done|].
  intros Hname. rewrite <- Heq. unfold ToolConfig_from_dict, field_required.
  by rewrite Hname.
Qed.

(** X23 on two entries that differ in the order and in a key that is not
    read. *)
Lemma ToolConfig_from_dict_keys_witness :
  ToolConfig_from_dict tool_entry_name_only =
    ToolConfig_from_dict [("notes", PInt 3); ("name", PStr "tool-c")].
Proof.
  apply (ToolConfig_from_dict_keys tool_entry_name_only
           [("notes", PInt 3); ("name", PStr "tool-c")]).
  repeat (apply Forall_cons; split; [reflexivity|]). constructor.
Defined.

(** X25 on two tools whose searches get the same reply. *)
Lemma collect_parsed_news_unique_per_tool_and_url_witness :
  ∃ out,
    (collect_all_news
       (parsed_search scripted_generate_content no_json_block search_json_loads
          scenario_strptime)
       fixed_date_filter
       [inr "reply: three entries"; inr "reply: an entry and a bare string";
        inr "reply: three entries"]
       [tool_a; tool_b] 1 10).2 = inr out ∧
    length out = 4 ∧
    Forall (λ x, tool_name x ∈ name <$> [tool_a; tool_b]) out ∧
    NoDup ((λ x, (tool_name x, url_element x)) <$> out) ∧
    NoDup ((λ x, (tool_name x, url x)) <$> out).
Proof.
  eexists. split; [vm_compute; reflexivity|]. split; [reflexivity|].
  apply (collect_parsed_news_unique_per_tool_and_url scripted_generate_content
           no_json_block search_json_loads scenario_strptime fixed_date_filter
           [inr "reply: three entries"; inr "reply: an entry and a bare string";
            inr "reply: three entries"]
           [tool_a; tool_b] 1 10).
  - apply (bool_decide_unpack _). vm_compute. exact I.
  - vm_compute. reflexivity.
Defined.
